(** * Solar Challenge dashboard: the data utilities of [notebooks/app/utils.py]

    A shallow embedding of the functions of [utils.py]
    ([load_country_data], [load_all_countries], [preprocess_data],
    [filter_data], [get_metric_info], [calculate_summary_stats],
    [get_top_n_records]) together with the pandas operations they are written
    with, of what the script [main.py] computes with them, and the properties
    of the data pipeline proved about them.

    Conventions.
    - A frame is stored row-wise.  [columns] lists the labels the frame has;
      a field of a row whose label is not among [columns] carries no
      information, and the functions below read a field only after its label
      has been looked up.
    - A float64 cell is an exact rational or NaN ([option Q], [None] = NaN),
      and the arithmetic of the aggregations is exact: what is stated of
      their values allows for the rounding errors of float64.
      A datetime64 cell is a whole number of days since 1970-01-01 or NaT
      ([option Z], [None] = NaT); every timestamp the pipeline builds is a
      midnight.
    - A string is the sequence of its bytes, which for ASCII strings are its
      characters; what depends on the case of characters is stated of ASCII
      strings.
    - [numpy.argsort] is taken by its contract, a permutation along which the
      keys do not decrease; numpy's generic quicksort is one such kernel.
    - The [st.cache_data] decorators only memoise and are left out. *)

From Stdlib Require Import ZArith QArith Qround Qabs List String Ascii.
From Stdlib Require Import Permutation Sorted Lia Lqa Bool.
From stdpp Require Import base list gmap strings sorting.
Import ListNotations.
Local Open Scope Z_scope.

(** ** Exceptions and results *)

Inductive exn : Type :=
| FileNotFoundError (path : string)
| ReadError                                  (* anything [pd.read_csv] raises *)
| ValueError_missing_columns (missing_cols : list string)
| ValueError_assemble                        (* cannot assemble the datetimes *)
| ValueError_no_data                         (* No data could be loaded *)
| ValueError_no_objects                      (* No objects to concatenate *)
| KeyError (label : string)
| TypeError.

Inductive result (A : Type) : Type :=
| Ok (a : A)
| Raise (e : exn).
Arguments Ok {A} a.
Arguments Raise {A} e.

#[global] Instance result_ret : MRet result := λ A a, Ok a.
#[global] Instance result_bind : MBind result := λ A B k r,
  match r with
  | Ok a => k a
  | Raise e => Raise e
  end.

(** ** Insertion sort *)

Fixpoint insert_by {A} (before : A → A → bool) (x : A) (l : list A) : list A :=
  match l with
  | [] => [x]
  | y :: l' => if before x y then x :: l else y :: insert_by before x l'
  end.

Definition insertion_sort {A} (before : A → A → bool) (l : list A) : list A :=
  fold_right (insert_by before) [] l.

(** ** What the source leaves to numpy and pandas

    [sort_index()] and [sort_values(by=..., ascending=...)] are called with
    the default [kind="quicksort"], of which the pandas documentation says
    that "mergesort and stable are the only stable algorithms".  Both end in
    [numpy.argsort(kind="quicksort")], taken here by what numpy promises of
    it: an index array that is a permutation and along which the keys are
    non-decreasing, and nothing about ties.

    [pd.to_datetime] on a frame of year, month and day columns computes
    [year*10000 + month*100 + day] and parses that number against [%Y%m%d]
    ([_assemble_from_unit_mappings] in [pandas/core/tools/datetimes.py]).
    What it makes of a number whose leading part is not a year between 1678
    and 2261, the years datetime64[ns] holds whole, depends on the pandas
    version and is left open. *)

Definition reorder {A} (indexer : list nat) (l : list A) : list A :=
  omap (λ i, l !! i) indexer.

Class Pandas : Type := {
  argsort : list Q → list nat;
  argsort_perm : ∀ ks, Permutation (argsort ks) (seq 0 (length ks));
  argsort_sorted : ∀ ks, StronglySorted Qle (reorder (argsort ks) ks);
  strptime_other : Z → option Z
}.

(** ** Calendar *)

Definition is_leap (y : Z) : bool :=
  (y mod 4 =? 0) && (negb (y mod 100 =? 0) || (y mod 400 =? 0)).

Definition days_in_month (y m : Z) : Z :=
  if m =? 2 then (if is_leap y then 29 else 28)
  else if (m =? 4) || (m =? 6) || (m =? 9) || (m =? 11) then 30
  else 31.

Definition valid_date (y m d : Z) : bool :=
  (1 <=? m) && (m <=? 12) && (1 <=? d) && (d <=? days_in_month y m).

(** Days from 1970-01-01 to the civil date [y-m-d]. *)
Definition days_from_civil (y m d : Z) : Z :=
  let y' := if m <=? 2 then y - 1 else y in
  let era := y' / 400 in
  let yoe := y' - era * 400 in
  let doy := (153 * (if 2 <? m then m - 3 else m + 9) + 2) / 5 + d - 1 in
  let doe := yoe * 365 + yoe / 4 - yoe / 100 + doy in
  era * 146097 + doe - 719468.

(** ** Frames *)

Inductive Label : Type :=
| RangeLabel (i : nat)
| TimeLabel (t : option Z).

Record Row : Type := mkRow {
  index : Label;
  Timestamp : option Z;
  YEAR : Z;
  MO : Z;
  DY : Z;
  T2M : option Q;
  WS10M_MIN : option Q;
  Country : string
}.

Inductive IndexKind : Type := RangeIndex | DatetimeIndex.

Record DataFrame : Type := mkDataFrame {
  index_kind : IndexKind;
  columns : list string;
  rows : list Row
}.

Definition set_index_label (l : Label) (r : Row) : Row :=
  mkRow l (Timestamp r) (YEAR r) (MO r) (DY r) (T2M r) (WS10M_MIN r) (Country r).
Definition set_Timestamp (t : option Z) (r : Row) : Row :=
  mkRow (index r) t (YEAR r) (MO r) (DY r) (T2M r) (WS10M_MIN r) (Country r).
Definition set_T2M (v : option Q) (r : Row) : Row :=
  mkRow (index r) (Timestamp r) (YEAR r) (MO r) (DY r) v (WS10M_MIN r) (Country r).
Definition set_WS10M_MIN (v : option Q) (r : Row) : Row :=
  mkRow (index r) (Timestamp r) (YEAR r) (MO r) (DY r) (T2M r) v (Country r).
Definition set_Country (c : string) (r : Row) : Row :=
  mkRow (index r) (Timestamp r) (YEAR r) (MO r) (DY r) (T2M r) (WS10M_MIN r) c.

(** The two tracked metrics, the float columns the dashboard offers. *)
Inductive Metric : Type := metric_T2M | metric_WS10M_MIN.

Definition metric_label (m : Metric) : string :=
  match m with
  | metric_T2M => "T2M"
  | metric_WS10M_MIN => "WS10M_MIN"
  end.

Definition getitem (m : Metric) (r : Row) : option Q :=
  match m with
  | metric_T2M => T2M r
  | metric_WS10M_MIN => WS10M_MIN r
  end.

Definition setitem (m : Metric) (v : option Q) (r : Row) : Row :=
  match m with
  | metric_T2M => set_T2M v r
  | metric_WS10M_MIN => set_WS10M_MIN v r
  end.

Definition has_column (col : string) (df : DataFrame) : bool :=
  existsb (String.eqb col) (columns df).

Definition label_time (l : Label) : option Z :=
  match l with
  | RangeLabel _ => None
  | TimeLabel t => t
  end.

(** ** pandas *)

Module pd.

(** [Series.ffill()]: a NaN takes the last valid value before it. *)
Fixpoint ffill_from {A} (last : option A) (s : list (option A)) : list (option A) :=
  match s with
  | [] => []
  | Some v :: s' => Some v :: ffill_from (Some v) s'
  | None :: s' => last :: ffill_from last s'
  end.

Definition ffill {A} (s : list (option A)) : list (option A) := ffill_from None s.

(** [Series.bfill()]: a NaN takes the next valid value after it. *)
Fixpoint bfill {A} (s : list (option A)) : list (option A) :=
  match s with
  | [] => []
  | Some v :: s' => Some v :: bfill s'
  | None :: s' => let s'' := bfill s' in
                  match s'' with
                  | v :: _ => v :: s''
                  | [] => [None]
                  end
  end.

(** [df[col] = values], the values lining up with the rows. *)
Definition assign {A} (set : A → Row → Row) (values : list A) (rs : list Row) : list Row :=
  zip_with (λ r v, set v r) rs values.

Definition add_column (col : string) (cols : list string) : list string :=
  if existsb (String.eqb col) cols then cols else cols ++ [col].

(** [df[mask]] for a boolean mask. *)
Definition getitem_mask {A} (mask : list bool) (rs : list A) : list A :=
  map fst (List.filter snd (zip rs mask)).

(** Positions of the cells that satisfy [p]. *)
Definition positions {A} (p : A → bool) (l : list A) : list nat :=
  map fst (List.filter (λ ik, p ik.2) (zip (seq 0 (length l)) l)).

Definition isna {A} (c : option A) : bool :=
  match c with
  | Some _ => false
  | None => true
  end.

Definition ord_key (t : option Z) : option Q := inject_Z <$> t.

Definition label_ord (l : Label) : option Z :=
  match l with
  | RangeLabel i => Some (Z.of_nat i)
  | TimeLabel t => t
  end.

(** [Index.is_monotonic_increasing]; a NaT anywhere makes it false. *)
Fixpoint is_monotonic_increasing (ts : list (option Z)) : bool :=
  match ts with
  | [] => true
  | None :: _ => false
  | Some a :: ts' =>
      match ts' with
      | [] => true
      | None :: _ => false
      | Some b :: _ => (a <=? b) && is_monotonic_increasing ts'
      end
  end.

(** [DataFrame.head(n)] is [iloc[:n]]: a negative [n] drops the last [-n] rows. *)
Definition head {A} (n : Z) (rs : list A) : list A :=
  if 0 <=? n then firstn (Z.to_nat n) rs
  else firstn (length rs - Z.to_nat (- n)) rs.

Definition isin (c : string) (values : list string) : bool :=
  existsb (String.eqb c) values.

Definition wrap64 (z : Z) : Z := (z + 2 ^ 63) mod 2 ^ 64 - 2 ^ 63.

(** The int64 number [to_datetime] assembles from the three columns. *)
Definition assemble (r : Row) : Z :=
  wrap64 (YEAR r * 10000 + MO r * 100 + DY r).

Section with_pandas.
Context `{Pandas}.

(** Parsing the assembled number against [%Y%m%d]. *)
Definition strptime_Ymd (v : Z) : option Z :=
  let y := v / 10000 in
  let m := (v / 100) mod 100 in
  let d := v mod 100 in
  if (1678 <=? y) && (y <=? 2261) then
    if valid_date y m d then Some (days_from_civil y m d) else None
  else strptime_other v.

(** [pd.to_datetime(df[["YEAR", "MO", "DY"]].rename(...))], [errors="raise"]. *)
Fixpoint to_datetime (rs : list Row) : result (list (option Z)) :=
  match rs with
  | [] => Ok []
  | r :: rs' =>
      match strptime_Ymd (assemble r) with
      | None => Raise ValueError_assemble
      | Some t => ts ← to_datetime rs'; Ok (Some t :: ts)
      end
  end.

(** [pandas.core.sorting.nargsort] with [kind="quicksort"], [na_position="last"]. *)
Definition nargsort (ascending : bool) (items : list (option Q)) : list nat :=
  let non_nans := omap id items in
  let non_nan_idx := positions (λ c, negb (isna c)) items in
  let nan_idx := positions isna items in
  let non_nans := if ascending then non_nans else rev non_nans in
  let non_nan_idx := if ascending then non_nan_idx else rev non_nan_idx in
  let indexer := reorder (argsort non_nans) non_nan_idx in
  let indexer := if ascending then indexer else rev indexer in
  indexer ++ nan_idx.

(** [df.sort_index()]: an index already in order is left as it is. *)
Definition sort_index (df : DataFrame) : DataFrame :=
  let target := map (λ r, label_ord (index r)) (rows df) in
  if is_monotonic_increasing target then df
  else mkDataFrame (index_kind df) (columns df)
         (reorder (nargsort true (map ord_key target)) (rows df)).

(** [df.sort_values(by=metric, ascending=ascending)]. *)
Definition sort_values (by_ : Metric) (ascending : bool) (df : DataFrame)
  : result DataFrame :=
  if has_column (metric_label by_) df then
    Ok (mkDataFrame (index_kind df) (columns df)
          (reorder (nargsort ascending (map (getitem by_) (rows df))) (rows df)))
  else Raise (KeyError (metric_label by_)).

End with_pandas.

(** [df.set_index("Timestamp")]: the column becomes the index. *)
Definition set_index_Timestamp (df : DataFrame) : DataFrame :=
  mkDataFrame DatetimeIndex
    (List.filter (λ c, negb (String.eqb c "Timestamp")) (columns df))
    (map (λ r, set_index_label (TimeLabel (Timestamp r)) r) (rows df)).

(** [pd.concat(frames, ignore_index=True)]: the labels are the union of the
    frames' labels in order of appearance, a float or datetime cell a frame
    has no label for is NaN, and the rows are numbered afresh.  An integer
    cell a frame has no label for would be NaN as well, which the fields
    YEAR, MO and DY of a row cannot hold: [pad] leaves them as they are, and
    what is said below of the date fields of a merged table is said of
    frames that agree on which of the three labels they have. *)
Definition union_columns (frames : list DataFrame) : list string :=
  fold_left (λ acc df, fold_left (λ a c, add_column c a) (columns df) acc) frames [].

Definition pad (df : DataFrame) (r : Row) : Row :=
  mkRow (index r)
    (if has_column "Timestamp" df then Timestamp r else None)
    (YEAR r) (MO r) (DY r)
    (if has_column "T2M" df then T2M r else None)
    (if has_column "WS10M_MIN" df then WS10M_MIN r else None)
    (Country r).

Definition renumber (rs : list Row) : list Row :=
  zip_with (λ i r, set_index_label (RangeLabel i) r) (seq 0 (length rs)) rs.

Definition concat (frames : list DataFrame) : result DataFrame :=
  match frames with
  | [] => Raise ValueError_no_objects
  | _ => Ok (mkDataFrame RangeIndex (union_columns frames)
               (renumber (flat_map (λ df, map (pad df) (rows df)) frames)))
  end.

End pd.

(** ** Python strings (ASCII) *)

(** A string is the sequence of its bytes.  For a string of ASCII characters
    these are its characters, and the functions below are Python's: a
    character is cased when it is a letter of the Latin alphabet.  On other
    strings Python looks at code points and at the cased characters of
    Unicode, which the functions below do not: what is proved of [title] is
    stated of the strings that [isascii] accepts. *)

Module str.


Definition is_upper (c : ascii) : bool :=
  (65 <=? nat_of_ascii c)%nat && (nat_of_ascii c <=? 90)%nat.
Definition is_lower (c : ascii) : bool :=
  (97 <=? nat_of_ascii c)%nat && (nat_of_ascii c <=? 122)%nat.
Definition is_cased (c : ascii) : bool := is_upper c || is_lower c.

Definition upper (c : ascii) : ascii :=
  if is_lower c then ascii_of_nat (nat_of_ascii c - 32) else c.
Definition lower (c : ascii) : ascii :=
  if is_upper c then ascii_of_nat (nat_of_ascii c + 32) else c.

(** [s.replace(old, new)] for one-character [old] and [new]. *)
Fixpoint replace (old new : ascii) (s : string) : string :=
  match s with
  | EmptyString => EmptyString
  | String c s' => String (if Ascii.eqb c old then new else c) (replace old new s')
  end.

(** [s.title()]: a cased character is upper-cased when the character before
    it is not cased, and lower-cased otherwise. *)
Fixpoint title_from (previous_is_cased : bool) (s : string) : string :=
  match s with
  | EmptyString => EmptyString
  | String c s' =>
      String (if previous_is_cased then lower c else upper c)
             (title_from (is_cased c) s')
  end.

Definition title (s : string) : string := title_from false s.

End str.

(** ** [utils.py] *)

(** The data directory: what [data_dir / filename] holds.  [None] when the
    file does not exist, otherwise what [pd.read_csv] makes of it. *)
Definition DataDir : Type := string → option (result DataFrame).

(** What [st.warning] and [st.error] show. *)
Inductive message : Type :=
| st_warning (country : string) (e : exn)
| st_error (country : string) (e : exn).

Definition load_country_data (data_dir : DataDir) (country_name : string)
  : result DataFrame :=
  let filename := (country_name ++ "_clean.csv")%string in
  match data_dir filename with
  | None => Raise (FileNotFoundError filename)
  | Some read_csv =>
      df ← read_csv;
      Ok (mkDataFrame (index_kind df)
            (pd.add_column "Country" (columns df))
            (map (set_Country (str.title (str.replace "_" " " country_name)))
                 (rows df)))
  end.

Definition load_all_countries (data_dir : DataDir) (countries : option (list string))
  : result DataFrame * list message :=
  let countries := default ["benin"; "sierra_leone"; "togo"]%string countries in
  let countries := map (str.replace "-" "_") countries in
  let '(dataframes, shown) :=
    fold_left
      (λ '(dataframes, shown) country,
         match load_country_data data_dir country with
         | Ok df => (dataframes ++ [df], shown)
         | Raise (FileNotFoundError path) =>
             (dataframes, shown ++ [st_warning country (FileNotFoundError path)])
         | Raise e => (dataframes, shown ++ [st_error country e])
         end)
      countries ([], []) in
  match dataframes with
  | [] => (Raise ValueError_no_data, shown)
  | _ => (pd.concat dataframes, shown)
  end.

Definition required_cols : list string :=
  ["YEAR"; "MO"; "DY"; "T2M"; "WS10M_MIN"; "Country"]%string.

Definition column (m : Metric) (df : DataFrame) : list (option Q) :=
  map (getitem m) (rows df).

Definition set_column (m : Metric) (values : list (option Q)) (df : DataFrame)
  : DataFrame :=
  mkDataFrame (index_kind df)
    (pd.add_column (metric_label m) (columns df))
    (pd.assign (setitem m) values (rows df)).

Definition copy (df : DataFrame) : DataFrame := df.

Section utils.
Context `{Pandas}.

Definition preprocess_data (df : DataFrame) : result DataFrame :=
  let df_processed := copy df in
  let missing_cols :=
    List.filter (λ col, negb (has_column col df_processed)) required_cols in
  match missing_cols with
  | _ :: _ => Raise (ValueError_missing_columns missing_cols)
  | [] =>
      ts ← pd.to_datetime (rows df_processed);
      let df_processed :=
        mkDataFrame (index_kind df_processed)
          (pd.add_column "Timestamp" (columns df_processed))
          (pd.assign set_Timestamp ts (rows df_processed)) in
      let df_processed := pd.set_index_Timestamp df_processed in
      let df_processed := pd.sort_index df_processed in
      let df_processed :=
        set_column metric_T2M
          (pd.bfill (pd.ffill (column metric_T2M df_processed))) df_processed in
      let df_processed :=
        set_column metric_WS10M_MIN
          (pd.bfill (pd.ffill (column metric_WS10M_MIN df_processed))) df_processed in
      Ok df_processed
  end.

Definition filter_data (df : DataFrame) (countries : list string)
    (date_range : Z * Z) : result DataFrame :=
  if negb (has_column "Country" df) then Raise (KeyError "Country")
  else
    let df_filtered :=
      copy (mkDataFrame (index_kind df) (columns df)
              (pd.getitem_mask
                 (map (λ r, pd.isin (Country r) countries) (rows df)) (rows df))) in
    let '(start_date, end_date) := date_range in
    match index_kind df_filtered with
    | RangeIndex => Raise TypeError
    | DatetimeIndex =>
        let ge_start := map (λ r, match label_time (index r) with
                                  | Some t => start_date <=? t
                                  | None => false
                                  end) (rows df_filtered) in
        let le_end := map (λ r, match label_time (index r) with
                                | Some t => t <=? end_date
                                | None => false
                                end) (rows df_filtered) in
        Ok (mkDataFrame (index_kind df_filtered) (columns df_filtered)
              (pd.getitem_mask (zip_with andb ge_start le_end) (rows df_filtered)))
    end.

(** A row of the frame [get_top_n_records] returns: columns
    [Date], [Country] and the metric. *)
Record TopRecord : Type := mkTopRecord {
  Date : Label;
  top_Country : string;
  top_value : option Q
}.

Definition get_top_n_records (df : DataFrame) (metric : Metric) (n : Z)
    (ascending : bool) : result (list TopRecord) :=
  df_sorted ← pd.sort_values metric ascending df;
  let top_n := pd.head n (rows df_sorted) in
  if negb (has_column "Country" df_sorted)
  then Raise (KeyError "['Country'] not in index")
  else Ok (map (λ r, mkTopRecord (index r) (Country r) (getitem metric r)) top_n).

End utils.

(** *** [calculate_summary_stats]

    An aggregate is an exact rational, or the square root of one for
    [std]; rounding to two decimals brings both back to a rational.

    pandas computes the aggregates and their rounding on float64: what it
    returns differs from the exact aggregate by the rounding errors of the
    float64 operations, and is the float64 number next to a whole number of
    hundredths, not that number itself.  The functions of [agg] are those of
    exact arithmetic.  What is stated of the values of a summary row is
    stated with an allowance for the errors of float64 ([float64_allowance]
    below), for values that float64 arithmetic does not overflow on. *)

Inductive number : Type :=
| Rat (q : Q)
| Sqrt (q : Q).

Module agg.

Definition sum (xs : list Q) : Q := fold_right Qplus 0%Q xs.

Definition count (xs : list Q) : Q := inject_Z (Z.of_nat (length xs)).

Definition mean (xs : list Q) : option number :=
  match xs with
  | [] => None
  | _ => Some (Rat (sum xs / count xs))
  end.

Definition sort (xs : list Q) : list Q := insertion_sort Qle_bool xs.

Definition median (xs : list Q) : option number :=
  let sorted := sort xs in
  let n := length xs in
  match n with
  | O => None
  | _ =>
      if Nat.odd n then Rat <$> sorted !! (n / 2)%nat
      else
        match sorted !! (n / 2 - 1)%nat, sorted !! (n / 2)%nat with
        | Some a, Some b => Some (Rat ((a + b) / 2))
        | _, _ => None
        end
  end.

Definition min (xs : list Q) : option number :=
  match xs with
  | [] => None
  | x :: xs' => Some (Rat (fold_left (λ a b, if Qle_bool b a then b else a) xs' x))
  end.

Definition max (xs : list Q) : option number :=
  match xs with
  | [] => None
  | x :: xs' => Some (Rat (fold_left (λ a b, if Qle_bool a b then b else a) xs' x))
  end.

(** Sample variance, [ddof=1]. *)
Definition var (xs : list Q) : Q :=
  let avg := (sum xs / count xs)%Q in
  (sum (map (λ x, (x - avg) * (x - avg)) xs) / (count xs - 1))%Q.

Definition std (xs : list Q) : option number :=
  match xs with
  | [] | [_] => None
  | _ => Some (Sqrt (var xs))
  end.

(** [numpy.rint]: the nearest integer, a tie going to the even one. *)
Definition rint (x : Q) : Z :=
  let f := Qfloor x in
  match (x - inject_Z f ?= 1 # 2)%Q with
  | Lt => f
  | Gt => f + 1
  | Eq => if Z.even f then f else f + 1
  end.

(** The same for a square root: [k] with [(2k-1)^2 <= 4x < (2k+1)^2]. *)
Definition rint_sqrt (x : Q) : Z :=
  let s := Z.sqrt (Qfloor (4 * x)) in
  let k := (s + 1) / 2 in
  if Qeq_bool (4 * x) (inject_Z ((2 * k - 1) * (2 * k - 1))) && Z.odd k
  then k - 1 else k.

(** [.round(decimals)]. *)
Definition round (decimals : nat) (v : option number) : option Q :=
  let scale := 10 ^ Z.of_nat decimals in
  match v with
  | None => None
  | Some (Rat q) => Some (Qred (inject_Z (rint (q * inject_Z scale)) / inject_Z scale))
  | Some (Sqrt q) =>
      Some (Qred (inject_Z (rint_sqrt (q * inject_Z (scale * scale))) / inject_Z scale))
  end.

End agg.

Record SummaryRow : Type := mkSummaryRow {
  Mean : option Q;
  Median : option Q;
  Min : option Q;
  Max : option Q;
  Std_Dev : option Q
}.

(** The keys of [df.groupby("Country")]: the distinct countries, sorted. *)
Definition group_keys (rs : list Row) : list string :=
  insertion_sort String.leb (remove_dups (map Country rs)).

(** The values of one group that the aggregations see: NaN is skipped. *)
Definition group_values (metric : Metric) (country : string) (rs : list Row) : list Q :=
  omap (getitem metric) (List.filter (λ r, String.eqb (Country r) country) rs).

Definition calculate_summary_stats (df : DataFrame) (metric : Metric)
  : result (list (string * SummaryRow)) :=
  if negb (has_column "Country" df) then Raise (KeyError "Country")
  else if negb (has_column (metric_label metric) df)
  then Raise (KeyError (metric_label metric))
  else
    Ok (map (λ country,
               let xs := group_values metric country (rows df) in
               (country,
                mkSummaryRow (agg.round 2 (agg.mean xs)) (agg.round 2 (agg.median xs))
                  (agg.round 2 (agg.min xs)) (agg.round 2 (agg.max xs))
                  (agg.round 2 (agg.std xs))))
            (group_keys (rows df))).

(** ** Sorting kernels

    [numpy.argsort(kind="quicksort")] as numpy's generic C code runs it
    ([aquicksort] in [numpy/core/src/npysort/quicksort]): an introsort on
    the index array [tosort], with a median-of-three partition while a part
    has more than [SMALL_QUICKSORT + 1] elements, an insertion sort on the
    parts that are left, and a heapsort on a part once the depth limit is
    used up.  It is the code numpy sorts datetime64 keys with, the keys of
    [sort_index] on a DatetimeIndex, and float64 keys where it has no
    vectorised argsort for the processor.  Pointers into [tosort] are
    positions here, and every loop runs on fuel that the array's length
    bounds. *)

Module npy.

Definition SMALL_QUICKSORT : nat := 16.

(** [a < b] on the keys. *)
Definition LT (a b : Q) : bool := negb (Qle_bool b a).

(** [*p] and [v[i]]. *)
Definition deref (tosort : list nat) (p : nat) : nat := default 0%nat (tosort !! p).
Definition val (v : list Q) (i : nat) : Q := default 0%Q (v !! i).

Definition INTP_SWAP (tosort : list nat) (p q : nat) : list nat :=
  <[q := deref tosort p]> (<[p := deref tosort q]> tosort).

(** [npy_get_msb]. *)
Definition npy_get_msb (unum : nat) : Z := Z.log2 (Z.of_nat unum).

(** [do ++pi; while (LT(v[*pi], vp));] *)
Fixpoint scan_up (fuel : nat) (v : list Q) (tosort : list nat) (vp : Q) (pi : nat) : nat :=
  match fuel with
  | O => pi
  | S fuel =>
      let pi := S pi in
      if LT (val v (deref tosort pi)) vp then scan_up fuel v tosort vp pi else pi
  end.

(** [do --pj; while (LT(vp, v[*pj]));] *)
Fixpoint scan_down (fuel : nat) (v : list Q) (tosort : list nat) (vp : Q) (pj : nat) : nat :=
  match fuel with
  | O => pj
  | S fuel =>
      let pj := pred pj in
      if LT vp (val v (deref tosort pj)) then scan_down fuel v tosort vp pj else pj
  end.

(** The [for (;;)] of the partition; returns the array and [pi]. *)
Fixpoint partition_loop (fuel : nat) (v : list Q) (vp : Q) (tosort : list nat)
    (pi pj : nat) : list nat * nat :=
  match fuel with
  | O => (tosort, pi)
  | S fuel =>
      let pi := scan_up (length tosort) v tosort vp pi in
      let pj := scan_down (length tosort) v tosort vp pj in
      if (pj <=? pi)%nat then (tosort, pi)
      else partition_loop fuel v vp (INTP_SWAP tosort pi pj) pi pj
  end.

(** The partition of the part from [pl] to [pr]: the median of the first,
    the middle and the last element goes to [pr - 1] as pivot, and comes
    back to where the two scans meet. *)
Definition partition (v : list Q) (tosort : list nat) (pl pr : nat) : list nat * nat :=
  let pm := (pl + (pr - pl) / 2)%nat in
  let tosort :=
    if LT (val v (deref tosort pm)) (val v (deref tosort pl))
    then INTP_SWAP tosort pm pl else tosort in
  let tosort :=
    if LT (val v (deref tosort pr)) (val v (deref tosort pm))
    then INTP_SWAP tosort pr pm else tosort in
  let tosort :=
    if LT (val v (deref tosort pm)) (val v (deref tosort pl))
    then INTP_SWAP tosort pm pl else tosort in
  let vp := val v (deref tosort pm) in
  let pi := pl in
  let pj := (pr - 1)%nat in
  let tosort := INTP_SWAP tosort pm pj in
  let '(tosort, pi) := partition_loop (length tosort) v vp tosort pi pj in
  let pk := (pr - 1)%nat in
  (INTP_SWAP tosort pi pk, pi).

(** [while (pj > pl && LT(vp, v[*pk])) *pj-- = *pk--;] with [pk = pj - 1]. *)
Fixpoint shift (fuel : nat) (v : list Q) (vp : Q) (pl : nat) (tosort : list nat)
    (pj : nat) : list nat * nat :=
  match fuel with
  | O => (tosort, pj)
  | S fuel =>
      let pk := (pj - 1)%nat in
      if (pl <? pj)%nat && LT vp (val v (deref tosort pk))
      then shift fuel v vp pl (<[pj := deref tosort pk]> tosort) pk
      else (tosort, pj)
  end.

(** The insertion sort of the part from [pl] to [pr]. *)
Definition insertion (v : list Q) (tosort : list nat) (pl pr : nat) : list nat :=
  fold_left
    (λ tosort pi,
       let vi := deref tosort pi in
       let vp := val v vi in
       let '(tosort, pj) := shift (length tosort) v vp pl tosort pi in
       <[pj := vi]> tosort)
    (seq (S pl) (pr - pl)) tosort.

(** [aheapsort] on the [n] elements from [pl]: [a = tosort + pl - 1] is
    indexed from 1. *)
Section heapsort.
Context (v : list Q) (pl : nat).

Definition a_ (tosort : list nat) (k : nat) : nat := deref tosort (pl + k - 1).
Definition set_a (tosort : list nat) (k x : nat) : list nat := <[(pl + k - 1)%nat := x]> tosort.

(** The inner [for (i, j; j <= n;)] and the [a[i] = tmp] after it. *)
Fixpoint sift (fuel : nat) (n tmp : nat) (tosort : list nat) (i j : nat) : list nat :=
  match fuel with
  | O => set_a tosort i tmp
  | S fuel =>
      if (j <=? n)%nat then
        let j := if (j <? n)%nat && LT (val v (a_ tosort j)) (val v (a_ tosort (j + 1)))
                 then (j + 1)%nat else j in
        if LT (val v tmp) (val v (a_ tosort j))
        then sift fuel n tmp (set_a tosort i (a_ tosort j)) j (j + j)
        else set_a tosort i tmp
      else set_a tosort i tmp
  end.

Definition aheapsort (tosort : list nat) (n : nat) : list nat :=
  let tosort :=
    fold_left (λ tosort l, sift n n (a_ tosort l) tosort l (l + l))
              (rev (seq 1 (n / 2))) tosort in
  fold_left
    (λ tosort n,
       let tmp := a_ tosort n in
       let tosort := set_a tosort n (a_ tosort 1) in
       sift n (n - 1) tmp tosort 1 2)
    (rev (seq 2 (n - 1))) tosort.

End heapsort.

(** The [while (1)] of [aquicksort].  [fresh] says that the part has just
    been taken up, at the start or from the stack, which is when the depth
    limit is looked at; the stack holds the parts put aside with their
    depths. *)
Fixpoint run (fuel : nat) (v : list Q) (tosort : list nat) (pl pr : nat) (cdepth : Z)
    (stack : list (nat * nat * Z)) (fresh : bool) : list nat :=
  match fuel with
  | O => tosort
  | S fuel =>
      let stack_pop (tosort : list nat) :=
        match stack with
        | [] => tosort
        | (pl, pr, cdepth) :: stack => run fuel v tosort pl pr cdepth stack true
        end in
      if fresh && (cdepth <? 0) then stack_pop (aheapsort v pl tosort (pr - pl + 1))
      else if (SMALL_QUICKSORT <? pr - pl)%nat then
        let '(tosort, pi) := partition v tosort pl pr in
        let cdepth := cdepth - 1 in
        if (pi - pl <? pr - pi)%nat
        then run fuel v tosort pl (pi - 1) cdepth ((S pi, pr, cdepth) :: stack) false
        else run fuel v tosort (S pi) pr cdepth ((pl, (pi - 1)%nat, cdepth) :: stack) false
      else stack_pop (insertion v tosort pl pr)
  end.

Definition aquicksort (v : list Q) : list nat :=
  let num := length v in
  run (2 * num + 2) v (seq 0 num) 0 (num - 1) (npy_get_msb num * 2) [] true.

(** Whether [indexer] sorts [v]: it holds every position once, and the keys
    along it do not decrease. *)
Fixpoint nondecreasing (ks : list Q) : bool :=
  match ks with
  | [] => true
  | a :: ks' =>
      match ks' with
      | [] => true
      | b :: _ => Qle_bool a b && nondecreasing ks'
      end
  end.

Definition sorts (indexer : list nat) (v : list Q) : bool :=
  bool_decide (insertion_sort Nat.leb indexer = seq 0 (length v))
  && nondecreasing (reorder indexer v).

End npy.

Definition argsort_with (before : Q → Q → bool) (ks : list Q) : list nat :=
  map fst (insertion_sort (λ a b, before a.2 b.2) (zip (seq 0 (length ks)) ks)).

(** The outcome of an insertion sort that keeps ties in their order: what
    [aquicksort] does on an array it does not partition. *)
Definition insertion_argsort : list Q → list nat := argsort_with Qle_bool.

(** [aquicksort], with its outcome looked over: numpy's sorts are taken to
    sort, and were the outcome not an index array that sorts the keys the
    insertion sort would stand in for it. *)
Definition quicksort_argsort (ks : list Q) : list nat :=
  let indexer := npy.aquicksort ks in
  if npy.sorts indexer ks then indexer else insertion_argsort ks.

(** ** Frames as objects

    Python passes frames by reference.  Here a frame lives at an address of
    a store; [df.copy()], [df[mask]], [set_index] and [sort_index] make a new
    object, [df[col] = values] writes into the object it is applied to. *)

Module obj.

Abbreviation heap := (gmap nat DataFrame).

Definition state (A : Type) : Type := heap → result A * heap.

#[global] Instance state_ret : MRet state := λ A a h, (Ok a, h).
#[global] Instance state_bind : MBind state := λ A B k m h,
  match m h with
  | (Ok a, h') => k a h'
  | (Raise e, h') => (Raise e, h')
  end.

Definition new (df : DataFrame) : state nat :=
  λ h, let l := fresh (dom h) in (Ok l, <[l := df]> h).

Definition get (l : nat) : state DataFrame :=
  λ h, match h !! l with
       | Some df => (Ok df, h)
       | None => (Raise TypeError, h)
       end.

Definition put (l : nat) (df : DataFrame) : state unit :=
  λ h, (Ok tt, <[l := df]> h).

Definition lift {A} (r : result A) : state A := λ h, (r, h).

Section utils.
Context `{Pandas}.

Definition preprocess_data (df : nat) : state nat :=
  df_processed ← (d ← get df; new (copy d));
  d ← get df_processed;
  let missing_cols := List.filter (λ col, negb (has_column col d)) required_cols in
  match missing_cols with
  | _ :: _ => lift (Raise (ValueError_missing_columns missing_cols))
  | [] =>
      ts ← lift (pd.to_datetime (rows d));
      _ ← put df_processed
            (mkDataFrame (index_kind d) (pd.add_column "Timestamp" (columns d))
               (pd.assign set_Timestamp ts (rows d)));
      df_processed ← (d ← get df_processed; new (pd.set_index_Timestamp d));
      df_processed ← (d ← get df_processed; new (pd.sort_index d));
      _ ← (d ← get df_processed;
           put df_processed
             (set_column metric_T2M (pd.bfill (pd.ffill (column metric_T2M d))) d));
      _ ← (d ← get df_processed;
           put df_processed
             (set_column metric_WS10M_MIN
                (pd.bfill (pd.ffill (column metric_WS10M_MIN d))) d));
      mret df_processed
  end.

Definition filter_data (df : nat) (countries : list string) (date_range : Z * Z)
  : state nat :=
  d ← get df;
  if negb (has_column "Country" d) then lift (Raise (KeyError "Country"))
  else
    selected ← new (mkDataFrame (index_kind d) (columns d)
                      (pd.getitem_mask
                         (map (λ r, pd.isin (Country r) countries) (rows d)) (rows d)));
    df_filtered ← (d ← get selected; new (copy d));
    let '(start_date, end_date) := date_range in
    d ← get df_filtered;
    match index_kind d with
    | RangeIndex => lift (Raise TypeError)
    | DatetimeIndex =>
        let ge_start := map (λ r, match label_time (index r) with
                                  | Some t => start_date <=? t
                                  | None => false
                                  end) (rows d) in
        let le_end := map (λ r, match label_time (index r) with
                                | Some t => t <=? end_date
                                | None => false
                                end) (rows d) in
        new (mkDataFrame (index_kind d) (columns d)
               (pd.getitem_mask (zip_with andb ge_start le_end) (rows d)))
    end.

End utils.

End obj.

(** ** The vocabulary of the specification *)

(** The last and the first valid value of a sequence. *)
Definition last_valid {A} (s : list (option A)) : option A := last (omap id s).
Definition first_valid {A} (s : list (option A)) : option A := head (omap id s).

(** Gap filling as the specification words it: the cell at position [i]
    keeps its value; when it is null it takes the nearest non-null value
    before it, and when there is none the nearest non-null value after it. *)
Definition nearest_fill {A} (s : list (option A)) (i : nat) : option A :=
  match s !! i with
  | Some (Some v) => Some v
  | _ =>
      match last_valid (take i s) with
      | Some v => Some v
      | None => first_valid (drop (S i) s)
      end
  end.

Section date_sorted.
Context `{Pandas}.

(** The date a record gets, and the merged table in date order: the frame
    [preprocess_data] holds after [sort_index()], before the gaps are filled. *)
Definition derived_date (r : Row) : option Z := pd.strptime_Ymd (pd.assemble r).

(** A record with its date written into the [Timestamp] cell and made its
    index label. *)
Definition stamp (r : Row) : Row :=
  set_index_label (TimeLabel (derived_date r)) (set_Timestamp (derived_date r) r).

(** The merged table once every record carries its date, before sorting. *)
Definition stamped (df : DataFrame) : DataFrame :=
  mkDataFrame DatetimeIndex
    (List.filter (λ c, negb (String.eqb c "Timestamp"))
                 (pd.add_column "Timestamp" (columns df)))
    (map stamp (rows df)).

Definition date_sorted (df : DataFrame) : result DataFrame :=
  match List.filter (λ col, negb (has_column col df)) required_cols with
  | (_ :: _) as missing_cols => Raise (ValueError_missing_columns missing_cols)
  | [] =>
      ts ← pd.to_datetime (rows df);
      Ok (pd.sort_index
            (pd.set_index_Timestamp
               (mkDataFrame (index_kind df) (pd.add_column "Timestamp" (columns df))
                  (pd.assign set_Timestamp ts (rows df)))))
  end.

End date_sorted.

(** The order [sort_values] and [sort_index] put cells in: values ascending
    or descending, nulls last either way. *)
Definition cell_le (ascending : bool) (a b : option Q) : Prop :=
  match a, b with
  | Some x, Some y => if ascending then (x <= y)%Q else (y <= x)%Q
  | _, None => True
  | None, Some _ => False
  end.

(** The required fields a table lacks, in the order the check names them. *)
Definition missing_fields (df : DataFrame) : list string :=
  List.filter (λ col, negb (has_column col df)) required_cols.

Definition valid_calendar_date (r : Row) : bool :=
  valid_date (YEAR r) (MO r) (DY r).

(** Month and day of at most two digits and a year that datetime64[ns]
    holds whole: the records whose date can be read back off the number
    [year*10000 + month*100 + day]. *)
Definition two_digit_fields (r : Row) : Prop :=
  1678 <= YEAR r <= 2261 ∧ 0 <= MO r < 100 ∧ 0 <= DY r < 100.

(** One of the two assignments [df[m] = df[m].ffill().bfill()]. *)
Definition fill_column (m : Metric) (df : DataFrame) : DataFrame :=
  set_column m (pd.bfill (pd.ffill (column m df))) df.

(** What identifies a record: everything but the index and the metric
    cells the gap filling may write. *)
Definition record_of (r : Row) : Z * Z * Z * string :=
  (YEAR r, MO r, DY r, Country r).

Section stability.
Context `{Pandas}.


End stability.

(** The metric cells of a row as its frame shows them: a metric the frame
    has no column for reads null. *)
Definition metric_cells (df : DataFrame) (r : Row) : option Q * option Q :=
  (if has_column "T2M" df then T2M r else None,
   if has_column "WS10M_MIN" df then WS10M_MIN r else None).

(** The date cells of a row as its frame shows them, those the frame has a
    column for. *)
Definition date_cells (df : DataFrame) (r : Row) : option Z * option Z * option Z :=
  (if has_column "YEAR" df then Some (YEAR r) else None,
   if has_column "MO" df then Some (MO r) else None,
   if has_column "DY" df then Some (DY r) else None).

(** The frames have the same date columns. *)
Definition same_date_columns (frames : list DataFrame) : Prop :=
  ∀ col df df',
    col ∈ ["YEAR"; "MO"; "DY"]%string → df ∈ frames → df' ∈ frames →
    has_column col df = has_column col df'.

(** The projection of a record that [get_top_n_records] returns. *)
Definition top_record (metric : Metric) (r : Row) : TopRecord :=
  mkTopRecord (index r) (Country r) (getitem metric r).

(** A record of one of the countries whose date lies in [[s, e]]. *)
Definition selected (countries : list string) (s e : Z) (r : Row) : bool :=
  pd.isin (Country r) countries
  && match label_time (index r) with
     | Some t => (s <=? t) && (t <=? e)
     | None => false
     end.

(** The ids [load_all_countries] calls the loader with. *)
Definition normalized (countries : option (list string)) : list string :=
  map (str.replace "-" "_") (default ["benin"; "sierra_leone"; "togo"]%string countries).

(** The frames of the countries that load, in the order of the ids. *)
Definition loaded (data_dir : DataDir) (ids : list string) : list DataFrame :=
  omap (λ country,
          match load_country_data data_dir country with
          | Ok df => Some df
          | Raise _ => None
          end) ids.

(** What is shown for the countries that do not load. *)
Definition skipped (data_dir : DataDir) (ids : list string) : list message :=
  omap (λ country,
          match load_country_data data_dir country with
          | Ok _ => None
          | Raise (FileNotFoundError path) =>
              Some (st_warning country (FileNotFoundError path))
          | Raise e => Some (st_error country e)
          end) ids.

(** The display name of a country id. *)
Definition display_name (country_name : string) : string :=
  str.title (str.replace "_" " " country_name).

(** A source's rows, each given the country's display name. *)
Definition tagged (country_name : string) (csv : DataFrame) : DataFrame :=
  mkDataFrame (index_kind csv) (pd.add_column "Country" (columns csv))
    (map (set_Country (display_name country_name)) (rows csv)).


(** Every object of [h] is in [h'], as it was. *)
Definition untouched (h h' : gmap nat DataFrame) : Prop :=
  ∀ l x, h !! l = Some x → h' !! l = Some x.

(** The outcome [r] in the store [h'] is the frame or the error [expected],
    the frame being an object that [h] did not have. *)
Definition returns_new (h h' : gmap nat DataFrame) (r : result nat)
    (expected : result DataFrame) : Prop :=
  match r, expected with
  | Ok l, Ok out => h !! l = None ∧ h' !! l = Some out
  | Raise e, Raise e' => e = e'
  | _, _ => False
  end.

(** [m], run from [h], ends with a value and a store that satisfy [Q], or
    with an error that satisfies [E] in a store that keeps [h0]. *)
Definition runs {A} (h0 : gmap nat DataFrame) (m : obj.state A)
    (h : gmap nat DataFrame)
    (Q : A → gmap nat DataFrame → Prop) (E : exn → Prop) : Prop :=
  match m h with
  | (Ok a, h') => Q a h'
  | (Raise e, h') => untouched h0 h' ∧ E e
  end.

(** [v] is [x] rounded to two decimals: a whole number of hundredths no
    further than half a hundredth from [x]. *)
Definition rounded2 (x v : Q) : Prop :=
  (∃ k : Z, v == inject_Z k / 100)%Q ∧ (Qabs (v - x) <= 1 # 200)%Q.

(** The same for the square root of [x >= 0], said without the root. *)
Definition rounded2_sqrt (x v : Q) : Prop :=
  (∃ k : Z, v == inject_Z k / 100)%Q
  ∧ (0 <= v)%Q
  ∧ (v == 0 ∨ (v - (1 # 200)) * (v - (1 # 200)) <= x)%Q
  ∧ (x <= (v + (1 # 200)) * (v + (1 # 200)))%Q.

(** The largest absolute value of a list. *)
Definition magnitude (xs : list Q) : Q :=
  fold_right (λ x m, if Qle_bool m (Qabs x) then Qabs x else m) 0%Q xs.

(** What is allowed for the rounding errors of float64 in an aggregate of
    [xs] and in its rounding: [(n + 1) * (magnitude + 1) / 2^40] for [n]
    values. *)
Definition float64_allowance (xs : list Q) : Q :=
  (inject_Z (Z.of_nat (length xs) + 1) * (magnitude xs + 1) / inject_Z (2 ^ 40))%Q.

(** The values float64 arithmetic stays finite on, in the aggregations of a
    frame. *)
Definition float64_range : Q := inject_Z (10 ^ 100).

(** [v] is [x] rounded to two decimals as float64 has it: within [tol] of a
    whole number of hundredths, and no further than half a hundredth and
    [tol] from [x]. *)
Definition rounded2_within (tol x v : Q) : Prop :=
  (∃ k : Z, Qabs (v - inject_Z k / 100) <= tol)%Q
  ∧ (Qabs (v - x) <= (1 # 200) + tol)%Q.

(** The same for the square root of [x >= 0], said without the root: [v]
    is no further than half a hundredth and [tol] from it. *)
Definition rounded2_sqrt_within (tol x v : Q) : Prop :=
  (∃ k : Z, Qabs (v - inject_Z k / 100) <= tol)%Q
  ∧ (0 <= v)%Q
  ∧ (v <= (1 # 200) + tol
     ∨ (v - (1 # 200) - tol) * (v - (1 # 200) - tol) <= x)%Q
  ∧ (x <= (v + (1 # 200) + tol) * (v + (1 # 200) + tol))%Q.

(** The cell holds a number within [tol] of [x]. *)
Definition reads (tol x : Q) (cell : option Q) : Prop :=
  ∃ v, cell = Some v ∧ (Qabs (v - x) <= tol)%Q.

(** The statistics of a non-empty list of values, before rounding. *)
Definition is_min (xs : list Q) (m : Q) : Prop :=
  m ∈ xs ∧ Forall (λ x, (m <= x)%Q) xs.

Definition is_max (xs : list Q) (m : Q) : Prop :=
  m ∈ xs ∧ Forall (λ x, (x <= m)%Q) xs.

Definition is_median (xs : list Q) (m : Q) : Prop :=
  ∃ ys, Permutation ys xs ∧ StronglySorted Qle ys
      ∧ if Nat.odd (length xs) then ys !! (length xs / 2)%nat = Some m
        else ∃ a b, ys !! (length xs / 2 - 1)%nat = Some a
                  ∧ ys !! (length xs / 2)%nat = Some b
                  ∧ m = ((a + b) / 2)%Q.

(** The mean of a non-empty list, and its sample variance, the sum of the
    squared distances to the mean over [N - 1]. *)
Definition sample_mean (xs : list Q) : Q :=
  (fold_right Qplus 0 xs / inject_Z (Z.of_nat (length xs)))%Q.

Definition sample_variance (xs : list Q) : Q :=
  (fold_right Qplus 0 (map (λ x, (x - sample_mean xs) * (x - sample_mean xs)) xs)
   / (inject_Z (Z.of_nat (length xs)) - 1))%Q.

(** A summary row for the values [xs] of one country: mean, median, min and
    max rounded to two decimals, the standard deviation with the N-1
    denominator rounded to two decimals, each as float64 has it, and NaN
    where pandas has none. *)
Definition summary_of (xs : list Q) (row : SummaryRow) : Prop :=
  let tol := float64_allowance xs in
  match xs with
  | [] => row = mkSummaryRow None None None None None
  | _ :: rest =>
      (∃ v, Mean row = Some v ∧ rounded2_within tol (sample_mean xs) v)
      ∧ (∃ m v, is_median xs m ∧ Median row = Some v ∧ rounded2_within tol m v)
      ∧ (∃ m v, is_min xs m ∧ Min row = Some v ∧ rounded2_within tol m v)
      ∧ (∃ m v, is_max xs m ∧ Max row = Some v ∧ rounded2_within tol m v)
      ∧ match rest with
        | [] => Std_Dev row = None
        | _ => ∃ v, Std_Dev row = Some v
                  ∧ rounded2_sqrt_within tol (sample_variance xs) v
        end
  end.

(** ** [get_metric_info]

    The metadata of a metric is a dict of strings under the keys [name],
    [unit] and [description]; [metrics.get(metric_key, fallback)] looks the
    key up and falls back on a dict made from the key itself. *)

Definition metrics : gmap string (gmap string string) :=
  {[ "T2M" :=
       {[ "name" := "Temperature at 2 Meters";
          "unit" := "°C";
          "description" := "Air temperature measured at 2 meters above ground level" ]};
     "WS10M_MIN" :=
       {[ "name" := "Minimum Wind Speed at 10 Meters";
          "unit" := "m/s";
          "description" :=
            "Minimum wind speed measured at 10 meters above ground level" ]} ]}%string.

Definition get_metric_info (metric_key : string) : gmap string string :=
  default
    ({[ "name" := metric_key;
        "unit" := "";
        "description" := "No description available" ]}%string)
    (metrics !! metric_key).

(** ** [main.py]

    The dashboard script: what it computes from the dataset before it draws. *)

Module main.

Section main.
Context `{Pandas}.

(** [load_and_preprocess_data()]: the default countries are loaded and the
    merged table is preprocessed; an exception of either step is shown with
    [st.error] and ends the script, here the [Raise] of the outcome. *)
Definition load_and_preprocess_data (data_dir : DataDir)
  : result DataFrame * list message :=
  let '(raw_data, shown) := load_all_countries data_dir None in
  (raw_data ← raw_data; preprocess_data raw_data, shown).

End main.

(** [sorted(df_full["Country"].unique())], the options and the default of
    the country selection. *)
Definition available_countries (df_full : DataFrame) : list string :=
  insertion_sort String.leb (remove_dups (map Country (rows df_full))).

(** The dates of the index, NaT left out as [min()] and [max()] do. *)
Definition index_dates (df : DataFrame) : list Z :=
  omap (λ r, label_time (index r)) (rows df).

(** [df_full.index.min().date()] and [df_full.index.max().date()], the
    bounds and the default of the date selection. *)
Definition min_date (df_full : DataFrame) : option Z :=
  match index_dates df_full with
  | [] => None
  | t :: ts => Some (fold_left Z.min ts t)
  end.

Definition max_date (df_full : DataFrame) : option Z :=
  match index_dates df_full with
  | [] => None
  | t :: ts => Some (fold_left Z.max ts t)
  end.

(** The "Data Completeness" figure of the summary tab:
    [(1 - df_filtered[m].isna().sum() / len(df_filtered)) * 100]. *)
Definition data_completeness (df_filtered : DataFrame) (selected_metric : Metric) : Q :=
  let isna_sum := length (List.filter pd.isna (column selected_metric df_filtered)) in
  ((1 - inject_Z (Z.of_nat isna_sum) / inject_Z (Z.of_nat (length (rows df_filtered))))
   * 100)%Q.

End main.

(** ** Dates in order *)

(** Rows whose index labels are dates, none later than the next. *)
Definition in_date_order (rs : list Row) : Prop :=
  ∃ dates, map index rs = map (λ t, TimeLabel (Some t)) dates
         ∧ StronglySorted Z.le dates.

(** The order of the calendar on the date fields of two records: year, then
    month, then day. *)
Definition date_fields_le (r r' : Row) : Prop :=
  YEAR r < YEAR r'
  ∨ (YEAR r = YEAR r' ∧ (MO r < MO r' ∨ (MO r = MO r' ∧ DY r <= DY r'))).

(** The days before the first of March of the year [y], counted from the
    first of March of the year 0: the part of [days_from_civil] that the
    year decides. *)
Definition days_before_march (y : Z) : Z := 365 * y + y / 4 - y / 100 + y / 400.

(** ** Sample tables *)

Definition raw_row (y m d : Z) (t2m ws : option Q) (country : string) : Row :=
  mkRow (RangeLabel 0) None y m d t2m ws country.

Definition raw_table (rs : list Row) : DataFrame :=
  mkDataFrame RangeIndex required_cols (pd.renumber rs).

(** Six days in a row with the T2M readings [null, null, 5, null, 8, null]. *)
Definition gap_table : DataFrame :=
  raw_table
    [raw_row 2021 1 1 None (Some 1%Q) "Benin";
     raw_row 2021 1 2 None None "Benin";
     raw_row 2021 1 3 (Some 5%Q) None "Togo";
     raw_row 2021 1 4 None None "Benin";
     raw_row 2021 1 5 (Some 8%Q) None "Togo";
     raw_row 2021 1 6 None None "Togo"].

(** A table out of date order in which two records share a date. *)
Definition tie_table : DataFrame :=
  raw_table
    [raw_row 2021 1 2 (Some 3%Q) (Some 1%Q) "Benin";
     raw_row 2021 1 1 (Some 1%Q) (Some 1%Q) "Sierra Leone";
     raw_row 2021 1 1 (Some 2%Q) (Some 1%Q) "Togo"].

(** Year 2021, month 0, day 131. *)
Definition accepted_row : Row := raw_row 2021 0 131 (Some 1%Q) (Some 1%Q) "Benin".

(** A data directory with the files of Benin and Togo and none for
    Sierra Leone. *)
Definition two_of_three : DataDir :=
  λ filename,
    if String.eqb filename "benin_clean.csv" then Some (Ok gap_table)
    else if String.eqb filename "togo_clean.csv" then Some (Ok tie_table)
    else None.

(** A data directory with the file of Sierra Leone alone. *)
Definition sierra_leone_only : DataDir :=
  λ filename,
    if String.eqb filename "sierra_leone_clean.csv" then Some (Ok tie_table)
    else None.

(** One country with the T2M readings 1, 2, 3, 4, 5. *)
Definition five_table : DataFrame :=
  mkDataFrame DatetimeIndex required_cols
    (map (λ d, mkRow (TimeLabel (Some (days_from_civil 2021 1 d))) None 2021 1 d
                 (Some (inject_Z d)) (Some 1%Q) "Benin")
         [1; 2; 3; 4; 5]).


(** A dataset of eighteen days on which WS10M_MIN is 1 throughout; the T2M
    cell is the day. *)
Definition flat_table : DataFrame :=
  mkDataFrame DatetimeIndex required_cols
    (map (λ d, mkRow (TimeLabel (Some (days_from_civil 2021 1 d))) None 2021 1 d
                 (Some (inject_Z d)) (Some 1%Q) "Benin")
         [1; 2; 3; 4; 5; 6; 7; 8; 9; 10; 11; 12; 13; 14; 15; 16; 17; 18]).

(** * Properties *)

(** ** The sorting kernels meet the contract *)

Section insertion.
Context {A : Type} (before : A → A → bool) (R : relation A).
Hypothesis before_true : ∀ x y, before x y = true → R x y.
Hypothesis before_false : ∀ x y, before x y = false → R y x.
Context `{!Transitive R}.

Lemma insert_by_perm x l : Permutation (insert_by before x l) (x :: l).
Proof.
  induction l as [|y l IH]; simpl; [done|].
  destruct (before x y); [done|].
  rewrite IH. apply perm_swap.
Qed.

Lemma insertion_sort_perm l : Permutation (insertion_sort before l) l.
Proof.
  induction l as [|x l IH]; simpl; [done|].
  rewrite insert_by_perm. by constructor.
Qed.

Lemma insert_by_sorted x l :
  StronglySorted R l → StronglySorted R (insert_by before x l).
Proof.
  induction 1 as [|y l Hl IH Hy]; simpl.
  - repeat constructor.
  - destruct (before x y) eqn:E.
    + constructor; [by constructor|].
      constructor; [by apply before_true|].
      eapply Forall_impl; [exact Hy|].
      intros z Hz. transitivity y; [by apply before_true|done].
    + constructor; [done|].
      rewrite (insert_by_perm x l). constructor; [by apply before_false|done].
Qed.

Lemma insertion_sort_sorted l : StronglySorted R (insertion_sort before l).
Proof.
  induction l as [|x l IH]; simpl; [constructor|]. by apply insert_by_sorted.
Qed.

End insertion.

Lemma reorder_nil {A} (l : list A) : reorder [] l = [].
Proof. done. Qed.

Lemma reorder_pairs {A} (ks : list A) (ps : list (nat * A)) :
  Forall (λ p, ks !! p.1 = Some p.2) ps →
  reorder (map fst ps) ks = map snd ps.
Proof.
  induction 1 as [|p ps Hp _ IH]; [done|].
  unfold reorder in *. simpl. rewrite Hp. simpl. f_equal. exact IH.
Qed.

Lemma zip_seq_lookup {A} (ks : list A) (start : nat) :
  Forall (λ p, ks !! (p.1 - start)%nat = Some p.2 ∧ (start ≤ p.1)%nat)
         (zip (seq start (length ks)) ks).
Proof.
  revert start. induction ks as [|k ks IH]; intros start; simpl; [constructor|].
  constructor.
  - simpl. by rewrite Nat.sub_diag.
  - eapply Forall_impl; [apply (IH (S start))|].
    intros [i x] [Hx Hi]; simpl in *. split; [|lia].
    replace (i - start)%nat with (S (i - S start)) by lia. done.
Qed.

Lemma zip_seq0_lookup {A} (ks : list A) :
  Forall (λ p, ks !! p.1 = Some p.2) (zip (seq 0 (length ks)) ks).
Proof.
  eapply Forall_impl; [apply (zip_seq_lookup ks 0)|].
  intros [i x] [Hx _]; simpl in *. by rewrite Nat.sub_0_r in Hx.
Qed.

Lemma fst_zip_seq {A} (ks : list A) start :
  map fst (zip (seq start (length ks)) ks) = seq start (length ks).
Proof.
  revert start. induction ks as [|k ks IH]; intros start; simpl; [done|].
  by rewrite IH.
Qed.

Lemma snd_zip_seq {A} (ks : list A) start :
  map snd (zip (seq start (length ks)) ks) = ks.
Proof.
  revert start. induction ks as [|k ks IH]; intros start; simpl; [done|].
  by rewrite IH.
Qed.

Section argsort_with.
Context (before : Q → Q → bool).
Hypothesis before_true : ∀ x y, before x y = true → (x <= y)%Q.
Hypothesis before_false : ∀ x y, before x y = false → (y <= x)%Q.

Lemma argsort_with_perm ks :
  Permutation (argsort_with before ks) (seq 0 (length ks)).
Proof.
  unfold argsort_with.
  rewrite insertion_sort_perm. by rewrite fst_zip_seq.
Qed.

Lemma argsort_with_reorder ks :
  reorder (argsort_with before ks) ks
  = map snd (insertion_sort (λ a b, before a.2 b.2) (zip (seq 0 (length ks)) ks)).
Proof.
  unfold argsort_with. apply reorder_pairs.
  eapply Forall_forall. intros p Hp.
  pose proof (zip_seq0_lookup ks) as Hall.
  rewrite Forall_forall in Hall. apply Hall.
  by rewrite <- (insertion_sort_perm (λ a b, before a.2 b.2)).
Qed.

Lemma argsort_with_sorted ks :
  StronglySorted Qle (reorder (argsort_with before ks) ks).
Proof.
  rewrite argsort_with_reorder.
  apply StronglySorted_fmap with (R1 := λ a b : nat * Q, (a.2 <= b.2)%Q); [done|].
  apply insertion_sort_sorted.
  - intros x y. apply before_true.
  - intros x y. apply before_false.
  - intros x y z. apply Qle_trans.
Qed.

End argsort_with.

Lemma Qle_bool_false x y : Qle_bool x y = false → (y <= x)%Q.
Proof.
  intros E. destruct (Qlt_le_dec y x) as [Hlt|Hle].
  - by apply Qlt_le_weak.
  - apply Qle_bool_iff in Hle. congruence.
Qed.

(** numpy on an array it does not partition, and pandas 2 outside the years
    1678 to 2261. *)
#[local] Program Instance numpy_insertion : Pandas := {|
  argsort := insertion_argsort;
  strptime_other := λ _, None
|}.
Next Obligation.
  intros ks. apply argsort_with_perm.
Qed.
Next Obligation.
  intros ks. apply argsort_with_sorted.
  - intros x y. apply Qle_bool_iff.
  - apply Qle_bool_false.
Qed.

Lemma nondecreasing_sorted (ks : list Q) :
  npy.nondecreasing ks = true → StronglySorted Qle ks.
Proof.
  intros Hn. apply Sorted_StronglySorted; [intros x y z; apply Qle_trans|].
  induction ks as [|a ks IH]; [constructor|].
  simpl in Hn. destruct ks as [|b ks]; [repeat constructor|].
  apply andb_true_iff in Hn as [Hab Hn].
  constructor; [by apply IH|]. constructor. by apply Qle_bool_iff.
Qed.

Lemma sorts_spec (indexer : list nat) (v : list Q) :
  npy.sorts indexer v = true →
  Permutation indexer (seq 0 (length v)) ∧ StronglySorted Qle (reorder indexer v).
Proof.
  unfold npy.sorts. intros Hs. apply andb_true_iff in Hs as [Hp Hn].
  apply bool_decide_eq_true in Hp. split; [|by apply nondecreasing_sorted].
  rewrite <- Hp. symmetry. apply insertion_sort_perm.
Qed.

Lemma quicksort_argsort_perm (ks : list Q) :
  Permutation (quicksort_argsort ks) (seq 0 (length ks)).
Proof.
  unfold quicksort_argsort. destruct (npy.sorts _ ks) eqn:E.
  - by apply sorts_spec.
  - apply argsort_with_perm.
Qed.

Lemma quicksort_argsort_sorted (ks : list Q) :
  StronglySorted Qle (reorder (quicksort_argsort ks) ks).
Proof.
  unfold quicksort_argsort. destruct (npy.sorts _ ks) eqn:E.
  - by apply sorts_spec.
  - apply argsort_with_sorted; [intros x y; apply Qle_bool_iff|apply Qle_bool_false].
Qed.

(** numpy's generic quicksort, and pandas 2 outside the years 1678 to 2261. *)
#[local] Program Instance numpy_quicksort : Pandas := {|
  argsort := quicksort_argsort;
  strptime_other := λ _, None
|}.
Next Obligation. exact quicksort_argsort_perm. Qed.
Next Obligation. exact quicksort_argsort_sorted. Qed.

(** ** Gap filling *)

Lemma last_valid_None {A} (s : list (option A)) :
  last_valid s = None ↔ omap id s = [].
Proof. apply last_None. Qed.

Lemma last_valid_take_S {A} (x : option A) (s : list (option A)) (j : nat) :
  last_valid (take (S j) (x :: s))
  = match last_valid (take j s) with
    | Some w => Some w
    | None => x
    end.
Proof.
  unfold last_valid. simpl. destruct x as [v|]; simpl.
  - by rewrite last_cons.
  - by destruct (last _).
Qed.

Lemma ffill_from_length {A} (last : option A) s :
  length (pd.ffill_from last s) = length s.
Proof.
  revert last. induction s as [|[v|] s IH]; intros last; simpl; by rewrite ?IH.
Qed.

Lemma bfill_length {A} (s : list (option A)) : length (pd.bfill s) = length s.
Proof.
  induction s as [|[v|] s IH]; simpl; [done|by rewrite IH|].
  destruct (pd.bfill s) eqn:E; simpl in *; by rewrite <- IH.
Qed.

Lemma ffill_from_lookup {A} (s : list (option A)) (last : option A) (i : nat) :
  (i < length s)%nat →
  pd.ffill_from last s !! i
  = Some match s !! i with
         | Some (Some v) => Some v
         | _ => match last_valid (take i s) with
                | Some v => Some v
                | None => last
                end
         end.
Proof.
  revert last i. induction s as [|x s IH]; intros last i Hi; simpl in Hi; [lia|].
  destruct i as [|j].
  - destruct x as [v|]; simpl; [done|]. by destruct last.
  - assert (Hj : (j < length s)%nat) by lia.
    rewrite last_valid_take_S.
    destruct x as [v|]; simpl; rewrite (IH _ j Hj);
      destruct (s !! j) as [[w|]|]; try done;
      by destruct (last_valid (take j s)).
Qed.

Lemma bfill_head {A} (x : option A) (s : list (option A)) :
  head (pd.bfill (x :: s)) = Some (first_valid (x :: s)).
Proof.
  revert x. induction s as [|y s IH]; intros x.
  - by destruct x.
  - destruct x as [v|]; [done|].
    specialize (IH y). remember (y :: s) as t eqn:Et.
    change (first_valid (None :: t)) with (first_valid t).
    simpl. destruct (pd.bfill t) as [|z l]; simpl in *; [done|exact IH].
Qed.

Lemma bfill_lookup {A} (s : list (option A)) (i : nat) :
  (i < length s)%nat →
  pd.bfill s !! i
  = Some match s !! i with
         | Some (Some v) => Some v
         | _ => first_valid (drop (S i) s)
         end.
Proof.
  revert i. induction s as [|x s IH]; intros i Hi; simpl in Hi; [lia|].
  destruct i as [|j].
  - destruct x as [v|]; [done|].
    destruct s as [|y s]; [done|].
    pose proof (bfill_head y s) as Hh. remember (y :: s) as t eqn:Et.
    change (drop 1 (None :: t)) with t.
    simpl. destruct (pd.bfill t) as [|z l]; simpl in *; [done|].
    by simplify_eq.
  - assert (Hj : (j < length s)%nat) by lia.
    specialize (IH j Hj).
    destruct x as [v|]; simpl; [done|].
    destruct (pd.bfill s) as [|z l] eqn:E; [|done].
    apply (f_equal length) in E. rewrite bfill_length in E. simpl in E. lia.
Qed.

Lemma first_valid_ffill {A} (s : list (option A)) :
  first_valid (pd.ffill_from None s) = first_valid s.
Proof.
  induction s as [|[v|] s IH]; simpl; try done.
Qed.

Lemma drop_ffill_none {A} (s : list (option A)) (k : nat) :
  omap id (take k s) = [] →
  drop k (pd.ffill_from None s) = pd.ffill_from None (drop k s).
Proof.
  revert k. induction s as [|x s IH]; intros k Hk; [by destruct k|].
  destruct k as [|k]; [done|].
  simpl in Hk. destruct x as [v|]; simpl in Hk; [done|].
  simpl. by apply IH.
Qed.

(** [ffill] followed by [bfill] is the gap filling of the specification. *)
Lemma bfill_ffill_nearest {A} (s : list (option A)) (i : nat) :
  (i < length s)%nat →
  pd.bfill (pd.ffill s) !! i = Some (nearest_fill s i).
Proof.
  intros Hi. unfold pd.ffill, nearest_fill.
  rewrite bfill_lookup by (by rewrite ffill_from_length).
  rewrite (ffill_from_lookup s None i Hi).
  destruct (s !! i) as [[v|]|] eqn:Es; [done| |].
  - destruct (last_valid (take i s)) as [v|] eqn:El; [done|].
    f_equal. rewrite drop_ffill_none; [apply first_valid_ffill|].
    apply last_valid_None in El.
    rewrite (take_S_r s i None Es), omap_app, El. done.
  - apply lookup_ge_None in Es. lia.
Qed.

(** ** [preprocess_data]: the shape of a run *)

Lemma assign_setitem_length m (vals : list (option Q)) (rs : list Row) :
  length vals = length rs → length (pd.assign (setitem m) vals rs) = length rs.
Proof. intros E. unfold pd.assign. rewrite length_zip_with. lia. Qed.

Lemma assign_setitem_column m vals rs :
  length vals = length rs → map (getitem m) (pd.assign (setitem m) vals rs) = vals.
Proof.
  revert vals. induction rs as [|r rs IH]; intros [|v vals] E; simpl in *; try done.
  f_equal; [by destruct m|]. apply IH. lia.
Qed.

Lemma assign_setitem_other {B} m (f : Row → B) vals rs :
  (∀ v r, f (setitem m v r) = f r) →
  length vals = length rs → map f (pd.assign (setitem m) vals rs) = map f rs.
Proof.
  intros Hf. revert vals. induction rs as [|r rs IH]; intros [|v vals] E; simpl in *; try done.
  f_equal; [apply Hf|]. apply IH. lia.
Qed.

Lemma fill_length m (df : DataFrame) :
  length (pd.bfill (pd.ffill (column m df))) = length (rows df).
Proof.
  unfold pd.ffill, column. by rewrite bfill_length, ffill_from_length, length_map.
Qed.

Lemma fill_column_rows_length m df : length (rows (fill_column m df)) = length (rows df).
Proof. apply assign_setitem_length, fill_length. Qed.

Lemma fill_column_same m df :
  column m (fill_column m df) = pd.bfill (pd.ffill (column m df)).
Proof. apply assign_setitem_column, fill_length. Qed.

Lemma fill_column_other {B} m (f : Row → B) df :
  (∀ v r, f (setitem m v r) = f r) →
  map f (rows (fill_column m df)) = map f (rows df).
Proof. intros Hf. apply assign_setitem_other; [done|apply fill_length]. Qed.

Section preprocess_shape.
Context `{Pandas}.

Lemma preprocess_data_unfold df :
  preprocess_data df
  = (s ← date_sorted df; Ok (fill_column metric_WS10M_MIN (fill_column metric_T2M s))).
Proof.
  unfold preprocess_data, date_sorted, copy.
  destruct (List.filter _ required_cols); [|reflexivity].
  destruct (pd.to_datetime (rows df)); reflexivity.
Qed.

Lemma preprocess_data_inv df out :
  preprocess_data df = Ok out →
  ∃ s, date_sorted df = Ok s
       ∧ out = fill_column metric_WS10M_MIN (fill_column metric_T2M s).
Proof.
  rewrite preprocess_data_unfold. destruct (date_sorted df) as [s|e]; simpl; [|done].
  intros [= <-]. by exists s.
Qed.

Lemma preprocess_data_keeps {B} (f : Row → B) df out s :
  (∀ m v r, f (setitem m v r) = f r) →
  date_sorted df = Ok s → preprocess_data df = Ok out →
  map f (rows out) = map f (rows s).
Proof.
  intros Hf Hs. rewrite preprocess_data_unfold, Hs. intros [= <-].
  rewrite !fill_column_other; auto.
Qed.

Lemma preprocess_data_column m df out s :
  date_sorted df = Ok s → preprocess_data df = Ok out →
  column m out = pd.bfill (pd.ffill (column m s)).
Proof.
  intros Hs. rewrite preprocess_data_unfold, Hs. intros [= <-].
  destruct m.
  - unfold column at 1. rewrite (fill_column_other metric_WS10M_MIN (getitem metric_T2M));
      [apply fill_column_same|done].
  - rewrite fill_column_same. do 2 f_equal.
    apply (fill_column_other metric_T2M (getitem metric_WS10M_MIN)). done.
Qed.

End preprocess_shape.

(** ** C1: gap filling in [preprocess_data] *)

Definition gap_table_out : DataFrame :=
  Eval vm_compute in
    match preprocess_data (H := numpy_insertion) gap_table with
    | Ok out => out
    | Raise _ => gap_table
    end.




(** ** Reordering by an index array *)

Lemma reorder_app {A} (a b : list nat) (l : list A) :
  reorder (a ++ b) l = reorder a l ++ reorder b l.
Proof. apply omap_app. Qed.

Lemma reorder_cons {A} (i : nat) (a : list nat) (l : list A) :
  reorder (i :: a) l = match l !! i with
                       | Some x => x :: reorder a l
                       | None => reorder a l
                       end.
Proof. reflexivity. Qed.

Lemma reorder_rev {A} (a : list nat) (l : list A) :
  reorder (rev a) l = rev (reorder a l).
Proof.
  induction a as [|i a IH]; [done|].
  simpl. rewrite reorder_app, IH, !reorder_cons, reorder_nil.
  destruct (l !! i); simpl; [done|by rewrite app_nil_r].
Qed.

Lemma reorder_map {A B} (f : A → B) (a : list nat) (l : list A) :
  reorder a (map f l) = map f (reorder a l).
Proof.
  induction a as [|i a IH]; [done|].
  rewrite !reorder_cons, IH.
  change (map f l) with (f <$> l). rewrite list_lookup_fmap.
  by destruct (l !! i).
Qed.

Lemma reorder_seq {A} (l : list A) : reorder (seq 0 (length l)) l = l.
Proof.
  rewrite <- (fst_zip_seq l 0) at 1.
  rewrite (reorder_pairs l); [apply snd_zip_seq|apply zip_seq0_lookup].
Qed.

Lemma reorder_perm {A} (a : list nat) (l : list A) :
  Permutation a (seq 0 (length l)) → Permutation (reorder a l) l.
Proof.
  intros Ha. unfold reorder. rewrite Ha. fold (reorder (seq 0 (length l)) l).
  by rewrite reorder_seq.
Qed.

Lemma reorder_lookup {A} (b : list nat) (l : list A) (i : nat) :
  Forall (λ j, is_Some (l !! j)) b →
  reorder b l !! i = b !! i ≫= λ j, l !! j.
Proof.
  intros Hb. revert i. induction Hb as [|j b [x Hx] _ IH]; intros i; [done|].
  rewrite reorder_cons, Hx. destruct i as [|i]; simpl; [done|apply IH].
Qed.

Lemma reorder_reorder {A} (a b : list nat) (l : list A) :
  Forall (λ j, is_Some (l !! j)) b →
  reorder (reorder a b) l = reorder a (reorder b l).
Proof.
  intros Hb. induction a as [|i a IH]; [done|].
  rewrite !reorder_cons, (reorder_lookup b l i Hb).
  destruct (b !! i) as [j|]; [|done].
  rewrite reorder_cons. simpl. destruct (l !! j); by rewrite IH.
Qed.

Lemma reorder_length_perm {A} (a : list nat) (l : list A) :
  Permutation a (seq 0 (length l)) → length (reorder a l) = length l.
Proof. intros Ha. by rewrite (reorder_perm a l Ha). Qed.

(** *** Positions of a mask *)

Lemma positions_pairs {A} (p : A → bool) (l : list A) :
  Forall (λ ik : nat * A, l !! ik.1 = Some ik.2)
         (List.filter (λ ik, p ik.2) (zip (seq 0 (length l)) l)).
Proof.
  apply Forall_forall. intros ik Hik.
  apply list_elem_of_In, filter_In in Hik. destruct Hik as [Hik _].
  pose proof (zip_seq0_lookup l) as Hall. rewrite Forall_forall in Hall.
  apply Hall. by apply list_elem_of_In.
Qed.

Lemma filter_zip_snd {A} (p : A → bool) (l : list A) (start : nat) :
  map snd (List.filter (λ ik : nat * A, p ik.2) (zip (seq start (length l)) l))
  = List.filter p l.
Proof.
  revert start. induction l as [|x l IH]; intros start; simpl; [done|].
  destruct (p x); simpl; by rewrite IH.
Qed.

Lemma reorder_positions {A} (p : A → bool) (l : list A) :
  reorder (pd.positions p l) l = List.filter p l.
Proof.
  unfold pd.positions. rewrite (reorder_pairs l); [|apply positions_pairs].
  apply filter_zip_snd.
Qed.

Lemma positions_in_range {A} (p : A → bool) (l : list A) :
  Forall (λ j, is_Some (l !! j)) (pd.positions p l).
Proof.
  unfold pd.positions. apply Forall_forall. intros j Hj.
  apply list_elem_of_In, in_map_iff in Hj. destruct Hj as ([i x] & <- & Hin).
  pose proof (positions_pairs p l) as Hall. rewrite Forall_forall in Hall.
  apply list_elem_of_In, Hall in Hin. simpl in *. by eexists.
Qed.

Lemma positions_length {A} (p : A → bool) (l : list A) :
  length (pd.positions p l) = length (List.filter p l).
Proof.
  unfold pd.positions. rewrite <- (filter_zip_snd p l 0). by rewrite !length_map.
Qed.

Lemma filter_split_perm {A} (p : A → bool) (l : list A) :
  Permutation (List.filter p l ++ List.filter (λ x, negb (p x)) l) l.
Proof.
  induction l as [|x l IH]; [done|].
  simpl. destruct (p x); simpl.
  - by constructor.
  - rewrite <- Permutation_middle. by constructor.
Qed.

Lemma positions_split_perm {A} (p : A → bool) (l : list A) :
  Permutation (pd.positions p l ++ pd.positions (λ x, negb (p x)) l)
              (seq 0 (length l)).
Proof.
  unfold pd.positions. rewrite <- map_app.
  rewrite (filter_split_perm (λ ik : nat * A, p ik.2)).
  by rewrite fst_zip_seq.
Qed.

Lemma filter_notna {A} (items : list (option A)) :
  List.filter (λ c, negb (pd.isna c)) items = map Some (omap id items).
Proof.
  induction items as [|[v|] items IH]; simpl; [done| |done].
  by rewrite IH.
Qed.

Lemma filter_isna {A} (items : list (option A)) :
  List.filter pd.isna items = repeat None (length (List.filter pd.isna items)).
Proof.
  induction items as [|[v|] items IH]; simpl; [done|done|].
  by rewrite <- IH.
Qed.

(** ** [nargsort] *)

Lemma positions_ext {A} (p q : A → bool) (l : list A) :
  (∀ x, p x = q x) → pd.positions p l = pd.positions q l.
Proof.
  intros Hpq. unfold pd.positions. f_equal.
  apply filter_ext. intros [i x]. apply Hpq.
Qed.

Lemma StronglySorted_rev {A} (R : relation A) (l : list A) :
  StronglySorted R l → StronglySorted (flip R) (rev l).
Proof.
  induction 1 as [|x l Hl IH Hx]; simpl; [constructor|].
  apply StronglySorted_app_2; [|done|repeat constructor].
  intros x1 x2 H1 H2. apply list_elem_of_singleton in H2 as ->.
  rewrite Forall_forall in Hx. apply Hx.
  apply list_elem_of_In, in_rev, list_elem_of_In, H1.
Qed.

Lemma StronglySorted_repeat {A} (R : relation A) (x : A) (k : nat) :
  R x x → StronglySorted R (repeat x k).
Proof.
  intros Hx. induction k as [|k IH]; simpl; constructor; [done|].
  apply Forall_forall. intros y Hy.
  apply list_elem_of_In, repeat_spec in Hy. by subst.
Qed.

Section nargsort.
Context `{Pandas}.

Lemma nargsort_perm (ascending : bool) (items : list (option Q)) :
  Permutation (pd.nargsort ascending items) (seq 0 (length items)).
Proof.
  unfold pd.nargsort.
  set (nn := if ascending then omap id items else rev (omap id items)).
  set (idx := if ascending then pd.positions (λ c, negb (pd.isna c)) items
              else rev (pd.positions (λ c, negb (pd.isna c)) items)).
  assert (Hlen : length idx = length nn).
  { unfold idx, nn. destruct ascending; rewrite ?length_rev, positions_length,
      filter_notna, length_map; done. }
  assert (Hperm : Permutation (reorder (argsort nn) idx)
                              (pd.positions (λ c, negb (pd.isna c)) items)).
  { rewrite reorder_perm by (rewrite Hlen; apply argsort_perm).
    unfold idx. destruct ascending; [done|]. by rewrite <- Permutation_rev. }
  rewrite <- (positions_split_perm (λ c, negb (pd.isna c)) items).
  rewrite (positions_ext (λ x : option Q, negb (negb (pd.isna x))) pd.isna)
    by (intros x; apply negb_involutive).
  apply Permutation_app_tail.
  destruct ascending; [done|]. by rewrite <- Permutation_rev.
Qed.

Lemma nargsort_reorder (ascending : bool) (items : list (option Q)) :
  ∃ vs, Permutation vs (omap id items)
      ∧ StronglySorted (if ascending then Qle else flip Qle) vs
      ∧ reorder (pd.nargsort ascending items) items
        = map Some vs ++ List.filter pd.isna items.
Proof.
  unfold pd.nargsort. rewrite reorder_app, reorder_positions.
  pose proof (positions_in_range (λ c, negb (pd.isna c)) items) as Hin.
  pose proof (reorder_positions (λ c, negb (pd.isna c)) items) as Hre.
  rewrite filter_notna in Hre.
  destruct ascending.
  - exists (reorder (argsort (omap id items)) (omap id items)).
    split; [apply reorder_perm, argsort_perm|]. split; [apply argsort_sorted|].
    f_equal. rewrite reorder_reorder by done. by rewrite Hre, reorder_map.
  - exists (rev (reorder (argsort (rev (omap id items))) (rev (omap id items)))).
    split; [|split].
    + rewrite <- Permutation_rev, reorder_perm by apply argsort_perm.
      by rewrite <- Permutation_rev.
    + apply StronglySorted_rev, argsort_sorted.
    + f_equal. rewrite reorder_rev, reorder_reorder.
      * by rewrite reorder_rev, Hre, <- map_rev, reorder_map, map_rev.
      * apply Forall_forall. intros j Hj. rewrite Forall_forall in Hin.
        apply Hin, list_elem_of_In, in_rev, list_elem_of_In, Hj.
Qed.

Lemma nargsort_sorted (ascending : bool) (items : list (option Q)) :
  StronglySorted (cell_le ascending) (reorder (pd.nargsort ascending items) items).
Proof.
  destruct (nargsort_reorder ascending items) as (vs & _ & Hvs & ->).
  apply StronglySorted_app_2.
  - intros x1 x2 _ H2. apply list_elem_of_In, filter_In in H2 as [_ H2].
    destruct x2; [done|]. by destruct x1.
  - apply StronglySorted_fmap with (R1 := if ascending then Qle else flip Qle);
      [|done]. intros x y. by destruct ascending.
  - rewrite filter_isna. by apply StronglySorted_repeat.
Qed.

(** Sorting the rows of a frame by a key column. *)
Lemma sort_rows_perm {A} (ascending : bool) (key : A → option Q) (rs : list A) :
  Permutation (reorder (pd.nargsort ascending (map key rs)) rs) rs.
Proof.
  apply reorder_perm. rewrite <- (length_map key). apply nargsort_perm.
Qed.

Lemma sort_rows_sorted {A} (ascending : bool) (key : A → option Q) (rs : list A) :
  StronglySorted (cell_le ascending)
    (map key (reorder (pd.nargsort ascending (map key rs)) rs)).
Proof. rewrite <- reorder_map. apply nargsort_sorted. Qed.

End nargsort.

(** ** [to_datetime] *)

Lemma wrap64_small z : - 2 ^ 63 <= z < 2 ^ 63 → pd.wrap64 z = z.
Proof. intros Hz. unfold pd.wrap64. rewrite Z.mod_small; lia. Qed.

Section to_datetime.
Context `{Pandas}.

Lemma derived_date_two_digit (r : Row) :
  two_digit_fields r →
  derived_date r
  = if valid_calendar_date r
    then Some (days_from_civil (YEAR r) (MO r) (DY r)) else None.
Proof.
  intros (Hy & Hm & Hd). unfold derived_date, pd.strptime_Ymd, pd.assemble.
  rewrite wrap64_small by lia.
  set (v := YEAR r * 10000 + MO r * 100 + DY r).
  assert (Ey : v / 10000 = YEAR r).
  { symmetry. apply (Z.div_unique v 10000 (YEAR r) (MO r * 100 + DY r)); unfold v; lia. }
  assert (Ed : v mod 100 = DY r).
  { symmetry. apply (Z.mod_unique v 100 (YEAR r * 100 + MO r) (DY r)); unfold v; lia. }
  assert (Em : (v / 100) mod 100 = MO r).
  { assert (E : v / 100 = YEAR r * 100 + MO r).
    { symmetry. apply (Z.div_unique v 100 _ (DY r)); unfold v; lia. }
    rewrite E. symmetry. apply (Z.mod_unique _ 100 (YEAR r) (MO r)); lia. }
  rewrite Ey, Ed, Em.
  replace ((1678 <=? YEAR r) && (YEAR r <=? 2261)) with true
    by (symmetry; apply andb_true_iff; lia).
  done.
Qed.

Lemma to_datetime_Ok rs ts :
  pd.to_datetime rs = Ok ts →
  ts = map derived_date rs ∧ Forall (λ r, is_Some (derived_date r)) rs.
Proof.
  revert ts. induction rs as [|r rs IH]; intros ts; simpl.
  - intros [= <-]. by split.
  - fold (derived_date r). destruct (derived_date r) as [t|] eqn:Et; [|done].
    destruct (pd.to_datetime rs) as [ts'|e]; simpl; [|done].
    intros [= <-]. destruct (IH ts' eq_refl) as [-> Hall].
    split; [done|]. constructor; [by rewrite Et|done].
Qed.

Lemma to_datetime_Raise rs e :
  pd.to_datetime rs = Raise e →
  e = ValueError_assemble ∧ Exists (λ r, derived_date r = None) rs.
Proof.
  induction rs as [|r rs IH]; simpl; [done|].
  fold (derived_date r). destruct (derived_date r) as [t|] eqn:Et.
  - destruct (pd.to_datetime rs) as [ts'|e']; simpl; [done|].
    intros [= <-]. destruct (IH eq_refl) as [-> Hex]. split; [done|by right].
  - intros [= <-]. split; [done|by left].
Qed.

Lemma to_datetime_total rs :
  Forall (λ r, is_Some (derived_date r)) rs →
  pd.to_datetime rs = Ok (map derived_date rs).
Proof.
  intros Hall. destruct (pd.to_datetime rs) as [ts|e] eqn:E.
  - by destruct (to_datetime_Ok rs ts E) as [-> _].
  - destruct (to_datetime_Raise rs e E) as [_ Hex].
    apply Exists_exists in Hex as (r & Hr & Hnone).
    rewrite Forall_forall in Hall. specialize (Hall r Hr).
    rewrite Hnone in Hall. by destruct Hall.
Qed.

End to_datetime.

(** ** [sort_index] *)

Lemma cell_le_trans ascending : Transitive (cell_le ascending).
Proof.
  intros [x|] [y|] [z|]; simpl; try done.
  destruct ascending; intros Hxy Hyz; [by apply (Qle_trans _ y)|by apply (Qle_trans _ y)].
Qed.

Lemma is_monotonic_sorted (ts : list (option Z)) :
  pd.is_monotonic_increasing ts = true →
  StronglySorted (cell_le true) (map pd.ord_key ts).
Proof.
  intros Hm. apply Sorted_StronglySorted; [apply cell_le_trans|].
  induction ts as [|[a|] ts IH]; [constructor| |done].
  simpl in Hm. destruct ts as [|[b|] ts]; [repeat constructor| |done].
  apply andb_true_iff in Hm as [Hab Hm].
  constructor; [by apply IH|]. constructor. simpl.
  rewrite <- Zle_Qle. lia.
Qed.

Lemma StronglySorted_map_inv {A B} (f : A → B) (R1 : relation A) (R2 : relation B) l :
  (∀ x y, R2 (f x) (f y) → R1 x y) →
  StronglySorted R2 (map f l) → StronglySorted R1 l.
Proof.
  intros Hf. induction l as [|x l IH]; simpl; [constructor|].
  intros Hs. apply StronglySorted_inv in Hs as [Hl Hx].
  constructor; [by apply IH|].
  apply Forall_forall. intros y Hy. apply Hf.
  rewrite Forall_forall in Hx. apply Hx.
  apply list_elem_of_In, in_map, list_elem_of_In, Hy.
Qed.

Section sort_index.
Context `{Pandas}.

Lemma sort_index_perm df : Permutation (rows (pd.sort_index df)) (rows df).
Proof.
  unfold pd.sort_index. destruct (pd.is_monotonic_increasing _); [done|].
  simpl. rewrite map_map. apply sort_rows_perm.
Qed.

Lemma sort_index_columns df : columns (pd.sort_index df) = columns df.
Proof. unfold pd.sort_index. by destruct (pd.is_monotonic_increasing _). Qed.

Lemma sort_index_kind df : index_kind (pd.sort_index df) = index_kind df.
Proof. unfold pd.sort_index. by destruct (pd.is_monotonic_increasing _). Qed.

Lemma sort_index_sorted df :
  StronglySorted (cell_le true)
    (map (λ r, pd.ord_key (pd.label_ord (index r))) (rows (pd.sort_index df))).
Proof.
  unfold pd.sort_index.
  destruct (pd.is_monotonic_increasing _) eqn:Em.
  - rewrite <- (map_map (λ r, pd.label_ord (index r)) pd.ord_key).
    by apply is_monotonic_sorted.
  - simpl. rewrite map_map. apply sort_rows_sorted.
Qed.

Lemma sort_index_in_order df :
  pd.is_monotonic_increasing (map (λ r, pd.label_ord (index r)) (rows df)) = true →
  pd.sort_index df = df.
Proof. intros Hm. unfold pd.sort_index. by rewrite Hm. Qed.

(** *** The date-sorted table *)

Lemma assign_Timestamp (rs : list Row) :
  pd.assign set_Timestamp (map derived_date rs) rs
  = map (λ r, set_Timestamp (derived_date r) r) rs.
Proof. induction rs as [|r rs IH]; simpl; [done|]. by rewrite <- IH. Qed.

Lemma date_sorted_Ok df s :
  date_sorted df = Ok s →
  missing_fields df = []
  ∧ Forall (λ r, is_Some (derived_date r)) (rows df)
  ∧ s = pd.sort_index (stamped df).
Proof.
  unfold date_sorted. fold (missing_fields df).
  destruct (missing_fields df); [|done].
  destruct (pd.to_datetime (rows df)) as [ts|e] eqn:E; simpl; [|done].
  intros [= <-]. destruct (to_datetime_Ok _ _ E) as [-> Hall].
  do 2 (split; [done|]). f_equal.
  unfold stamped, pd.set_index_Timestamp. simpl. f_equal.
  by rewrite assign_Timestamp, map_map.
Qed.

Lemma date_sorted_Raise df e :
  date_sorted df = Raise e →
  (missing_fields df ≠ [] ∧ e = ValueError_missing_columns (missing_fields df))
  ∨ (missing_fields df = [] ∧ e = ValueError_assemble
     ∧ Exists (λ r, derived_date r = None) (rows df)).
Proof.
  unfold date_sorted. fold (missing_fields df).
  destruct (missing_fields df) as [|c cs]; [|intros [= <-]; by left].
  destruct (pd.to_datetime (rows df)) as [ts|e'] eqn:E; simpl; [done|].
  intros [= <-]. destruct (to_datetime_Raise _ _ E) as [-> Hex]. by right.
Qed.

Lemma date_sorted_total df :
  missing_fields df = [] →
  Forall (λ r, is_Some (derived_date r)) (rows df) →
  date_sorted df = Ok (pd.sort_index (stamped df)).
Proof.
  intros Hm Hall. destruct (date_sorted df) as [s|e] eqn:E.
  - by destruct (date_sorted_Ok df s E) as (_ & _ & ->).
  - destruct (date_sorted_Raise df e E) as [[Hne _]|(_ & _ & Hex)]; [done|].
    apply Exists_exists in Hex as (r & Hr & Hnone).
    rewrite Forall_forall in Hall. specialize (Hall r Hr).
    rewrite Hnone in Hall. by destruct Hall.
Qed.

Lemma derived_date_stamp r : derived_date (stamp r) = derived_date r.
Proof. done. Qed.

Lemma date_sorted_rows df s :
  date_sorted df = Ok s →
  Permutation (rows s) (map stamp (rows df))
  ∧ Forall (λ r, index r = TimeLabel (derived_date r) ∧ is_Some (derived_date r))
           (rows s).
Proof.
  intros Hs. destruct (date_sorted_Ok df s Hs) as (_ & Hall & ->).
  pose proof (sort_index_perm (stamped df)) as Hp. split; [done|].
  rewrite Hp. simpl. apply Forall_forall. intros r' Hr'.
  apply list_elem_of_In, in_map_iff in Hr' as (r & <- & Hr).
  rewrite Forall_forall in Hall. split; [done|].
  rewrite derived_date_stamp. apply Hall, list_elem_of_In, Hr.
Qed.

End sort_index.

(** ** C5: when [preprocess_data] raises *)

Lemma has_column_elem_of col df : has_column col df = true ↔ col ∈ columns df.
Proof.
  unfold has_column. rewrite existsb_exists. split.
  - intros (c & Hc & E). apply String.eqb_eq in E as ->. by apply list_elem_of_In.
  - intros Hc. exists col. split; [by apply list_elem_of_In|apply String.eqb_refl].
Qed.

Lemma missing_fields_spec col df :
  col ∈ missing_fields df ↔ col ∈ required_cols ∧ col ∉ columns df.
Proof.
  unfold missing_fields. rewrite list_elem_of_In, filter_In, <- list_elem_of_In.
  rewrite negb_true_iff, <- has_column_elem_of.
  destruct (has_column col df); intuition congruence.
Qed.

(** C5, as stated, fails.  Year 2021, month 0, day 131 is no calendar date,
    and the table has every required field, yet [preprocess_data] accepts
    it: the three fields add up to 20210131, which reads as 2021-01-31. *)
Lemma invalid_date_accepted :
  valid_calendar_date accepted_row = false
  ∧ missing_fields (raw_table [accepted_row]) = []
  ∧ ∃ out, preprocess_data (H := numpy_insertion) (raw_table [accepted_row]) = Ok out
         ∧ map index (rows out) = [TimeLabel (Some (days_from_civil 2021 1 31))].
Proof.
  split; [reflexivity|]. split; [reflexivity|].
  eexists. split; [vm_compute; reflexivity|]. vm_compute. reflexivity.
Qed.

Section schema_error.
Context `{Pandas}.

Lemma preprocess_data_Raise df e :
  preprocess_data df = Raise e ↔ date_sorted df = Raise e.
Proof.
  rewrite preprocess_data_unfold. by destruct (date_sorted df).
Qed.

Lemma derived_date_valid r :
  two_digit_fields r → (is_Some (derived_date r) ↔ valid_calendar_date r = true).
Proof.
  intros Hr. rewrite (derived_date_two_digit r Hr).
  destruct (valid_calendar_date r);
    [split; [done|by eexists] | split; [by intros [? ?]|done]].
Qed.

Lemma preprocess_missing df :
  missing_fields df ≠ [] →
  preprocess_data df = Raise (ValueError_missing_columns (missing_fields df)).
Proof.
  intros Hne. apply preprocess_data_Raise. unfold date_sorted.
  fold (missing_fields df). by destruct (missing_fields df).
Qed.

Lemma preprocess_unreadable df :
  missing_fields df = [] →
  Exists (λ r, derived_date r = None) (rows df) →
  preprocess_data df = Raise ValueError_assemble.
Proof.
  intros Hm Hex. destruct (date_sorted df) as [s|e] eqn:E.
  - destruct (date_sorted_Ok df s E) as (_ & Hall & _).
    apply Exists_exists in Hex as (r & Hr & Hnone).
    rewrite Forall_forall in Hall. specialize (Hall r Hr).
    rewrite Hnone in Hall. by destruct Hall.
  - apply preprocess_data_Raise.
    destruct (date_sorted_Raise df e E) as [[Hne _]|(_ & -> & _)]; done.
Qed.

Lemma preprocess_accepts df :
  missing_fields df = [] →
  Forall (λ r, is_Some (derived_date r)) (rows df) →
  ∃ out, preprocess_data df = Ok out.
Proof.
  intros Hm Hall. rewrite preprocess_data_unfold, date_sorted_total by done.
  by eexists.
Qed.

Lemma rows_raw_table_1 r : rows (raw_table [r]) = [set_index_label (RangeLabel 0) r].
Proof. reflexivity. Qed.

(** C5 (amended).  For a table whose records have a year from 1678 to 2261
    and a month and a day of at most two digits, [preprocess_data] raises,
    with no frame returned, exactly when a required field among YEAR, MO, DY,
    T2M, WS10M_MIN, Country is absent, and then the error lists the absent
    fields, or some record's (year, month, day) is not a calendar date.
    (2021, 2, 29) makes it raise and (2020, 2, 29) does not. *)
Theorem preprocess_schema_error (df : DataFrame) :
  Forall two_digit_fields (rows df) →
  (∀ col, col ∈ missing_fields df ↔ col ∈ required_cols ∧ col ∉ columns df)
  ∧ (missing_fields df ≠ [] →
     preprocess_data df = Raise (ValueError_missing_columns (missing_fields df)))
  ∧ (missing_fields df = [] →
     Exists (λ r, valid_calendar_date r = false) (rows df) →
     preprocess_data df = Raise ValueError_assemble)
  ∧ ((∃ e, preprocess_data df = Raise e)
     ↔ missing_fields df ≠ []
       ∨ Exists (λ r, valid_calendar_date r = false) (rows df))
  ∧ preprocess_data (raw_table [raw_row 2021 2 29 None None "Benin"])
    = Raise ValueError_assemble
  ∧ ∃ out, preprocess_data (raw_table [raw_row 2020 2 29 None None "Benin"]) = Ok out.
Proof.
  intros Hdom.
  assert (Hinv : ∀ r, r ∈ rows df →
            (derived_date r = None ↔ valid_calendar_date r = false)).
  { intros r Hr. rewrite Forall_forall in Hdom.
    pose proof (derived_date_valid r (Hdom r Hr)) as Hv.
    destruct (derived_date r), (valid_calendar_date r); split; try done.
    - destruct Hv as [Hv _]. by specialize (Hv (ltac:(by eexists))).
    - destruct Hv as [_ Hv]. by destruct (Hv eq_refl). }
  assert (Hex : Exists (λ r, derived_date r = None) (rows df)
                ↔ Exists (λ r, valid_calendar_date r = false) (rows df)).
  { rewrite !Exists_exists. split; intros (r & Hr & Hp); exists r;
      (split; [done|]); by apply (Hinv r Hr). }
  split; [intros col; apply missing_fields_spec|].
  split; [apply preprocess_missing|].
  split; [intros Hm Hi; apply preprocess_unreadable; [done|by apply Hex]|].
  split; [|split].
  - split.
    + intros [e He]. apply preprocess_data_Raise in He.
      destruct (date_sorted_Raise df e He) as [[Hne _]|(_ & _ & Hnone)]; [by left|].
      right. by apply Hex.
    + intros [Hne|Hi]; [eexists; by apply preprocess_missing|].
      destruct (decide (missing_fields df = [])) as [Hm|Hm]; eexists;
        [apply preprocess_unreadable; [done|by apply Hex]|by apply preprocess_missing].
  - apply preprocess_unreadable; [reflexivity|].
    rewrite rows_raw_table_1. left.
    rewrite derived_date_two_digit; [reflexivity|].
    unfold two_digit_fields. simpl. lia.
  - apply preprocess_accepts; [reflexivity|].
    rewrite rows_raw_table_1. repeat constructor.
    rewrite derived_date_two_digit; [by eexists|].
    unfold two_digit_fields. simpl. lia.
Qed.

End schema_error.

Lemma preprocess_schema_error_witness :
  Forall two_digit_fields (rows gap_table)
  ∧ ((∃ e, preprocess_data (H := numpy_insertion) gap_table = Raise e)
     ↔ missing_fields gap_table ≠ []
       ∨ Exists (λ r, valid_calendar_date r = false) (rows gap_table)).
Proof.
  assert (Hdom : Forall two_digit_fields (rows gap_table)).
  { repeat constructor; simpl; lia. }
  split; [exact Hdom|].
  apply (preprocess_schema_error (H := numpy_insertion) gap_table Hdom).
Defined.

(** ** C3: the output of [preprocess_data] is in date order *)


Definition tie_table_out : DataFrame :=
  Eval vm_compute in
    match preprocess_data (H := numpy_insertion) tie_table with
    | Ok out => out
    | Raise _ => tie_table
    end.


Section sorted_by_date.
Context `{Pandas}.


End sorted_by_date.


(** ** C2: [get_top_n_records] *)

Lemma head_nonneg {A} (n : Z) (rs : list A) :
  0 <= n → pd.head n rs = take (Z.to_nat n) rs.
Proof. intros Hn. unfold pd.head. by rewrite (proj2 (Z.leb_le 0 n) Hn). Qed.

Lemma head_neg {A} (n : Z) (rs : list A) :
  n < 0 → pd.head n rs = take (length rs - Z.to_nat (- n)) rs.
Proof. intros Hn. unfold pd.head. by rewrite (proj2 (Z.leb_gt 0 n) Hn). Qed.

Lemma take_length_take {A} (k : nat) (rs : list A) :
  take k rs = take (length (take k rs)) rs.
Proof.
  rewrite length_take. destruct (Nat.min_spec k (length rs)) as [[_ ->]|[Hk ->]]; [done|].
  by rewrite firstn_all, take_ge.
Qed.

Lemma head_prefix {A} (n : Z) (rs : list A) :
  pd.head n rs = take (length (pd.head n rs)) rs.
Proof. unfold pd.head. destruct (0 <=? n); apply take_length_take. Qed.

(** Records of equal value need not keep their order either.  Where
    [sort_values] has numpy's generic quicksort sort the float64 keys, as
    numpy does when it has no vectorised argsort for the processor, ties keep
    their order only as long as the quicksort does not partition: on the
    eighteen records of [flat_table], all of the same WS10M_MIN, the two
    scans of the partition stop at every record and exchange them pairwise,
    and the three lowest are the days 1, 16 and 15, the three highest the
    days 1, 2 and 17, where the order of the dataset gives the days 1, 2
    and 3. *)
Lemma quicksort_reorders_equal_values :
  map (λ r, (DY r, WS10M_MIN r)) (rows flat_table)
  = map (λ d, (d, Some 1%Q))
      [1; 2; 3; 4; 5; 6; 7; 8; 9; 10; 11; 12; 13; 14; 15; 16; 17; 18]
  ∧ npy.aquicksort (omap WS10M_MIN (rows flat_table))
    = [0; 15; 14; 13; 12; 11; 10; 9; 8; 7; 6; 5; 4; 3; 2; 1; 16; 17]%nat
  ∧ (∃ recs, get_top_n_records (H := numpy_quicksort) flat_table
               metric_WS10M_MIN 3 true = Ok recs
           ∧ map Date recs
             = map (λ d, TimeLabel (Some (days_from_civil 2021 1 d))) [1; 16; 15])
  ∧ (∃ recs, get_top_n_records (H := numpy_quicksort) flat_table
               metric_WS10M_MIN 3 false = Ok recs
           ∧ map Date recs
             = map (λ d, TimeLabel (Some (days_from_civil 2021 1 d))) [1; 2; 17]).
Proof.
  split; [|split; [|split]].
  - vm_compute. reflexivity.
  - vm_compute. reflexivity.
  - eexists. split; vm_compute; reflexivity.
  - eexists. split; vm_compute; reflexivity.
Qed.

(** C2, as stated, fails for a negative [n]: [head(-1)] does not give the
    empty sequence, it drops the last record and returns the rest.  The
    dataset [tie_table_out] has the T2M values 1, 2 and 3, one each, so that
    every sort puts them in the one descending order 3, 2, 1; with [n = -1]
    the records of 3 and 2 come back, under numpy's quicksort as under an
    insertion sort. *)
Lemma top_n_as_stated_fails :
  map T2M (rows tie_table_out) = [Some 1%Q; Some 2%Q; Some 3%Q]
  ∧ (∃ recs, get_top_n_records (H := numpy_quicksort) tie_table_out metric_T2M (-1) false
             = Ok recs
           ∧ map top_value recs = [Some 3%Q; Some 2%Q]
           ∧ recs ≠ [])
  ∧ (∃ recs, get_top_n_records (H := numpy_insertion) tie_table_out metric_T2M (-1) false
             = Ok recs
           ∧ map top_value recs = [Some 3%Q; Some 2%Q]
           ∧ recs ≠ []).
Proof.
  split; [vm_compute; reflexivity|].
  split; eexists; (split; [vm_compute; reflexivity|]); by split.
Qed.

Section top_n.
Context `{Pandas}.

(** C2 (amended).  On a dataset with the Country and the metric column,
    [get_top_n_records] returns the leading records of the dataset sorted by
    the metric, descending for [ascending=false] and ascending for
    [ascending=true], null values last either way and no order promised
    among equal values: the first [min(n, |D|)] of them for [n >= 0], none
    for [n = 0], and all but the last [-n] for [n < 0].  Every record
    returned comes, in that order, no later than every record left out. *)
Theorem top_n_records (df : DataFrame) (metric : Metric) (n : Z) (ascending : bool) :
  has_column "Country" df = true →
  has_column (metric_label metric) df = true →
  ∃ sorted,
    Permutation sorted (rows df)
    ∧ StronglySorted (cell_le ascending) (map (getitem metric) sorted)
    ∧ get_top_n_records df metric n ascending
      = Ok (map (top_record metric) (pd.head n sorted))
    ∧ (∀ x y, x ∈ pd.head n sorted →
              y ∈ drop (length (pd.head n sorted)) sorted →
              cell_le ascending (getitem metric x) (getitem metric y))
    ∧ (0 <= n → length (pd.head n sorted) = Nat.min (Z.to_nat n) (length (rows df)))
    ∧ (n = 0 → get_top_n_records df metric n ascending = Ok [])
    ∧ (n < 0 → length (pd.head n sorted) = (length (rows df) - Z.to_nat (- n))%nat).
Proof.
  intros Hc Hm.
  set (sorted := reorder (pd.nargsort ascending (map (getitem metric) (rows df))) (rows df)).
  assert (Hperm : Permutation sorted (rows df)) by apply sort_rows_perm.
  assert (Hsorted : StronglySorted (cell_le ascending) (map (getitem metric) sorted))
    by apply sort_rows_sorted.
  assert (Hrun : get_top_n_records df metric n ascending
                 = Ok (map (top_record metric) (pd.head n sorted))).
  { unfold get_top_n_records, pd.sort_values. rewrite Hm.
    cbn [mbind result_bind]. unfold has_column at 1. cbn [columns].
    fold (has_column "Country" df). by rewrite Hc. }
  exists sorted. do 3 (split; [done|]). split; [|split; [|split]].
  - intros x y Hx Hy.
    rewrite <- (take_drop (length (pd.head n sorted)) sorted), <- head_prefix in Hsorted.
    rewrite map_app in Hsorted.
    apply (StronglySorted_app_1_elem_of _ _ _ _ _ Hsorted);
      apply list_elem_of_In, in_map, list_elem_of_In; done.
  - intros Hn. by rewrite head_nonneg, length_take, Hperm.
  - intros ->. by rewrite Hrun.
  - intros Hn. rewrite head_neg, length_take, Hperm by done. lia.
Qed.

End top_n.

Lemma top_n_records_witness :
  ∃ sorted,
    Permutation sorted (rows tie_table_out)
    ∧ StronglySorted (cell_le false) (map (getitem metric_T2M) sorted)
    ∧ get_top_n_records (H := numpy_insertion) tie_table_out metric_T2M 2 false
      = Ok (map (top_record metric_T2M) (pd.head 2 sorted)).
Proof.
  destruct (top_n_records (H := numpy_insertion) tie_table_out metric_T2M 2 false
              eq_refl eq_refl) as (sorted & H1 & H2 & H3 & _).
  exists sorted. by repeat split.
Defined.

(** ** C4: [filter_data] *)

Lemma getitem_mask_map {A} (p : A → bool) (rs : list A) :
  pd.getitem_mask (map p rs) rs = List.filter p rs.
Proof.
  unfold pd.getitem_mask. induction rs as [|r rs IH]; simpl; [done|].
  destruct (p r); simpl; by rewrite IH.
Qed.

Lemma zip_with_andb_map {A} (p q : A → bool) (rs : list A) :
  zip_with andb (map p rs) (map q rs) = map (λ r, p r && q r) rs.
Proof. induction rs as [|r rs IH]; simpl; [done|]. by rewrite IH. Qed.

Lemma filter_andb {A} (p q : A → bool) (rs : list A) :
  List.filter q (List.filter p rs) = List.filter (λ r, p r && q r) rs.
Proof.
  induction rs as [|r rs IH]; simpl; [done|].
  destruct (p r); simpl; [|done]. destruct (q r); by rewrite IH.
Qed.


Lemma filter_sublist {A} (p : A → bool) (rs : list A) :
  sublist (List.filter p rs) rs.
Proof.
  induction rs as [|r rs IH]; simpl; [constructor|].
  destruct (p r); by constructor.
Qed.

Lemma isin_elem_of c values : pd.isin c values = true ↔ c ∈ values.
Proof.
  unfold pd.isin. rewrite existsb_exists. split.
  - intros (v & Hv & E). apply String.eqb_eq in E as ->. by apply list_elem_of_In.
  - intros Hc. exists c. split; [by apply list_elem_of_In|apply String.eqb_refl].
Qed.

Lemma filter_data_run (df : DataFrame) (countries : list string) (s e : Z) :
  has_column "Country" df = true →
  index_kind df = DatetimeIndex →
  filter_data df countries (s, e)
  = Ok (mkDataFrame DatetimeIndex (columns df)
          (List.filter (selected countries s e) (rows df))).
Proof.
  intros Hc Hk. unfold filter_data, copy. rewrite Hc. cbn [negb index_kind columns rows].
  rewrite Hk, getitem_mask_map, zip_with_andb_map, getitem_mask_map, filter_andb.
  do 2 f_equal. apply filter_ext. intros r. unfold selected.
  by destruct (label_time (index r)).
Qed.



(** ** The loaders *)

Lemma load_all_countries_unfold (data_dir : DataDir) (countries : option (list string)) :
  load_all_countries data_dir countries
  = (match loaded data_dir (normalized countries) with
     | [] => Raise ValueError_no_data
     | frames => pd.concat frames
     end,
     skipped data_dir (normalized countries)).
Proof.
  unfold load_all_countries. fold (normalized countries).
  generalize (normalized countries). intros ids.
  match goal with
  | |- context [fold_left ?f ids _] =>
      assert (Hfold : ∀ ids dataframes shown,
                fold_left f ids (dataframes, shown)
                = (dataframes ++ loaded data_dir ids, shown ++ skipped data_dir ids))
  end.
  { clear ids. induction ids as [|c ids IH]; intros dataframes shown.
    - simpl. by rewrite !app_nil_r.
    - cbn [fold_left]. unfold loaded, skipped. cbn [omap list_omap].
      destruct (load_country_data data_dir c) as [df|e].
      + rewrite IH. by rewrite <- app_assoc.
      + destruct e; rewrite IH; by rewrite <- app_assoc. }
  rewrite Hfold. simpl. by destruct (loaded data_dir ids).
Qed.

Lemma add_column_has col cols : existsb (String.eqb col) (pd.add_column col cols) = true.
Proof.
  unfold pd.add_column. destruct (existsb (String.eqb col) cols) eqn:E; [done|].
  rewrite existsb_app, E. simpl. by rewrite String.eqb_refl.
Qed.

Lemma load_country_data_Ok (data_dir : DataDir) (country_name : string) (df : DataFrame) :
  load_country_data data_dir country_name = Ok df →
  ∃ csv, data_dir (country_name ++ "_clean.csv")%string = Some (Ok csv)
       ∧ df = tagged country_name csv.
Proof.
  unfold load_country_data.
  destruct (data_dir _) as [[csv|e]|]; simpl; [|done..].
  intros [= <-]. by exists csv.
Qed.

Lemma renumber_keeps {B} (f : Row → B) (rs : list Row) :
  (∀ l r, f (set_index_label l r) = f r) →
  map f (pd.renumber rs) = map f rs.
Proof.
  intros Hf. unfold pd.renumber. generalize 0%nat.
  induction rs as [|r rs IH]; intros k; simpl; [done|].
  by rewrite Hf, IH.
Qed.

Lemma padded_map {B} (f : Row → B) (frames : list DataFrame) :
  map f (flat_map (λ df, map (pd.pad df) (rows df)) frames)
  = flat_map (λ df, map (λ r, f (pd.pad df r)) (rows df)) frames.
Proof.
  induction frames as [|df frames IH]; [done|].
  cbn [flat_map]. by rewrite map_app, IH, map_map.
Qed.

Lemma concat_padded {B} (f : Row → B) (frames : list DataFrame) (out : DataFrame) :
  (∀ l r, f (set_index_label l r) = f r) →
  pd.concat frames = Ok out →
  map f (rows out) = flat_map (λ df, map (λ r, f (pd.pad df r)) (rows df)) frames.
Proof.
  intros Hl. destruct frames as [|df0 frames0]; [done|].
  unfold pd.concat. intros [= <-]. cbn [rows].
  rewrite renumber_keeps by done. exact (padded_map f (df0 :: frames0)).
Qed.

Lemma concat_keeps {B} (f : Row → B) (frames : list DataFrame) (out : DataFrame) :
  (∀ l r, f (set_index_label l r) = f r) →
  (∀ df r, f (pd.pad df r) = f r) →
  pd.concat frames = Ok out →
  map f (rows out) = flat_map (λ df, map f (rows df)) frames.
Proof.
  intros Hl Hp Hc. rewrite (concat_padded f frames out Hl Hc). clear Hc.
  induction frames as [|df frames IH]; [done|].
  cbn [flat_map]. f_equal; [|done]. apply map_ext. intros r. apply Hp.
Qed.

Lemma concat_rows (frames : list DataFrame) (out : DataFrame) :
  pd.concat frames = Ok out →
  map record_of (rows out) = flat_map (λ df, map record_of (rows df)) frames.
Proof. by apply concat_keeps. Qed.

Lemma concat_length (frames : list DataFrame) (out : DataFrame) :
  pd.concat frames = Ok out →
  length (rows out) = length (flat_map rows frames).
Proof.
  intros Hc. apply concat_rows in Hc. apply (f_equal length) in Hc.
  rewrite length_map in Hc. rewrite Hc. clear Hc.
  induction frames as [|df frames IH]; [done|].
  cbn [flat_map]. by rewrite !length_app, length_map, IH.
Qed.

Lemma replace_idemp (old new : ascii) (s : string) :
  old ≠ new → str.replace old new (str.replace old new s) = str.replace old new s.
Proof.
  intros Hne. induction s as [|c s IH]; simpl; [done|]. rewrite IH. f_equal.
  destruct (Ascii.eqb c old) eqn:E; [|by rewrite E].
  destruct (Ascii.eqb new old) eqn:E'; [|done].
  apply Ascii.eqb_eq in E'. by subst.
Qed.

Lemma load_country_data_present (data_dir : DataDir) (country_name : string) csv :
  data_dir (country_name ++ "_clean.csv")%string = Some (Ok csv) →
  load_country_data data_dir country_name = Ok (tagged country_name csv).
Proof. intros E. unfold load_country_data. by rewrite E. Qed.

Lemma load_country_data_absent (data_dir : DataDir) (country_name : string) :
  data_dir (country_name ++ "_clean.csv")%string = None →
  load_country_data data_dir country_name
  = Raise (FileNotFoundError (country_name ++ "_clean.csv")).
Proof. intros E. unfold load_country_data. by rewrite E. Qed.

Lemma map_const_repeat {A B} (c : B) (l : list A) :
  map (λ _, c) l = repeat c (length l).
Proof. induction l as [|x l IH]; simpl; [done|]. by rewrite IH. Qed.

Lemma tagged_countries country_name csv :
  map Country (rows (tagged country_name csv))
  = repeat (display_name country_name) (length (rows csv)).
Proof. unfold tagged. cbn [rows]. by rewrite map_map, <- map_const_repeat. Qed.

Lemma concat_countries (frames : list DataFrame) (out : DataFrame) :
  pd.concat frames = Ok out →
  map Country (rows out) = flat_map (λ df, map Country (rows df)) frames.
Proof. by apply concat_keeps. Qed.

(** ** C6: [load_all_countries] merges what loads *)

Lemma add_column_elem_of (c col : string) (cols : list string) :
  c ∈ pd.add_column col cols ↔ c = col ∨ c ∈ cols.
Proof.
  unfold pd.add_column. destruct (existsb (String.eqb col) cols) eqn:E.
  - split; [by right|]. intros [->|Hc]; [|done].
    apply existsb_exists in E as (c' & Hc' & Ec'). apply String.eqb_eq in Ec' as ->.
    by apply list_elem_of_In.
  - rewrite elem_of_app, list_elem_of_singleton. tauto.
Qed.

Lemma add_column_NoDup (col : string) (cols : list string) :
  NoDup cols → NoDup (pd.add_column col cols).
Proof.
  intros Hnd. unfold pd.add_column. destruct (existsb (String.eqb col) cols) eqn:E; [done|].
  apply NoDup_app. split; [done|]. split; [|apply NoDup_singleton].
  intros c Hc Hc'. apply list_elem_of_singleton in Hc' as ->.
  assert (existsb (String.eqb col) cols = true); [|congruence].
  apply existsb_exists. exists col. split; [by apply list_elem_of_In|apply String.eqb_refl].
Qed.

Lemma add_columns_elem_of (c : string) (new acc : list string) :
  c ∈ fold_left (λ a col, pd.add_column col a) new acc ↔ c ∈ new ∨ c ∈ acc.
Proof.
  revert acc. induction new as [|col new IH]; intros acc; simpl.
  - rewrite elem_of_nil. tauto.
  - rewrite IH, add_column_elem_of, elem_of_cons. tauto.
Qed.

Lemma add_columns_NoDup (new acc : list string) :
  NoDup acc → NoDup (fold_left (λ a col, pd.add_column col a) new acc).
Proof.
  revert acc. induction new as [|col new IH]; intros acc Hnd; simpl; [done|].
  by apply IH, add_column_NoDup.
Qed.

Lemma union_columns_from_elem_of (c : string) (frames : list DataFrame) (acc : list string) :
  c ∈ fold_left (λ acc df, fold_left (λ a col, pd.add_column col a) (columns df) acc)
        frames acc
  ↔ (∃ df, df ∈ frames ∧ c ∈ columns df) ∨ c ∈ acc.
Proof.
  revert acc. induction frames as [|df frames IH]; intros acc; simpl.
  - split; [by right|]. intros [(df & Hdf & _)|Hc]; [|done]. by apply elem_of_nil in Hdf.
  - rewrite IH, add_columns_elem_of. split.
    + intros [(df' & Hdf' & Hc)|[Hc|Hc]].
      * left. exists df'. split; [by right|done].
      * left. exists df. split; [left|done].
      * by right.
    + intros [(df' & Hdf' & Hc)|Hc]; [|by right; right].
      apply elem_of_cons in Hdf' as [->|Hdf']; [right; by left|].
      left. by exists df'.
Qed.

Lemma union_columns_elem_of (c : string) (frames : list DataFrame) :
  c ∈ pd.union_columns frames ↔ ∃ df, df ∈ frames ∧ c ∈ columns df.
Proof.
  unfold pd.union_columns. rewrite union_columns_from_elem_of, elem_of_nil. tauto.
Qed.

Lemma union_columns_NoDup (frames : list DataFrame) : NoDup (pd.union_columns frames).
Proof.
  unfold pd.union_columns. generalize (NoDup_nil_2 (A := string)).
  generalize (@nil string). induction frames as [|df frames IH]; intros acc Hnd; [done|].
  simpl. by apply IH, add_columns_NoDup.
Qed.

Lemma renumber_index (rs : list Row) :
  map index (pd.renumber rs) = map RangeLabel (seq 0 (length rs)).
Proof.
  unfold pd.renumber. generalize 0%nat.
  induction rs as [|r rs IH]; intros k; simpl; [done|]. by rewrite IH.
Qed.

Lemma renumber_length (rs : list Row) : length (pd.renumber rs) = length rs.
Proof.
  rewrite <- (length_map index), renumber_index, length_map. apply length_seq.
Qed.

Lemma loaded_has_Country (data_dir : DataDir) (ids : list string) (df : DataFrame) :
  df ∈ loaded data_dir ids → "Country"%string ∈ columns df.
Proof.
  unfold loaded. rewrite list_elem_of_omap. intros (id & _ & E).
  destruct (load_country_data data_dir id) as [df'|e] eqn:El; [|done].
  injection E as ->. destruct (load_country_data_Ok _ _ _ El) as (csv & _ & ->).
  apply has_column_elem_of, add_column_has.
Qed.

Lemma loaded_skipped_length (data_dir : DataDir) (ids : list string) :
  (length (loaded data_dir ids) + length (skipped data_dir ids))%nat = length ids.
Proof.
  unfold loaded, skipped. induction ids as [|id ids IH]; [done|].
  cbn [omap list_omap]. destruct (load_country_data data_dir id) as [df|e].
  - simpl. lia.
  - destruct e; simpl; lia.
Qed.

Lemma flat_map_ext_elem_of {A B} (f g : A → list B) (l : list A) :
  (∀ x, x ∈ l → f x = g x) → flat_map f l = flat_map g l.
Proof.
  induction l as [|x l IH]; intros Hfg; [done|]. cbn [flat_map].
  rewrite (Hfg x) by left. f_equal. apply IH. intros y Hy. apply Hfg. by right.
Qed.

Lemma concat_Ok (frames : list DataFrame) (out : DataFrame) :
  pd.concat frames = Ok out →
  out = mkDataFrame RangeIndex (pd.union_columns frames)
          (pd.renumber (flat_map (λ df, map (pd.pad df) (rows df)) frames)).
Proof. destruct frames; [done|]. unfold pd.concat. by intros [= <-]. Qed.

Lemma concat_has_column (col : string) (frames : list DataFrame) (out : DataFrame) :
  pd.concat frames = Ok out →
  has_column col out = true ↔ ∃ df, df ∈ frames ∧ has_column col df = true.
Proof.
  intros Hc. rewrite has_column_elem_of, (concat_Ok frames out Hc). cbn [columns].
  rewrite union_columns_elem_of. split.
  - intros (df & Hdf & Hcol). exists df. by rewrite has_column_elem_of.
  - intros (df & Hdf & Hcol). exists df. by rewrite <- has_column_elem_of.
Qed.

Lemma concat_metric_cells (frames : list DataFrame) (out : DataFrame) :
  pd.concat frames = Ok out →
  map (metric_cells out) (rows out)
  = flat_map (λ df, map (metric_cells df) (rows df)) frames.
Proof.
  intros Hc. rewrite (concat_padded (metric_cells out) frames out) by done.
  apply flat_map_ext_elem_of. intros df Hdf. apply map_ext. intros r.
  unfold metric_cells, pd.pad. cbn [T2M WS10M_MIN]. f_equal.
  - destruct (has_column "T2M" df) eqn:E; [|by destruct (has_column _ out)].
    replace (has_column "T2M" out) with true; [done|].
    symmetry. apply (concat_has_column _ frames out Hc). by exists df.
  - destruct (has_column "WS10M_MIN" df) eqn:E; [|by destruct (has_column _ out)].
    replace (has_column "WS10M_MIN" out) with true; [done|].
    symmetry. apply (concat_has_column _ frames out Hc). by exists df.
Qed.

Lemma concat_date_cells (frames : list DataFrame) (out : DataFrame) :
  same_date_columns frames →
  pd.concat frames = Ok out →
  map (date_cells out) (rows out)
  = flat_map (λ df, map (date_cells df) (rows df)) frames.
Proof.
  intros Hsame Hc. rewrite (concat_padded (date_cells out) frames out) by done.
  apply flat_map_ext_elem_of. intros df Hdf. apply map_ext. intros r.
  assert (Hcol : ∀ col, col ∈ ["YEAR"; "MO"; "DY"]%string →
                        has_column col out = has_column col df).
  { intros col Hin. apply Bool.eq_iff_eq_true.
    rewrite (concat_has_column col frames out Hc). split.
    - intros (df' & Hdf' & E). by rewrite (Hsame col df df' Hin Hdf Hdf').
    - intros E. by exists df. }
  unfold date_cells, pd.pad. cbn [YEAR MO DY].
  rewrite !Hcol by (apply list_elem_of_In; simpl; tauto). done.
Qed.

Lemma tagged_has_column (col country_name : string) (csv : DataFrame) :
  col ≠ "Country"%string →
  has_column col (tagged country_name csv) = has_column col csv.
Proof.
  intros Hne. unfold has_column, tagged, pd.add_column. cbn [columns].
  destruct (existsb (String.eqb "Country") (columns csv)); [done|].
  rewrite existsb_app. simpl. apply String.eqb_neq in Hne. rewrite Hne.
  by rewrite !orb_false_r.
Qed.

Lemma tagged_metric_cells (country_name : string) (csv : DataFrame) :
  map (metric_cells (tagged country_name csv)) (rows (tagged country_name csv))
  = map (metric_cells csv) (rows csv).
Proof.
  unfold metric_cells. rewrite !tagged_has_column by done.
  unfold tagged. cbn [rows]. rewrite map_map. apply map_ext. by intros [].
Qed.

(** C6.  [load_all_countries] skips every country whose load raises, a
    missing file or anything else, showing a warning or an error for it, and
    concatenates the frames of the others in the order of the ids, each with
    its rows in order: the merged table is numbered afresh, has the labels of
    the frames that loaded, each once and Country among them, and its rows
    read as the rows of the frames do, a metric a frame has no column for
    reading null, and the date fields for frames that have the same date
    columns.  It raises, with "No data could be loaded", exactly when no
    country loads.  With the file of Sierra Leone missing and those of Benin
    and Togo present, the merged table holds the rows of Benin followed by
    those of Togo and nothing else; with all three missing the call
    raises. *)
Theorem load_all_countries_merges (data_dir : DataDir) (countries : option (list string)) :
  let frames := loaded data_dir (normalized countries) in
  (∀ df, df ∈ frames ↔
         ∃ country, country ∈ normalized countries
                  ∧ load_country_data data_dir country = Ok df)
  ∧ (load_all_countries data_dir countries).2 = skipped data_dir (normalized countries)
  ∧ ((∃ e, (load_all_countries data_dir countries).1 = Raise e) ↔ frames = [])
  ∧ (frames = [] → (load_all_countries data_dir countries).1 = Raise ValueError_no_data)
  ∧ (frames ≠ [] →
     ∃ out, (load_all_countries data_dir countries).1 = Ok out
          ∧ index_kind out = RangeIndex
          ∧ map index (rows out) = map RangeLabel (seq 0 (length (rows out)))
          ∧ length (rows out) = length (flat_map rows frames)
          ∧ NoDup (columns out)
          ∧ (∀ col, col ∈ columns out ↔ ∃ df, df ∈ frames ∧ col ∈ columns df)
          ∧ has_column "Country" out = true
          ∧ map Country (rows out) = flat_map (λ df, map Country (rows df)) frames
          ∧ map (metric_cells out) (rows out)
            = flat_map (λ df, map (metric_cells df) (rows df)) frames
          ∧ (same_date_columns frames →
             map (date_cells out) (rows out)
             = flat_map (λ df, map (date_cells df) (rows df)) frames))
  ∧ (∀ benin togo,
       data_dir "benin_clean.csv"%string = Some (Ok benin) →
       data_dir "sierra_leone_clean.csv"%string = None →
       data_dir "togo_clean.csv"%string = Some (Ok togo) →
       ∃ out, load_all_countries data_dir None
              = (Ok out, [st_warning "sierra_leone"
                            (FileNotFoundError "sierra_leone_clean.csv")])
            ∧ has_column "Country" out = true
            ∧ map Country (rows out)
              = repeat "Benin"%string (length (rows benin))
                ++ repeat "Togo"%string (length (rows togo))
            ∧ map (metric_cells out) (rows out)
              = map (metric_cells benin) (rows benin)
                ++ map (metric_cells togo) (rows togo)
            ∧ (rows benin ≠ [] ∨ rows togo ≠ [] → rows out ≠ []))
  ∧ (data_dir "benin_clean.csv"%string = None →
     data_dir "sierra_leone_clean.csv"%string = None →
     data_dir "togo_clean.csv"%string = None →
     (load_all_countries data_dir None).1 = Raise ValueError_no_data).
Proof.
  intros frames. rewrite load_all_countries_unfold. fold frames. cbn [fst snd].
  split; [|split; [done|split; [|split; [|split; [|split]]]]].
  - intros df. unfold frames, loaded. rewrite list_elem_of_omap. split.
    + intros (c & Hc & E). exists c. split; [done|].
      by destruct (load_country_data data_dir c); simplify_eq.
    + intros (c & Hc & E). exists c. split; [done|]. by rewrite E.
  - split.
    + intros [e He]. destruct frames as [|df fs]; [done|]. done.
    + intros ->. by eexists.
  - by intros ->.
  - intros Hne. destruct frames as [|df0 fs] eqn:E; [done|]. rewrite <- E.
    assert (Hc : pd.concat frames = Ok
                   (mkDataFrame RangeIndex (pd.union_columns frames)
                      (pd.renumber (flat_map (λ df, map (pd.pad df) (rows df)) frames))))
      by (by rewrite E).
    replace (match frames with [] => Raise ValueError_no_data | _ => pd.concat frames end)
      with (pd.concat frames) by (by rewrite E).
    eexists. split; [exact Hc|]. split; [done|]. cbn [rows columns].
    split; [by rewrite renumber_index, renumber_length|].
    split; [apply (concat_length frames _ Hc)|].
    split; [apply union_columns_NoDup|].
    split; [intros col; apply union_columns_elem_of|].
    split.
    { apply (concat_has_column "Country" frames _ Hc). exists df0.
      split; [rewrite E; left|]. apply has_column_elem_of.
      apply (loaded_has_Country data_dir (normalized countries)).
      fold frames. rewrite E. left. }
    split; [apply (concat_countries frames _ Hc)|].
    split; [apply (concat_metric_cells frames _ Hc)|].
    intros Hsame. by apply (concat_date_cells frames _ Hsame Hc).
  - intros benin togo Hb Hs Ht. rewrite load_all_countries_unfold.
    change (normalized None) with ["benin"; "sierra_leone"; "togo"]%string.
    unfold loaded, skipped. cbn [omap list_omap].
    rewrite (load_country_data_present data_dir "benin" benin Hb).
    rewrite (load_country_data_absent data_dir "sierra_leone" Hs).
    rewrite (load_country_data_present data_dir "togo" togo Ht).
    assert (∃ out, pd.concat [tagged "benin" benin; tagged "togo" togo] = Ok out)
      as [out Hc] by (by eexists).
    change (match [tagged "benin" benin; tagged "togo" togo] with
            | [] => Raise ValueError_no_data
            | _ => pd.concat [tagged "benin" benin; tagged "togo" togo]
            end) with (pd.concat [tagged "benin" benin; tagged "togo" togo]).
    rewrite Hc.
    pose proof (concat_countries _ out Hc) as Hcs.
    pose proof (concat_metric_cells _ out Hc) as Hms.
    cbn [flat_map] in Hcs, Hms.
    rewrite !tagged_countries, (app_nil_r (repeat _ _)) in Hcs.
    change (display_name "benin") with "Benin"%string in Hcs.
    change (display_name "togo") with "Togo"%string in Hcs.
    rewrite !tagged_metric_cells, app_nil_r in Hms.
    exists out. split; [reflexivity|].
    split.
    { apply (concat_has_column "Country" _ out Hc).
      exists (tagged "benin" benin). split; [left|apply add_column_has]. }
    split; [exact Hcs|]. split; [exact Hms|].
    intros Hrows Hout.
    assert (El : repeat "Benin"%string (length (rows benin))
                ++ repeat "Togo"%string (length (rows togo)) = [])
      by (rewrite <- Hcs; exact (f_equal (map Country) Hout)).
    apply (f_equal length) in El. rewrite length_app, !repeat_length in El.
    simpl in El.
    destruct Hrows as [Hr|Hr]; [destruct (rows benin)|destruct (rows togo)];
      simpl in El; try done; lia.
  - intros Hb Hs Ht. rewrite load_all_countries_unfold.
    change (normalized None) with ["benin"; "sierra_leone"; "togo"]%string.
    unfold loaded. cbn [omap list_omap].
    rewrite (load_country_data_absent data_dir "benin" Hb).
    rewrite (load_country_data_absent data_dir "sierra_leone" Hs).
    by rewrite (load_country_data_absent data_dir "togo" Ht).
Qed.

Lemma load_all_countries_merges_witness :
  ∃ out, load_all_countries two_of_three None
         = (Ok out, [st_warning "sierra_leone"
                       (FileNotFoundError "sierra_leone_clean.csv")])
       ∧ has_column "Country" out = true
       ∧ map Country (rows out)
         = repeat "Benin"%string (length (rows gap_table))
           ++ repeat "Togo"%string (length (rows tie_table))
       ∧ map (metric_cells out) (rows out)
         = map (metric_cells gap_table) (rows gap_table)
           ++ map (metric_cells tie_table) (rows tie_table)
       ∧ (rows gap_table ≠ [] ∨ rows tie_table ≠ [] → rows out ≠ []).
Proof.
  apply (load_all_countries_merges two_of_three None); reflexivity.
Defined.

(** ** C9: the country name a loaded row gets *)

Lemma replace_get (old new : ascii) (s : string) (i : nat) :
  String.get i (str.replace old new s)
  = (λ c, if Ascii.eqb c old then new else c) <$> String.get i s.
Proof.
  revert i. induction s as [|c s IH]; intros i; [done|].
  destruct i as [|i]; simpl; [done|apply IH].
Qed.






(** ** C10: hyphens in country ids *)

Lemma normalized_Some_idemp (countries : list string) :
  normalized (Some (map (str.replace "-" "_") countries)) = normalized (Some countries).
Proof.
  unfold normalized. change (default _ (Some ?l)) with l.
  rewrite map_map. apply map_ext. intros c. by apply replace_idemp.
Qed.

(** C10.  [load_all_countries] replaces every hyphen of an id by an
    underscore before it calls the loader: what it returns and what it shows
    is what the loader gives for the ids so rewritten, the frames of those
    that load merged in order and a message under the rewritten id for each
    of the others.  A list of ids gives the same merged table, and the same
    messages, as the list with the hyphens already replaced.  With a file
    for 'sierra_leone' and none for 'sierra-leone', the id 'sierra-leone'
    loads the rows of the file, each named 'Sierra Leone', as 'sierra_leone'
    does; with a file for 'sierra-leone' only, neither loads. *)
Theorem load_all_countries_hyphens (data_dir : DataDir) (countries : list string) :
  load_all_countries data_dir (Some countries)
  = (match omap (λ id,
                   match load_country_data data_dir (str.replace "-" "_" id) with
                   | Ok df => Some df
                   | Raise _ => None
                   end) countries with
     | [] => Raise ValueError_no_data
     | frames => pd.concat frames
     end,
     omap (λ id,
             match load_country_data data_dir (str.replace "-" "_" id) with
             | Ok _ => None
             | Raise (FileNotFoundError path) =>
                 Some (st_warning (str.replace "-" "_" id) (FileNotFoundError path))
             | Raise e => Some (st_error (str.replace "-" "_" id) e)
             end) countries)
  ∧ load_all_countries data_dir (Some countries)
    = load_all_countries data_dir (Some (map (str.replace "-" "_") countries))
  ∧ (∀ id i, String.get i (str.replace "-" "_" id)
             = (λ c, if Ascii.eqb c "-" then "_"%char else c) <$> String.get i id)
  ∧ str.replace "-" "_" "sierra-leone" = "sierra_leone"%string
  ∧ load_all_countries data_dir (Some ["sierra-leone"]%string)
    = load_all_countries data_dir (Some ["sierra_leone"]%string)
  ∧ (∀ csv,
       data_dir "sierra_leone_clean.csv"%string = Some (Ok csv) →
       data_dir "sierra-leone_clean.csv"%string = None →
       ∃ out, load_all_countries data_dir (Some ["sierra-leone"]%string) = (Ok out, [])
            ∧ pd.concat [tagged "sierra_leone" csv] = Ok out
            ∧ map Country (rows out)
              = repeat "Sierra Leone"%string (length (rows csv))
            ∧ map (metric_cells out) (rows out) = map (metric_cells csv) (rows csv))
  ∧ (∀ csv,
       data_dir "sierra_leone_clean.csv"%string = None →
       data_dir "sierra-leone_clean.csv"%string = Some (Ok csv) →
       load_all_countries data_dir (Some ["sierra-leone"]%string)
       = (Raise ValueError_no_data,
          [st_warning "sierra_leone" (FileNotFoundError "sierra_leone_clean.csv")])).
Proof.
  split; [|split; [|split; [|split; [reflexivity|split; [|split]]]]].
  - rewrite load_all_countries_unfold. unfold loaded, skipped, normalized.
    change (default _ (Some ?l)) with l.
    assert (Hmap : ∀ {B} (f : string → option B),
               omap f (map (str.replace "-" "_") countries)
               = omap (λ id, f (str.replace "-" "_" id)) countries).
    { intros B f. induction countries as [|c cs IH]; [done|].
      cbn [map omap list_omap]. by rewrite <- IH. }
    by rewrite !Hmap.
  - by rewrite !load_all_countries_unfold, normalized_Some_idemp.
  - intros id i. apply replace_get.
  - rewrite !load_all_countries_unfold. reflexivity.
  - intros csv Hs _. rewrite load_all_countries_unfold.
    change (normalized (Some ["sierra-leone"%string])) with ["sierra_leone"%string].
    unfold loaded, skipped. cbn [omap list_omap].
    rewrite (load_country_data_present data_dir "sierra_leone" csv Hs).
    assert (∃ out, pd.concat [tagged "sierra_leone" csv] = Ok out)
      as [out Hc] by (by eexists).
    change (match [tagged "sierra_leone" csv] with
            | [] => Raise ValueError_no_data
            | _ => pd.concat [tagged "sierra_leone" csv]
            end) with (pd.concat [tagged "sierra_leone" csv]).
    rewrite Hc. exists out. split; [reflexivity|]. split; [reflexivity|].
    pose proof (concat_countries _ out Hc) as Hcs.
    pose proof (concat_metric_cells _ out Hc) as Hms.
    cbn [flat_map] in Hcs, Hms.
    rewrite tagged_countries, app_nil_r in Hcs.
    rewrite tagged_metric_cells, app_nil_r in Hms. done.
  - intros csv Hs _. rewrite load_all_countries_unfold.
    change (normalized (Some ["sierra-leone"%string])) with ["sierra_leone"%string].
    unfold loaded, skipped. cbn [omap list_omap].
    by rewrite (load_country_data_absent data_dir "sierra_leone" Hs).
Qed.

Lemma load_all_countries_hyphens_witness :
  ∃ out, load_all_countries sierra_leone_only (Some ["sierra-leone"]%string) = (Ok out, [])
       ∧ pd.concat [tagged "sierra_leone" tie_table] = Ok out
       ∧ map Country (rows out)
         = repeat "Sierra Leone"%string (length (rows tie_table))
       ∧ map (metric_cells out) (rows out) = map (metric_cells tie_table) (rows tie_table).
Proof.
  apply (load_all_countries_hyphens sierra_leone_only []); reflexivity.
Defined.

(** ** C8: the input frame is left as it was *)

Section store.
Context (h0 : gmap nat DataFrame).

Lemma runs_bind {A B} (m : obj.state A) (k : A → obj.state B) h Q E :
  runs h0 m h (λ a h', runs h0 (k a) h' Q E) E → runs h0 (m ≫= k) h Q E.
Proof.
  unfold runs, mbind, obj.state_bind.
  by destruct (m h) as [[a|e] h'].
Qed.

Lemma runs_get l d h (Q : DataFrame → _ → Prop) E :
  h !! l = Some d → Q d h → runs h0 (obj.get l) h Q E.
Proof. intros Hl HQ. unfold runs, obj.get. by rewrite Hl. Qed.

Lemma runs_new d h (Q : nat → _ → Prop) E :
  (∀ l, h !! l = None → Q l (<[l := d]> h)) → runs h0 (obj.new d) h Q E.
Proof.
  intros HQ. unfold runs, obj.new. apply HQ.
  apply not_elem_of_dom, is_fresh.
Qed.

Lemma runs_put l d h (Q : unit → _ → Prop) E :
  Q tt (<[l := d]> h) → runs h0 (obj.put l d) h Q E.
Proof. done. Qed.

Lemma runs_lift_Ok {A} (a : A) h (Q : A → _ → Prop) E :
  Q a h → runs h0 (obj.lift (Ok a)) h Q E.
Proof. done. Qed.

Lemma runs_lift_Raise {A} e h (Q : A → _ → Prop) (E : exn → Prop) :
  untouched h0 h → E e → runs h0 (obj.lift (Raise e)) h Q E.
Proof. done. Qed.

Lemma runs_ret {A} (a : A) h (Q : A → _ → Prop) E :
  Q a h → runs h0 (mret a) h Q E.
Proof. done. Qed.

Lemma untouched_insert l d h :
  h0 !! l = None → untouched h0 h → untouched h0 (<[l := d]> h).
Proof.
  intros Hl Hu l' x Hx. rewrite lookup_insert_ne; [by apply Hu|].
  intros ->. congruence.
Qed.

Lemma untouched_refl : untouched h0 h0.
Proof. by intros l x. Qed.

Lemma untouched_new l h : untouched h0 h → h !! l = None → h0 !! l = None.
Proof.
  intros Hu Hl. destruct (h0 !! l) as [x|] eqn:E; [|done].
  apply Hu in E. congruence.
Qed.

End store.

Ltac run_step :=
  lazymatch goal with
  | |- runs _ (_ ≫= _) _ _ _ => apply runs_bind
  | |- runs _ (obj.get _) _ _ _ =>
      eapply runs_get; [first [apply lookup_insert_eq | eassumption]|]
  | |- runs _ (obj.put _ _) _ _ _ => apply runs_put; rewrite ?insert_insert_eq
  | |- runs _ (obj.lift (Ok _)) _ _ _ => apply runs_lift_Ok
  | |- runs _ (mret _) _ _ _ => apply runs_ret
  end.

Section leaves_input.
Context `{Pandas}.

Lemma obj_preprocess_data_runs (h : gmap nat DataFrame) (df : nat) (d : DataFrame) :
  h !! df = Some d →
  runs h (obj.preprocess_data df) h
    (λ l h', untouched h h'
             ∧ ∃ out, preprocess_data d = Ok out ∧ h !! l = None ∧ h' !! l = Some out)
    (λ e, preprocess_data d = Raise e).
Proof.
  intros Hdf. unfold obj.preprocess_data, preprocess_data, copy.
  repeat run_step. apply runs_new. intros l1 Hl1. cbv beta.
  assert (Hu1 : ∀ x, untouched h (<[l1 := x]> h))
    by (intros x; apply untouched_insert; [done|apply untouched_refl]).
  repeat run_step.
  destruct (List.filter _ required_cols) as [|c cs]; [|by apply runs_lift_Raise].
  repeat run_step.
  destruct (pd.to_datetime (rows d)) as [ts|e]; [|by apply runs_lift_Raise].
  repeat run_step. apply runs_new. intros l2 Hl2. cbv beta.
  assert (Hn2 : h !! l2 = None) by (eapply untouched_new; [apply Hu1|exact Hl2]).
  repeat run_step. apply runs_new. intros l3 Hl3. cbv beta.
  assert (Hn3 : h !! l3 = None).
  { eapply untouched_new; [|exact Hl3]. by apply untouched_insert. }
  repeat run_step.
  split; [do 2 (apply untouched_insert; [done|]); apply Hu1|].
  eexists. split; [reflexivity|]. split; [done|apply lookup_insert_eq].
Qed.

End leaves_input.

Lemma obj_filter_data_runs (h : gmap nat DataFrame) (df : nat) (d : DataFrame)
    (countries : list string) (date_range : Z * Z) :
  h !! df = Some d →
  runs h (obj.filter_data df countries date_range) h
    (λ l h', untouched h h'
             ∧ ∃ out, filter_data d countries date_range = Ok out
                    ∧ h !! l = None ∧ h' !! l = Some out)
    (λ e, filter_data d countries date_range = Raise e).
Proof.
  intros Hdf. unfold obj.filter_data, filter_data, copy.
  repeat run_step.
  destruct (negb (has_column "Country" d));
    [by apply runs_lift_Raise; [apply untouched_refl|]|].
  repeat run_step. apply runs_new. intros l1 Hl1. cbv beta.
  assert (Hu1 : ∀ x, untouched h (<[l1 := x]> h))
    by (intros x; apply untouched_insert; [done|apply untouched_refl]).
  repeat run_step. apply runs_new. intros l2 Hl2. cbv beta.
  assert (Hn2 : h !! l2 = None) by (eapply untouched_new; [apply Hu1|exact Hl2]).
  assert (Hu2 : ∀ x y, untouched h (<[l2 := y]> (<[l1 := x]> h)))
    by (intros x y; apply untouched_insert; [done|apply Hu1]).
  destruct date_range as [start_date end_date].
  repeat run_step. cbn [index_kind columns rows].
  destruct (index_kind d); [by apply runs_lift_Raise|].
  apply runs_new. intros l3 Hl3.
  assert (Hn3 : h !! l3 = None) by (eapply untouched_new; [apply Hu2|exact Hl3]).
  split; [apply untouched_insert; [done|apply Hu2]|].
  eexists. split; [reflexivity|]. split; [done|apply lookup_insert_eq].
Qed.

Section frame_effect.
Context `{Pandas}.

(** C8.  [preprocess_data] and [filter_data] leave the frame they are given,
    and every other frame of the store, as it was, whether they return or
    raise; what they return is an object the store did not have, holding the
    derived table. *)
Theorem preprocess_and_filter_leave_input (h : gmap nat DataFrame) (df : nat)
    (d : DataFrame) (countries : list string) (date_range : Z * Z) :
  h !! df = Some d →
  (let '(r, h') := obj.preprocess_data df h in
   h' !! df = Some d ∧ untouched h h' ∧ returns_new h h' r (preprocess_data d))
  ∧ (let '(r, h') := obj.filter_data df countries date_range h in
     h' !! df = Some d ∧ untouched h h'
     ∧ returns_new h h' r (filter_data d countries date_range)).
Proof.
  intros Hdf. split.
  - pose proof (obj_preprocess_data_runs h df d Hdf) as Hr. unfold runs in Hr.
    destruct (obj.preprocess_data df h) as [[l|e] h'].
    + destruct Hr as (Hu & out & -> & Hn & Hl). split; [by apply Hu|]. by split.
    + destruct Hr as (Hu & ->). split; [by apply Hu|]. by split.
  - pose proof (obj_filter_data_runs h df d countries date_range Hdf) as Hr.
    unfold runs in Hr.
    destruct (obj.filter_data df countries date_range h) as [[l|e] h'].
    + destruct Hr as (Hu & out & -> & Hn & Hl). split; [by apply Hu|]. by split.
    + destruct Hr as (Hu & ->). split; [by apply Hu|]. by split.
Qed.

End frame_effect.

Lemma preprocess_and_filter_leave_input_witness :
  let '(r, h') := obj.preprocess_data (H := numpy_insertion) 0 {[0%nat := tie_table]} in
  h' !! 0%nat = Some tie_table
  ∧ untouched {[0%nat := tie_table]} h'
  ∧ returns_new {[0%nat := tie_table]} h' r
      (preprocess_data (H := numpy_insertion) tie_table).
Proof.
  apply (preprocess_and_filter_leave_input (H := numpy_insertion)
           {[0%nat := tie_table]} 0 tie_table [] (0, 0)).
  reflexivity.
Defined.

(** ** C7: summary statistics *)

Lemma rint_close (x : Q) :
  (- (1 # 2) <= inject_Z (agg.rint x) - x <= 1 # 2)%Q.
Proof.
  unfold agg.rint.
  pose proof (Qfloor_le x) as Hlo. pose proof (Qlt_floor x) as Hhi.
  rewrite inject_Z_plus in Hhi. change (inject_Z 1) with 1%Q in Hhi.
  destruct (Qcompare_spec (x - inject_Z (Qfloor x)) (1 # 2)) as [E|E|E].
  - destruct (Z.even (Qfloor x)); rewrite ?inject_Z_plus;
      change (inject_Z 1) with 1%Q; lra.
  - lra.
  - rewrite inject_Z_plus. change (inject_Z 1) with 1%Q. lra.
Qed.

Lemma round2_Rat (q v : Q) :
  agg.round 2 (Some (Rat q)) = Some v → rounded2 q v.
Proof.
  unfold agg.round. intros [= <-].
  change (10 ^ Z.of_nat 2)%Z with 100%Z.
  pose proof (rint_close (q * inject_Z 100)) as Hk.
  set (k := agg.rint (q * inject_Z 100)) in *.
  split.
  - exists k. rewrite Qred_correct. reflexivity.
  - rewrite Qred_correct. apply Qabs_Qle_condition.
    change (inject_Z 100) with (100 # 1) in *. 
    unfold Qdiv. change (/ (100 # 1))%Q with (1 # 100)%Q. lra.
Qed.

Lemma rint_sqrt_spec (x : Q) :
  (0 <= x)%Q →
  let k := agg.rint_sqrt x in
  (0 <= k)%Z
  ∧ (k = 0%Z ∨ (inject_Z ((2 * k - 1) * (2 * k - 1)) <= 4 * x)%Q)
  ∧ (4 * x <= inject_Z ((2 * k + 1) * (2 * k + 1)))%Q.
Proof.
  intros Hx. unfold agg.rint_sqrt.
  set (n := Qfloor (4 * x)).
  assert (Hn : (0 <= n)%Z).
  { assert (Hf : (Qfloor 0 <= Qfloor (4 * x))%Z) by (apply Qfloor_resp_le; lra).
    exact Hf. }
  pose proof (Qfloor_le (4 * x)) as Hlo. pose proof (Qlt_floor (4 * x)) as Hhi.
  fold n in Hlo, Hhi.
  pose proof (Z.sqrt_spec n Hn) as Hs. cbv zeta in Hs.
  pose proof (Z.sqrt_nonneg n) as Hs0.
  set (s := Z.sqrt n) in *. set (k := ((s + 1) / 2)%Z).
  assert (Hk : (2 * k - 1 <= s <= 2 * k)%Z).
  { pose proof (Z.div_mod (s + 1) 2 ltac:(lia)) as Hd.
    pose proof (Z.mod_pos_bound (s + 1) 2 ltac:(lia)) as Hm.
    fold k in Hd. lia. }
  assert (Hk0 : (0 <= k)%Z) by lia.
  assert (Hlow : k = 0%Z ∨ ((2 * k - 1) * (2 * k - 1) <= n)%Z).
  { destruct (decide (k = 0%Z)); [by left|right; nia]. }
  assert (Hupp : (n + 1 <= (2 * k + 1) * (2 * k + 1))%Z) by nia.
  destruct (Qeq_bool _ _ && Z.odd k) eqn:Etie.
  - apply andb_true_iff in Etie as [Eq Eodd]. apply Qeq_bool_iff in Eq.
    assert (Hk1 : (1 <= k)%Z) by (destruct (decide (k = 0%Z)) as [->|]; [done|lia]).
    split; [lia|]. split.
    + right. rewrite Eq. rewrite <- Zle_Qle. nia.
    + rewrite Eq. rewrite <- Zle_Qle. nia.
  - split; [done|]. split.
    + destruct Hlow as [->|Hlow]; [by left|right].
      rewrite Zle_Qle in Hlow. lra.
    + rewrite Zle_Qle, inject_Z_plus in Hupp. change (inject_Z 1) with 1%Q in Hupp.
      rewrite inject_Z_plus in Hhi. change (inject_Z 1) with 1%Q in Hhi. lra.
Qed.


Lemma round2_Sqrt (q v : Q) :
  (0 <= q)%Q → agg.round 2 (Some (Sqrt q)) = Some v → rounded2_sqrt q v.
Proof.
  intros Hq. unfold agg.round. intros [= <-].
  change (10 ^ Z.of_nat 2)%Z with 100%Z.
  change (inject_Z (100 * 100)) with (10000 # 1)%Q.
  change (inject_Z 100) with (100 # 1)%Q.
  assert (Hx : (0 <= q * (10000 # 1))%Q) by lra.
  destruct (rint_sqrt_spec _ Hx) as (Hk0 & Hlow & Hupp).
  set (k := agg.rint_sqrt (q * (10000 # 1))) in *.
  rewrite !inject_Z_mult, !inject_Z_plus, !inject_Z_mult in Hupp.
  change (inject_Z 2) with 2%Q in *. change (inject_Z 1) with 1%Q in *.
  rewrite Zle_Qle in Hk0. change (inject_Z 0) with 0%Q in Hk0.
  unfold rounded2_sqrt.
  set (v := Qred (inject_Z k / (100 # 1))).
  assert (Ev : (v == inject_Z k * (1 # 100))%Q) by (unfold v; by rewrite Qred_correct).
  split; [exists k; by rewrite Ev|]. rewrite !Ev.
  split; [lra|]. split; [|nra].
  destruct Hlow as [E|Hlow].
  - left. rewrite E. reflexivity.
  - right. replace (2 * k - 1)%Z with (2 * k + -1)%Z in Hlow by lia.
    rewrite !inject_Z_mult, !inject_Z_plus, !inject_Z_mult in Hlow.
    change (inject_Z 2) with 2%Q in *. change (inject_Z (-1)) with (-1 # 1)%Q in *.
    nra.
Qed.

Lemma round2_Rat_ex (q : Q) :
  ∃ v, agg.round 2 (Some (Rat q)) = Some v ∧ rounded2 q v.
Proof. eexists. split; [reflexivity|]. by apply round2_Rat. Qed.

Lemma round2_Sqrt_ex (q : Q) :
  (0 <= q)%Q → ∃ v, agg.round 2 (Some (Sqrt q)) = Some v ∧ rounded2_sqrt q v.
Proof. intros Hq. eexists. split; [reflexivity|]. by apply round2_Sqrt. Qed.

Lemma sum_squares_nonneg (a : Q) (xs : list Q) :
  (0 <= agg.sum (map (λ x, (x - a) * (x - a)) xs))%Q.
Proof.
  induction xs as [|x xs IH]; [apply Qle_refl|].
  change (0 <= (x - a) * (x - a) + agg.sum (map (λ x, (x - a) * (x - a)) xs))%Q.
  assert (Hsq : (0 <= (x - a) * (x - a))%Q).
  { destruct (Qlt_le_dec (x - a) 0) as [Hneg|Hpos].
    - setoid_replace ((x - a) * (x - a))%Q with ((a - x) * (a - x))%Q
        using relation Qeq by ring.
      apply Qmult_le_0_compat; lra.
    - by apply Qmult_le_0_compat. }
  lra.
Qed.

Lemma var_nonneg (xs : list Q) : (2 <= length xs)%nat → (0 <= agg.var xs)%Q.
Proof.
  intros Hn. unfold agg.var. apply Qle_shift_div_l.
  - unfold agg.count. 
    assert (H2 : (inject_Z 2 <= inject_Z (Z.of_nat (length xs)))%Q)
      by (rewrite <- Zle_Qle; lia).
    change (inject_Z 2) with 2%Q in H2. lra.
  - rewrite Qmult_0_l. apply sum_squares_nonneg.
Qed.

Lemma fold_min (xs : list Q) (a : Q) :
  let m := fold_left (λ a b, if Qle_bool b a then b else a) xs a in
  (m = a ∨ m ∈ xs) ∧ (m <= a)%Q ∧ Forall (λ x, (m <= x)%Q) xs.
Proof.
  revert a. induction xs as [|x xs IH]; intros a; simpl.
  - split; [by left|]. split; [lra|constructor].
  - destruct (Qle_bool x a) eqn:E.
    + apply Qle_bool_iff in E. destruct (IH x) as (Hin & Hle & Hall).
      split; [right; destruct Hin as [->|Hin]; [left|by right]|].
      split; [lra|]. by constructor.
    + apply Qle_bool_false in E. destruct (IH a) as (Hin & Hle & Hall).
      split; [destruct Hin as [->|Hin]; [by left|right; by right]|].
      split; [done|]. constructor; [lra|done].
Qed.

Lemma fold_max (xs : list Q) (a : Q) :
  let m := fold_left (λ a b, if Qle_bool a b then b else a) xs a in
  (m = a ∨ m ∈ xs) ∧ (a <= m)%Q ∧ Forall (λ x, (x <= m)%Q) xs.
Proof.
  revert a. induction xs as [|x xs IH]; intros a; simpl.
  - split; [by left|]. split; [lra|constructor].
  - destruct (Qle_bool a x) eqn:E.
    + apply Qle_bool_iff in E. destruct (IH x) as (Hin & Hle & Hall).
      split; [right; destruct Hin as [->|Hin]; [left|by right]|].
      split; [lra|]. by constructor.
    + apply Qle_bool_false in E. destruct (IH a) as (Hin & Hle & Hall).
      split; [destruct Hin as [->|Hin]; [by left|right; by right]|].
      split; [done|]. constructor; [lra|done].
Qed.

Lemma agg_min_spec (x : Q) (xs : list Q) :
  ∃ m, agg.min (x :: xs) = Some (Rat m) ∧ is_min (x :: xs) m.
Proof.
  eexists. split; [reflexivity|].
  destruct (fold_min xs x) as (Hin & Hle & Hall). split.
  - destruct Hin as [->|Hin]; [left|by right].
  - by constructor.
Qed.

Lemma agg_max_spec (x : Q) (xs : list Q) :
  ∃ m, agg.max (x :: xs) = Some (Rat m) ∧ is_max (x :: xs) m.
Proof.
  eexists. split; [reflexivity|].
  destruct (fold_max xs x) as (Hin & Hle & Hall). split.
  - destruct Hin as [->|Hin]; [left|by right].
  - by constructor.
Qed.

Lemma agg_sort_perm (xs : list Q) : Permutation (agg.sort xs) xs.
Proof. apply insertion_sort_perm. Qed.

Lemma agg_sort_sorted (xs : list Q) : StronglySorted Qle (agg.sort xs).
Proof.
  apply insertion_sort_sorted.
  - intros x y. apply Qle_bool_iff.
  - apply Qle_bool_false.
  - intros x y z. apply Qle_trans.
Qed.

Lemma agg_median_spec (x : Q) (xs : list Q) :
  ∃ m, agg.median (x :: xs) = Some (Rat m) ∧ is_median (x :: xs) m.
Proof.
  unfold agg.median, is_median.
  set (ys := agg.sort (x :: xs)). set (n := length (x :: xs)).
  assert (Hlen : length ys = n) by (unfold ys; by rewrite agg_sort_perm).
  assert (Hn : (0 < n)%nat) by (unfold n; simpl; lia).
  assert (Hhalf : (n / 2 < n)%nat) by (apply Nat.div_lt; lia).
  destruct (lookup_lt_is_Some_2 ys (n / 2)) as [b Hb]; [lia|].
  destruct n as [|n'] eqn:En; [lia|]. rewrite <- En in *.
  destruct (Nat.odd n) eqn:Eodd.
  - exists b. rewrite Hb. split; [done|].
    exists ys. split; [apply agg_sort_perm|]. split; [apply agg_sort_sorted|done].
  - destruct (lookup_lt_is_Some_2 ys (n / 2 - 1)) as [a Ha]; [lia|].
    exists ((a + b) / 2)%Q. rewrite Ha, Hb. split; [done|].
    exists ys. split; [apply agg_sort_perm|]. split; [apply agg_sort_sorted|].
    by exists a, b.
Qed.

Lemma magnitude_nonneg (xs : list Q) : (0 <= magnitude xs)%Q.
Proof.
  induction xs as [|x xs IH]; simpl; [apply Qle_refl|].
  destruct (Qle_bool _ _); [apply Qabs_nonneg|done].
Qed.

Lemma float64_allowance_nonneg (xs : list Q) : (0 <= float64_allowance xs)%Q.
Proof.
  unfold float64_allowance. apply Qle_shift_div_l; [done|]. rewrite Qmult_0_l.
  apply Qmult_le_0_compat.
  - change 0%Q with (inject_Z 0). rewrite <- Zle_Qle. lia.
  - pose proof (magnitude_nonneg xs). lra.
Qed.

Lemma rounded2_allow (tol x v : Q) :
  (0 <= tol)%Q → rounded2 x v → rounded2_within tol x v.
Proof.
  intros Ht [[k Hk] Hx]. split.
  - exists k. apply Qabs_Qle_condition. lra.
  - lra.
Qed.

Lemma rounded2_sqrt_allow (tol x v : Q) :
  (0 <= tol)%Q → rounded2_sqrt x v → rounded2_sqrt_within tol x v.
Proof.
  intros Ht ([k Hk] & Hv & Hlow & Hupp). split; [|split; [done|split]].
  - exists k. apply Qabs_Qle_condition. lra.
  - destruct Hlow as [E|Hlow]; [left; lra|].
    destruct (Qlt_le_dec ((1 # 200) + tol) v) as [Hbig|Hsmall]; [right|by left].
    nra.
  - nra.
Qed.

Lemma agg_mean_sample (xs : list Q) :
  (agg.sum xs / agg.count xs)%Q = sample_mean xs.
Proof. reflexivity. Qed.

Lemma agg_var_sample (xs : list Q) : agg.var xs = sample_variance xs.
Proof. reflexivity. Qed.

Lemma summary_row_spec (xs : list Q) :
  summary_of xs
    (mkSummaryRow (agg.round 2 (agg.mean xs)) (agg.round 2 (agg.median xs))
       (agg.round 2 (agg.min xs)) (agg.round 2 (agg.max xs))
       (agg.round 2 (agg.std xs))).
Proof.
  pose proof (float64_allowance_nonneg xs) as Ht.
  unfold summary_of. cbv zeta. set (tol := float64_allowance xs) in *. clearbody tol.
  destruct xs as [|x rest]; [done|].
  cbn [Mean Median Min Max Std_Dev].
  split; [|split; [|split; [|split]]].
  - destruct (round2_Rat_ex (agg.sum (x :: rest) / agg.count (x :: rest))) as (v & E & Hv).
    exists v. split; [done|]. rewrite <- agg_mean_sample. by apply rounded2_allow.
  - destruct (agg_median_spec x rest) as (m & -> & Hm).
    destruct (round2_Rat_ex m) as (v & E & Hv). exists m, v.
    split; [done|]. split; [done|]. by apply rounded2_allow.
  - destruct (agg_min_spec x rest) as (m & -> & Hm).
    destruct (round2_Rat_ex m) as (v & E & Hv). exists m, v.
    split; [done|]. split; [done|]. by apply rounded2_allow.
  - destruct (agg_max_spec x rest) as (m & -> & Hm).
    destruct (round2_Rat_ex m) as (v & E & Hv). exists m, v.
    split; [done|]. split; [done|]. by apply rounded2_allow.
  - destruct rest as [|y rest]; [done|].
    destruct (round2_Sqrt_ex (agg.var (x :: y :: rest))) as (v & E & Hv).
    + apply var_nonneg. simpl. lia.
    + exists v. split; [done|]. rewrite <- agg_var_sample.
      by apply rounded2_sqrt_allow.
Qed.

Lemma group_keys_NoDup (rs : list Row) : NoDup (group_keys rs).
Proof.
  unfold group_keys. rewrite insertion_sort_perm. apply NoDup_remove_dups.
Qed.

Lemma group_keys_elem_of (country : string) (rs : list Row) :
  country ∈ group_keys rs ↔ ∃ r, r ∈ rs ∧ Country r = country.
Proof.
  unfold group_keys. rewrite insertion_sort_perm, elem_of_remove_dups.
  rewrite list_elem_of_In, in_map_iff. split.
  - intros (r & E & Hr). exists r. split; [by apply list_elem_of_In|done].
  - intros (r & Hr & E). exists r. split; [done|by apply list_elem_of_In].
Qed.

Lemma group_values_elem_of (metric : Metric) (country : string) (rs : list Row) (x : Q) :
  x ∈ group_values metric country rs
  ↔ ∃ r, r ∈ rs ∧ Country r = country ∧ getitem metric r = Some x.
Proof.
  unfold group_values. rewrite list_elem_of_omap. split.
  - intros (r & Hr & E). exists r.
    apply list_elem_of_In, filter_In in Hr as [Hr Hc].
    apply String.eqb_eq in Hc. split; [by apply list_elem_of_In|done].
  - intros (r & Hr & Hc & E). exists r. split; [|done].
    apply list_elem_of_In, filter_In. split; [by apply list_elem_of_In|].
    by apply String.eqb_eq.
Qed.

(** C7.  On a dataset with the Country and the metric column, whose
    values float64 arithmetic stays finite on, [calculate_summary_stats]
    returns one row per country of the dataset; the row of a country holds
    the mean, the median, the minimum, the maximum and the sample standard
    deviation (N-1 denominator) of the metric over that country's records,
    null values left out, each rounded to two decimals, as float64 has it.
    One country with the values 1, 2, 3, 4, 5 gives mean 3.00, median 3.00,
    min 1.00, max 5.00 and std 1.58, the float64 number next to it. *)
Theorem summary_stats_by_country (df : DataFrame) (metric : Metric) :
  has_column "Country" df = true →
  has_column (metric_label metric) df = true →
  Z.of_nat (length (rows df)) < 2 ^ 63 →
  (∀ r x, r ∈ rows df → getitem metric r = Some x → (Qabs x <= float64_range)%Q) →
  ∃ table,
    calculate_summary_stats df metric = Ok table
    ∧ NoDup (map fst table)
    ∧ (∀ country, country ∈ map fst table ↔ ∃ r, r ∈ rows df ∧ Country r = country)
    ∧ (∀ country x,
         x ∈ group_values metric country (rows df)
         ↔ ∃ r, r ∈ rows df ∧ Country r = country ∧ getitem metric r = Some x)
    ∧ (∀ country row,
         (country, row) ∈ table →
         summary_of (group_values metric country (rows df)) row)
    ∧ column metric_T2M five_table = [Some 1; Some 2; Some 3; Some 4; Some 5]%Q
    ∧ (∃ row,
         calculate_summary_stats five_table metric_T2M = Ok [("Benin"%string, row)]
         ∧ reads 0 3 (Mean row) ∧ reads 0 3 (Median row)
         ∧ reads 0 1 (Min row) ∧ reads 0 5 (Max row)
         ∧ reads (1 # 2 ^ 50) 1.58 (Std_Dev row)).
Proof.
  intros Hc Hm _ _. unfold calculate_summary_stats. rewrite Hc, Hm. cbn [negb].
  eexists. split; [reflexivity|].
  rewrite map_map. cbn [fst]. rewrite map_id.
  split; [apply group_keys_NoDup|].
  split; [intros country; apply group_keys_elem_of|].
  split; [intros country x; apply group_values_elem_of|].
  split; [|split; [reflexivity|]].
  - intros country row Hrow.
    apply list_elem_of_In, in_map_iff in Hrow as (c & [= <- <-] & _).
    apply summary_row_spec.
  - eexists. split; [vm_compute; reflexivity|]. cbn [Mean Median Min Max Std_Dev].
    repeat split; eexists; (split; [reflexivity|]); by vm_compute.
Qed.

Lemma summary_stats_by_country_witness :
  ∃ table,
    calculate_summary_stats five_table metric_T2M = Ok table
    ∧ NoDup (map fst table)
    ∧ (∀ country, country ∈ map fst table
                  ↔ ∃ r, r ∈ rows five_table ∧ Country r = country)
    ∧ (∀ country row,
         (country, row) ∈ table →
         summary_of (group_values metric_T2M country (rows five_table)) row).
Proof.
  destruct (summary_stats_by_country five_table metric_T2M eq_refl eq_refl)
    as (table & H1 & H2 & H3 & _ & H5 & _).
  - reflexivity.
  - intros r x Hr Hx. apply list_elem_of_In in Hr. simpl in Hr.
    destruct Hr as [<-|[<-|[<-|[<-|[<-|[]]]]]]; injection Hx as <-; by vm_compute.
  - by exists table.
Defined.

(** * Further properties *)

(** ** Gap filling leaves no gap *)

Lemma omap_id_split {A} (s : list (option A)) (i : nat) (x : option A) :
  s !! i = Some x →
  omap id s = omap id (take i s) ++ omap id [x] ++ omap id (drop (S i) s).
Proof.
  intros Hi. rewrite <- !omap_app. f_equal.
  rewrite <- (take_drop_middle s i x Hi) at 1. done.
Qed.

Lemma nearest_fill_None {A} (s : list (option A)) (i : nat) :
  (i < length s)%nat → nearest_fill s i = None → omap id s = [].
Proof.
  intros Hi. unfold nearest_fill, last_valid, first_valid.
  destruct (lookup_lt_is_Some_2 s i Hi) as [x Hx]. rewrite Hx.
  destruct x as [v|]; [done|].
  destruct (last (omap id (take i s))) as [v|] eqn:El; [done|].
  apply last_None in El. intros Eh. apply head_None in Eh.
  by rewrite (omap_id_split s i None Hx), El, Eh.
Qed.

Lemma nearest_fill_from {A} (s : list (option A)) (i : nat) (v : A) :
  nearest_fill s i = Some v → Some v ∈ s.
Proof.
  unfold nearest_fill, last_valid, first_valid.
  destruct (s !! i) as [[w|]|] eqn:Es.
  - intros [= ->]. by apply list_elem_of_lookup_2 in Es.
  - destruct (last (omap id (take i s))) as [w|] eqn:El.
    + intros [= ->]. apply last_Some_elem_of, list_elem_of_omap in El as (x & Hx & E).
      simpl in E. subst x. by apply (subseteq_take i s).
    + intros Eh. apply head_Some_elem_of, list_elem_of_omap in Eh as (x & Hx & E).
      simpl in E. subst x. by apply (subseteq_drop (S i) s).
  - destruct (last (omap id (take i s))) as [w|] eqn:El.
    + intros [= ->]. apply last_Some_elem_of, list_elem_of_omap in El as (x & Hx & E).
      simpl in E. subst x. by apply (subseteq_take i s).
    + intros Eh. apply head_Some_elem_of, list_elem_of_omap in Eh as (x & Hx & E).
      simpl in E. subst x. by apply (subseteq_drop (S i) s).
Qed.

Lemma filled_lookup {A} (s : list (option A)) (i : nat) (c : option A) :
  pd.bfill (pd.ffill s) !! i = Some c → (i < length s)%nat ∧ c = nearest_fill s i.
Proof.
  intros Hc. assert (Hi : (i < length s)%nat).
  { apply lookup_lt_Some in Hc.
    unfold pd.ffill in Hc. by rewrite bfill_length, ffill_from_length in Hc. }
  split; [done|]. rewrite (bfill_ffill_nearest s i Hi) in Hc. by simplify_eq.
Qed.

Lemma filled_complete {A} (s : list (option A)) (v : A) :
  Some v ∈ s → Forall is_Some (pd.bfill (pd.ffill s)).
Proof.
  intros Hv. apply Forall_forall. intros c Hc.
  apply list_elem_of_lookup in Hc as [i Hc].
  apply filled_lookup in Hc as [Hi ->].
  destruct (nearest_fill s i) eqn:E; [done|].
  apply nearest_fill_None in E; [|done].
  assert (Hin : v ∈ omap id s) by (apply list_elem_of_omap; by exists (Some v)).
  rewrite E in Hin. by apply elem_of_nil in Hin.
Qed.

Lemma filled_from {A} (s : list (option A)) (v : A) :
  Some v ∈ pd.bfill (pd.ffill s) → Some v ∈ s.
Proof.
  intros Hc. apply list_elem_of_lookup in Hc as [i Hc].
  apply filled_lookup in Hc as [Hi E]. by apply (nearest_fill_from s i).
Qed.

Lemma filled_keeps {A} (s : list (option A)) (i : nat) (v : A) :
  s !! i = Some (Some v) → pd.bfill (pd.ffill s) !! i = Some (Some v).
Proof.
  intros Hs. rewrite bfill_ffill_nearest by (by apply lookup_lt_Some in Hs).
  unfold nearest_fill. by rewrite Hs.
Qed.

Lemma keeps_submseteq {K A} (ks : list K) (cs co : list (option A)) :
  Forall2 (λ c c', c = None ∨ c' = c) cs co →
  omap (λ kc : K * option A, pair kc.1 <$> kc.2) (zip ks cs)
  ⊆+ omap (λ kc : K * option A, pair kc.1 <$> kc.2) (zip ks co).
Proof.
  intros Hall. revert ks. induction Hall as [|c c' cs co Hc _ IH]; intros ks.
  - by destruct ks.
  - destruct ks as [|k ks]; [done|]. simpl.
    destruct Hc as [->| ->].
    + simpl. destruct c' as [v|]; simpl; [apply submseteq_cons|]; apply IH.
    + destruct c as [v|]; simpl; [apply submseteq_skip|]; apply IH.
Qed.

Lemma zip_map_omap {K A} (f : Row → K) (g : Row → option A) (rs : list Row) :
  omap (λ kc : K * option A, pair kc.1 <$> kc.2) (zip (map f rs) (map g rs))
  = omap (λ r, pair (f r) <$> g r) rs.
Proof.
  induction rs as [|r rs IH]; [done|].
  simpl. destruct (g r); simpl; [f_equal|]; exact IH.
Qed.

Section gaps_closed.
Context `{Pandas}.

Lemma date_sorted_column (m : Metric) (df s : DataFrame) :
  date_sorted df = Ok s → Permutation (column m s) (column m df).
Proof.
  intros Hs. destruct (date_sorted_rows df s Hs) as [Hp _].
  unfold column. rewrite Hp, map_map. done.
Qed.

(** The gap filling of [preprocess_data] leaves no gap it could close, takes
    its values from the column it fills and overwrites no reading. *)
Theorem preprocess_closes_gaps (df out : DataFrame) (m : Metric) :
  preprocess_data df = Ok out →
  ((∃ v, Some v ∈ column m df) → Forall is_Some (column m out))
  ∧ (∀ v, Some v ∈ column m out → Some v ∈ column m df)
  ∧ (Forall (λ c, c = None) (column m df) → Forall (λ c, c = None) (column m out))
  ∧ omap (λ r, pair (record_of r) <$> getitem m r) (rows df)
    ⊆+ omap (λ r, pair (record_of r) <$> getitem m r) (rows out).
Proof.
  intros Hout. destruct (preprocess_data_inv df out Hout) as (s & Hs & _).
  pose proof (preprocess_data_column m df out s Hs Hout) as Hcol.
  pose proof (date_sorted_column m df s Hs) as Hperm.
  assert (Hfrom : ∀ v, Some v ∈ column m out → Some v ∈ column m df).
  { intros v Hv. rewrite Hcol in Hv. rewrite <- Hperm. by apply filled_from. }
  split; [|split; [done|split]].
  - intros [v Hv]. rewrite Hcol. apply (filled_complete _ v). by rewrite Hperm.
  - intros Hnone. apply Forall_forall. intros [v|] Hc; [|done].
    apply Hfrom in Hc. rewrite Forall_forall in Hnone. by apply Hnone in Hc.
  - destruct (date_sorted_rows df s Hs) as [Hp _].
    transitivity (omap (λ r, pair (record_of r) <$> getitem m r) (rows s)).
    { rewrite Hp. clear. apply Permutation_submseteq.
      assert (E : omap (λ r, pair (record_of r) <$> getitem m r) (map stamp (rows df))
                  = omap (λ r, pair (record_of r) <$> getitem m r) (rows df)).
      { induction (rows df) as [|r rs IH]; [done|].
        simpl. replace (getitem m (stamp r)) with (getitem m r) by (by destruct m).
        destruct (getitem m r); simpl; [f_equal|]; exact IH. }
      by rewrite E. }
    rewrite <- !(zip_map_omap record_of (getitem m)).
    rewrite (preprocess_data_keeps record_of df out s) by (done || by intros [] v r).
    fold (column m out) (column m s). rewrite Hcol.
    apply keeps_submseteq. apply Forall2_same_length_lookup_2.
    + unfold pd.ffill. by rewrite bfill_length, ffill_from_length.
    + intros i c c' Hc Hc'. destruct c as [v|]; [right|by left].
      rewrite (filled_keeps _ i v Hc) in Hc'. by simplify_eq.
Qed.

End gaps_closed.

Lemma preprocess_closes_gaps_witness :
  Forall is_Some (column metric_T2M gap_table_out).
Proof.
  apply (preprocess_closes_gaps (H := numpy_insertion) gap_table gap_table_out metric_T2M).
  - vm_compute. reflexivity.
  - exists 5%Q. vm_compute. apply list_elem_of_In. simpl. tauto.
Defined.

(** ** The shape of a dataset *)

Lemma add_column_present col cols :
  existsb (String.eqb col) cols = true → pd.add_column col cols = cols.
Proof. intros E. unfold pd.add_column. by rewrite E. Qed.

Lemma filter_add_Timestamp cols :
  List.filter (λ c, negb (String.eqb c "Timestamp")) (pd.add_column "Timestamp" cols)
  = List.filter (λ c, negb (String.eqb c "Timestamp")) cols.
Proof.
  unfold pd.add_column. destruct (existsb _ cols); [done|].
  rewrite List.filter_app. simpl. apply app_nil_r.
Qed.

Lemma existsb_filter_ne (col other : string) cols :
  String.eqb col other = false →
  existsb (String.eqb col) (List.filter (λ c, negb (String.eqb c other)) cols)
  = existsb (String.eqb col) cols.
Proof.
  intros Hne. induction cols as [|c cols IH]; [done|]. simpl.
  destruct (String.eqb c other) eqn:Ec; simpl.
  - rewrite IH. apply String.eqb_eq in Ec as ->. by rewrite Hne.
  - by rewrite IH.
Qed.

Lemma existsb_filter_same (other : string) cols :
  existsb (String.eqb other) (List.filter (λ c, negb (String.eqb c other)) cols) = false.
Proof.
  induction cols as [|c cols IH]; [done|]. simpl.
  destruct (String.eqb c other) eqn:Ec; simpl; [done|].
  rewrite IH. rewrite String.eqb_sym, Ec. done.
Qed.

Lemma missing_fields_nil df col :
  missing_fields df = [] → col ∈ required_cols → has_column col df = true.
Proof.
  intros Hm Hc. destruct (has_column col df) eqn:E; [done|].
  assert (Hin : col ∈ missing_fields df).
  { apply missing_fields_spec. split; [done|]. rewrite <- has_column_elem_of. congruence. }
  rewrite Hm in Hin. by apply elem_of_nil in Hin.
Qed.

Lemma missing_fields_ext df df' :
  (∀ col, col ∈ required_cols → has_column col df' = has_column col df) →
  missing_fields df' = missing_fields df.
Proof.
  intros Hext. unfold missing_fields. apply filter_ext_in.
  intros col Hc. f_equal. apply Hext. by apply list_elem_of_In.
Qed.

Lemma Forall_map_eq {A B} (f : A → B) (P : B → Prop) (l l' : list A) :
  map f l = map f l' → Forall (λ x, P (f x)) l' → Forall (λ x, P (f x)) l.
Proof.
  intros E Hl'. rewrite <- (List.Forall_map f P l), E.
  by rewrite (List.Forall_map f P l').
Qed.

Section shape.
Context `{Pandas}.

Lemma preprocess_columns (df out : DataFrame) :
  preprocess_data df = Ok out →
  columns out = List.filter (λ c, negb (String.eqb c "Timestamp")) (columns df).
Proof.
  intros Hout. destruct (preprocess_data_inv df out Hout) as (s & Hs & ->).
  destruct (date_sorted_Ok df s Hs) as (Hm & _ & ->).
  unfold fill_column, set_column. cbn [columns].
  rewrite sort_index_columns. unfold stamped. cbn [columns].
  rewrite filter_add_Timestamp.
  assert (H1 : existsb (String.eqb "T2M")
                 (List.filter (λ c, negb (String.eqb c "Timestamp")) (columns df)) = true).
  { rewrite existsb_filter_ne by done.
    apply (missing_fields_nil df "T2M" Hm). apply list_elem_of_In. simpl. tauto. }
  assert (H2 : existsb (String.eqb "WS10M_MIN")
                 (List.filter (λ c, negb (String.eqb c "Timestamp")) (columns df)) = true).
  { rewrite existsb_filter_ne by done.
    apply (missing_fields_nil df "WS10M_MIN" Hm). apply list_elem_of_In. simpl. tauto. }
  cbn [metric_label]. rewrite (add_column_present "T2M") by done.
  by rewrite (add_column_present "WS10M_MIN").
Qed.

Lemma preprocess_index_kind (df out : DataFrame) :
  preprocess_data df = Ok out → index_kind out = DatetimeIndex.
Proof.
  intros Hout. destruct (preprocess_data_inv df out Hout) as (s & Hs & ->).
  destruct (date_sorted_Ok df s Hs) as (_ & _ & ->).
  unfold fill_column, set_column. cbn [index_kind]. by rewrite sort_index_kind.
Qed.

Lemma preprocess_required (df out : DataFrame) :
  preprocess_data df = Ok out → missing_fields out = [].
Proof.
  intros Hout. pose proof (preprocess_columns df out Hout) as Hcols.
  destruct (preprocess_data_inv df out Hout) as (s & Hs & _).
  destruct (date_sorted_Ok df s Hs) as (Hm & _ & _).
  rewrite <- Hm. apply missing_fields_ext. intros col Hc.
  unfold has_column. rewrite Hcols. apply existsb_filter_ne.
  unfold required_cols in Hc.
  repeat (apply elem_of_cons in Hc as [-> | Hc]; [done|]).
  by apply elem_of_nil in Hc.
Qed.

Lemma preprocess_rows_dated (df out : DataFrame) :
  preprocess_data df = Ok out →
  Forall (λ r, ∃ t, index r = TimeLabel (Some t) ∧ Timestamp r = Some t
                    ∧ derived_date r = Some t) (rows out).
Proof.
  intros Hout. destruct (preprocess_data_inv df out Hout) as (s & Hs & Eout).
  destruct (date_sorted_Ok df s Hs) as (_ & Hall & _).
  destruct (date_sorted_rows df s Hs) as [Hperm _].
  pose proof (preprocess_data_keeps (λ r, (index r, Timestamp r, derived_date r))
                df out s ltac:(by intros [] v r) Hs Hout) as Hkeep.
  assert (Hs' : Forall (λ r, ∃ t, index r = TimeLabel (Some t) ∧ Timestamp r = Some t
                                  ∧ derived_date r = Some t) (rows s)).
  { rewrite Hperm. apply Forall_forall. intros r' Hr'.
    apply list_elem_of_In, in_map_iff in Hr' as (r & <- & Hr).
    rewrite Forall_forall in Hall.
    destruct (Hall r (proj2 (list_elem_of_In _ _) Hr)) as [t Ht].
    exists t. unfold stamp. cbn. by rewrite Ht. }
  exact (Forall_map_eq (λ r, (index r, Timestamp r, derived_date r))
           (λ p, ∃ t, p.1.1 = TimeLabel (Some t) ∧ p.1.2 = Some t ∧ p.2 = Some t)
           _ _ Hkeep Hs').
Qed.

Lemma preprocess_rows_length (df out : DataFrame) :
  preprocess_data df = Ok out → length (rows out) = length (rows df).
Proof.
  intros Hout. destruct (preprocess_data_inv df out Hout) as (s & Hs & Eout).
  destruct (date_sorted_rows df s Hs) as [Hperm _].
  pose proof (preprocess_data_keeps index df out s ltac:(by intros [] v r) Hs Hout) as Hkeep.
  apply (f_equal length) in Hkeep. rewrite !length_map in Hkeep.
  by rewrite Hkeep, Hperm, length_map.
Qed.

(** What [preprocess_data] returns is a dataset: indexed by date, with as
    many rows as the input, its columns but for a Timestamp column, every
    required field, and on each row the date its year, month and day give. *)
Theorem preprocess_gives_dataset (df out : DataFrame) :
  preprocess_data df = Ok out →
  index_kind out = DatetimeIndex
  ∧ length (rows out) = length (rows df)
  ∧ columns out = List.filter (λ c, negb (String.eqb c "Timestamp")) (columns df)
  ∧ has_column "Timestamp" out = false
  ∧ missing_fields out = []
  ∧ Forall (λ r, ∃ t, index r = TimeLabel (Some t) ∧ derived_date r = Some t) (rows out).
Proof.
  intros Hout. pose proof (preprocess_columns df out Hout) as Hcols.
  split; [by apply (preprocess_index_kind df)|].
  split; [by apply preprocess_rows_length|].
  split; [done|].
  split; [unfold has_column; rewrite Hcols; apply existsb_filter_same|].
  split; [by apply (preprocess_required df)|].
  eapply Forall_impl; [by apply (preprocess_rows_dated df)|].
  intros r (t & Hi & _ & Hd). by exists t.
Qed.

End shape.

Lemma preprocess_gives_dataset_witness :
  index_kind gap_table_out = DatetimeIndex
  ∧ length (rows gap_table_out) = length (rows gap_table)
  ∧ has_column "Timestamp" gap_table_out = false.
Proof.
  destruct (preprocess_gives_dataset (H := numpy_insertion) gap_table gap_table_out)
    as (Hk & Hl & _ & Ht & _).
  - vm_compute. reflexivity.
  - exact (conj Hk (conj Hl Ht)).
Defined.

(** ** Running [preprocess_data] on its own output *)

Lemma ffill_from_filled {A} (last : option A) (s : list (option A)) :
  Forall is_Some s → pd.ffill_from last s = s.
Proof.
  intros Hs. revert last. induction Hs as [|x s [v ->] _ IH]; intros last; simpl; [done|].
  by rewrite IH.
Qed.

Lemma bfill_filled {A} (s : list (option A)) : Forall is_Some s → pd.bfill s = s.
Proof.
  intros Hs. induction Hs as [|x s [v ->] _ IH]; simpl; [done|]. by rewrite IH.
Qed.

Lemma ffill_empty {A} (s : list (option A)) :
  Forall (λ c, c = None) s → pd.ffill_from None s = s.
Proof. intros Hs. induction Hs as [|x s -> _ IH]; simpl; [done|]. by rewrite IH. Qed.

Lemma bfill_empty {A} (s : list (option A)) :
  Forall (λ c, c = None) s → pd.bfill s = s.
Proof.
  intros Hs. induction Hs as [|x s -> Hs IH]; simpl; [done|]. rewrite IH.
  destruct Hs as [|y s -> _]; done.
Qed.

Lemma some_or_empty {A} (s : list (option A)) :
  (∃ v, Some v ∈ s) ∨ Forall (λ c, c = None) s.
Proof.
  induction s as [|[v|] s [[w Hw]|IH]].
  - right. constructor.
  - left. exists v. constructor.
  - left. exists v. constructor.
  - left. exists w. by constructor.
  - right. by constructor.
Qed.

Lemma filled_empty {A} (s : list (option A)) :
  Forall (λ c, c = None) s → pd.bfill (pd.ffill s) = s.
Proof. intros Hs. unfold pd.ffill. rewrite ffill_empty by done. by apply bfill_empty. Qed.

(** Filling a filled column changes nothing. *)
Lemma filled_idemp {A} (s : list (option A)) :
  pd.bfill (pd.ffill (pd.bfill (pd.ffill s))) = pd.bfill (pd.ffill s).
Proof.
  destruct (some_or_empty s) as [[v Hv]|Hs].
  - pose proof (filled_complete s v Hv) as Hf.
    unfold pd.ffill at 1. rewrite ffill_from_filled by done. by apply bfill_filled.
  - by rewrite !(filled_empty s Hs).
Qed.

Lemma assign_same m (rs : list Row) :
  pd.assign (setitem m) (map (getitem m) rs) rs = rs.
Proof.
  induction rs as [|r rs IH]; [done|]. unfold pd.assign in *. simpl.
  rewrite IH. f_equal. by destruct m, r.
Qed.

Lemma set_column_same m df :
  has_column (metric_label m) df = true → set_column m (column m df) df = df.
Proof.
  intros Hc. unfold set_column, column. rewrite assign_same.
  unfold has_column in Hc. rewrite (add_column_present _ _ Hc). by destruct df.
Qed.

Lemma sorted_is_monotonic (ts : list (option Z)) :
  Forall is_Some ts →
  StronglySorted (cell_le true) (map pd.ord_key ts) →
  pd.is_monotonic_increasing ts = true.
Proof.
  induction ts as [|a ts IH]; [done|].
  intros Hall Hs. apply Forall_cons in Hall as [[x ->] Hall].
  simpl in Hs. apply StronglySorted_inv in Hs as [Hs Hx].
  specialize (IH Hall Hs). simpl.
  destruct ts as [|b ts]; [done|].
  apply Forall_cons in Hall as [[y ->] _].
  apply Forall_cons in Hx as [Hxy _]. simpl in Hxy.
  rewrite <- Zle_Qle in Hxy. apply andb_true_iff. split; [lia|exact IH].
Qed.

Lemma filter_idemp {A} (p : A → bool) (l : list A) :
  List.filter p (List.filter p l) = List.filter p l.
Proof.
  induction l as [|x l IH]; [done|]. simpl. destruct (p x) eqn:E; simpl; [|done].
  by rewrite E, IH.
Qed.

Lemma filter_absent (other : string) cols :
  existsb (String.eqb other) cols = false →
  List.filter (λ c, negb (String.eqb c other)) cols = cols.
Proof.
  induction cols as [|c cols IH]; [done|]. simpl.
  rewrite String.eqb_sym. destruct (String.eqb c other); simpl; [done|].
  intros E. by rewrite IH.
Qed.

Section idempotent.
Context `{Pandas}.

Lemma stamp_dated (r : Row) (t : Z) :
  index r = TimeLabel (Some t) → Timestamp r = Some t → derived_date r = Some t →
  stamp r = r.
Proof.
  intros Hi Ht Hd. unfold stamp, set_index_label, set_Timestamp. rewrite Hd.
  destruct r; simpl in *. by subst.
Qed.

(** The frames [preprocess_data] returns as they are. *)
Lemma dataset_fixed (d : DataFrame) :
  index_kind d = DatetimeIndex →
  has_column "Timestamp" d = false →
  missing_fields d = [] →
  Forall (λ r, ∃ t, index r = TimeLabel (Some t) ∧ Timestamp r = Some t
                    ∧ derived_date r = Some t) (rows d) →
  pd.is_monotonic_increasing (map (λ r, pd.label_ord (index r)) (rows d)) = true →
  (∀ m, Forall is_Some (column m d) ∨ Forall (λ c, c = None) (column m d)) →
  preprocess_data d = Ok d.
Proof.
  intros Hkind Hts Hmiss Hdated Hmono Hcol.
  assert (Hstamped : stamped d = d).
  { unfold stamped. rewrite filter_add_Timestamp, (filter_absent _ _ Hts).
    replace (map stamp (rows d)) with (rows d).
    - rewrite <- Hkind. by destruct d.
    - symmetry. rewrite <- (map_id (rows d)) at 2. apply map_ext_in.
      intros r Hr. rewrite Forall_forall in Hdated.
      destruct (Hdated r (proj2 (list_elem_of_In _ _) Hr)) as (t & Hi & Ht & Hd).
      by apply (stamp_dated r t). }
  assert (Hsorted : date_sorted d = Ok d).
  { rewrite (date_sorted_total d Hmiss), Hstamped, (sort_index_in_order d Hmono); [done|].
    eapply Forall_impl; [exact Hdated|]. intros r (t & _ & _ & ->). by exists t. }
  assert (Hfill : ∀ m, fill_column m d = d).
  { intros m. unfold fill_column.
    replace (pd.bfill (pd.ffill (column m d))) with (column m d).
    - apply set_column_same. apply (missing_fields_nil d _ Hmiss).
      destruct m; apply list_elem_of_In; simpl; tauto.
    - symmetry. destruct (Hcol m) as [Hf|He]; [|by apply filled_empty].
      unfold pd.ffill. rewrite ffill_from_filled by done. by apply bfill_filled. }
  rewrite preprocess_data_unfold, Hsorted. simpl. by rewrite !Hfill.
Qed.

Lemma preprocess_monotonic (df out : DataFrame) :
  preprocess_data df = Ok out →
  pd.is_monotonic_increasing (map (λ r, pd.label_ord (index r)) (rows out)) = true.
Proof.
  intros Hout. destruct (preprocess_data_inv df out Hout) as (s & Hs & Eout).
  apply sorted_is_monotonic.
  - apply Forall_fmap. eapply Forall_impl; [exact (preprocess_rows_dated df out Hout)|].
    intros r (t & Hi & _). simpl. rewrite Hi. by exists t.
  - rewrite map_map.
    pose proof (preprocess_data_keeps (λ r, pd.ord_key (pd.label_ord (index r)))
                  df out s ltac:(by intros [] v r) Hs Hout) as ->.
    destruct (date_sorted_Ok df s Hs) as (_ & _ & ->). apply sort_index_sorted.
Qed.

Lemma preprocess_column_uniform (df out : DataFrame) (m : Metric) :
  preprocess_data df = Ok out →
  Forall is_Some (column m out) ∨ Forall (λ c, c = None) (column m out).
Proof.
  intros Hout. destruct (preprocess_data_inv df out Hout) as (s & Hs & _).
  rewrite (preprocess_data_column m df out s Hs Hout).
  destruct (some_or_empty (column m s)) as [[v Hv]|He].
  - left. by apply (filled_complete _ v).
  - right. by rewrite filled_empty.
Qed.

Lemma preprocess_no_Timestamp (df out : DataFrame) :
  preprocess_data df = Ok out → has_column "Timestamp" out = false.
Proof.
  intros Hout. unfold has_column. rewrite (preprocess_columns df out Hout).
  apply existsb_filter_same.
Qed.

(** [preprocess_data] changes nothing in a dataset it has produced. *)
Theorem preprocess_idempotent (df out : DataFrame) :
  preprocess_data df = Ok out → preprocess_data out = Ok out.
Proof.
  intros Hout. apply dataset_fixed.
  - by apply (preprocess_index_kind df).
  - by apply (preprocess_no_Timestamp df).
  - by apply (preprocess_required df).
  - by apply (preprocess_rows_dated df).
  - by apply (preprocess_monotonic df).
  - intros m. by apply (preprocess_column_uniform df).
Qed.

End idempotent.

Lemma preprocess_idempotent_witness :
  preprocess_data (H := numpy_insertion) gap_table_out = Ok gap_table_out.
Proof.
  apply (preprocess_idempotent (H := numpy_insertion) gap_table).
  vm_compute. reflexivity.
Defined.

(** ** [filter_data]: composing and narrowing selections *)

Lemma isin_filter (c : string) (cs1 cs2 : list string) :
  pd.isin c (List.filter (λ c', pd.isin c' cs2) cs1) = pd.isin c cs1 && pd.isin c cs2.
Proof.
  apply Bool.eq_iff_eq_true.
  rewrite andb_true_iff, !isin_elem_of, list_elem_of_In, filter_In, <- list_elem_of_In.
  by rewrite isin_elem_of.
Qed.

Lemma selected_both (cs1 cs2 : list string) (s1 e1 s2 e2 : Z) (r : Row) :
  selected cs1 s1 e1 r && selected cs2 s2 e2 r
  = selected (List.filter (λ c, pd.isin c cs2) cs1) (Z.max s1 s2) (Z.min e1 e2) r.
Proof.
  unfold selected. rewrite isin_filter.
  destruct (pd.isin (Country r) cs1), (pd.isin (Country r) cs2); simpl; try done.
  - destruct (label_time (index r)) as [t|]; [|done].
    apply Bool.eq_iff_eq_true. rewrite !andb_true_iff, !Z.leb_le. lia.
  - by rewrite andb_false_r.
Qed.

(** Two selections, one after the other, are the one selection of the
    countries both list over the dates both ranges hold; the order of the
    two does not matter. *)
Theorem filter_data_compose (df : DataFrame) (cs1 cs2 : list string) (s1 e1 s2 e2 : Z) :
  has_column "Country" df = true →
  index_kind df = DatetimeIndex →
  (out ← filter_data df cs1 (s1, e1); filter_data out cs2 (s2, e2))
  = filter_data df (List.filter (λ c, pd.isin c cs2) cs1) (Z.max s1 s2, Z.min e1 e2)
  ∧ (out ← filter_data df cs1 (s1, e1); filter_data out cs2 (s2, e2))
    = (out ← filter_data df cs2 (s2, e2); filter_data out cs1 (s1, e1)).
Proof.
  intros Hc Hk. rewrite !(filter_data_run df) by done. cbn [mbind result_bind].
  rewrite !filter_data_run by done. cbn [columns rows]. rewrite !filter_andb.
  split; do 2 f_equal; apply filter_ext; intros r.
  - apply selected_both.
  - apply andb_comm.
Qed.

Lemma filter_data_compose_witness :
  (out ← filter_data gap_table_out ["Benin"; "Togo"]%string
           (days_from_civil 2021 1 1, days_from_civil 2021 1 4);
   filter_data out ["Benin"]%string (days_from_civil 2021 1 2, days_from_civil 2021 1 31))
  = filter_data gap_table_out ["Benin"]%string
      (days_from_civil 2021 1 2, days_from_civil 2021 1 4).
Proof.
  destruct (filter_data_compose gap_table_out ["Benin"; "Togo"]%string ["Benin"]%string
              (days_from_civil 2021 1 1) (days_from_civil 2021 1 4)
              (days_from_civil 2021 1 2) (days_from_civil 2021 1 31) eq_refl eq_refl)
    as [E _].
  exact E.
Defined.

(** ** [filter_data] on a dataset *)

Lemma Forall_filter_map {A B} (P : B → Prop) (g : A → B) (p : A → bool) (rs : list A) :
  Forall P (map g rs) → Forall P (map g (List.filter p rs)).
Proof.
  induction rs as [|r rs IH]; [done|]. simpl. intros Hall.
  apply Forall_cons in Hall as [Hr Hall]. destruct (p r); simpl; auto.
Qed.

Lemma StronglySorted_filter_map {A B} (R : relation B) (g : A → B) (p : A → bool)
    (rs : list A) :
  StronglySorted R (map g rs) → StronglySorted R (map g (List.filter p rs)).
Proof.
  induction rs as [|r rs IH]; [done|]. simpl. intros Hs.
  apply StronglySorted_inv in Hs as [Hs Hr]. destruct (p r); simpl; [|auto].
  constructor; [auto|]. by apply Forall_filter_map.
Qed.

Lemma filter_all {A} (p : A → bool) (rs : list A) :
  Forall (λ r, p r = true) rs → List.filter p rs = rs.
Proof. induction 1 as [|r rs Hr _ IH]; [done|]. simpl. by rewrite Hr, IH. Qed.

Lemma filter_none {A} (p : A → bool) (rs : list A) :
  (∀ r, p r = false) → List.filter p rs = [].
Proof. intros Hp. induction rs as [|r rs IH]; [done|]. simpl. by rewrite Hp. Qed.

Lemma in_date_order_filter (p : Row → bool) (rs : list Row) :
  in_date_order rs → in_date_order (List.filter p rs).
Proof.
  intros (dates & Hi & Hs).
  cut (∃ dates', map index (List.filter p rs) = map (λ t, TimeLabel (Some t)) dates'
               ∧ StronglySorted Z.le dates' ∧ ∀ t, t ∈ dates' → t ∈ dates).
  { intros (dates' & H1 & H2 & _). by exists dates'. }
  revert dates Hi Hs. induction rs as [|r rs IH]; intros dates Hi Hs.
  - exists []. repeat split; [constructor|]. intros t Ht. by apply elem_of_nil in Ht.
  - destruct dates as [|t dates]; [done|]. simpl in Hi. injection Hi as Hr Hi.
    apply StronglySorted_inv in Hs as [Hs Ht].
    destruct (IH dates Hi Hs) as (dates' & H1 & H2 & H3).
    simpl. destruct (p r).
    + exists (t :: dates'). simpl. split; [by rewrite Hr, H1|]. split.
      * constructor; [done|]. apply Forall_forall. intros x Hx.
        rewrite Forall_forall in Ht. by apply Ht, H3.
      * intros x Hx. apply elem_of_cons in Hx as [->|Hx]; [by left|right; by apply H3].
    + exists dates'. split; [done|]. split; [done|]. intros x Hx. right. by apply H3.
Qed.

Lemma monotonic_in_date_order (rs : list Row) :
  Forall (λ r, ∃ t, index r = TimeLabel (Some t)) rs →
  pd.is_monotonic_increasing (map (λ r, pd.label_ord (index r)) rs) = true →
  in_date_order rs.
Proof.
  intros Hall Hm. apply is_monotonic_sorted in Hm.
  exists (omap (λ r, pd.label_ord (index r)) rs).
  assert (E : map (λ r, pd.label_ord (index r)) rs
              = map Some (omap (λ r, pd.label_ord (index r)) rs)).
  { clear Hm. induction Hall as [|r rs [t Ht] _ IH]; [done|].
    cbn [omap list_omap map]. rewrite Ht. cbn. f_equal. exact IH. }
  split.
  - clear Hm E. induction Hall as [|r rs [t Ht] _ IH]; [done|].
    cbn [omap list_omap map]. rewrite Ht. cbn. f_equal. exact IH.
  - rewrite E, map_map in Hm.
    apply (StronglySorted_map_inv (λ t, pd.ord_key (Some t)) _ (cell_le true)); [|done].
    intros x y. simpl. by rewrite <- Zle_Qle.
Qed.

Section filter_dataset.
Context `{Pandas}.

Lemma dataset_parts (full : DataFrame) :
  preprocess_data full = Ok full →
  index_kind full = DatetimeIndex
  ∧ has_column "Timestamp" full = false
  ∧ missing_fields full = []
  ∧ Forall (λ r, ∃ t, index r = TimeLabel (Some t) ∧ Timestamp r = Some t
                      ∧ derived_date r = Some t) (rows full)
  ∧ pd.is_monotonic_increasing (map (λ r, pd.label_ord (index r)) (rows full)) = true
  ∧ (∀ m, Forall is_Some (column m full) ∨ Forall (λ c, c = None) (column m full)).
Proof.
  intros Hfull.
  split; [by apply (preprocess_index_kind full)|].
  split; [by apply (preprocess_no_Timestamp full)|].
  split; [by apply (preprocess_required full)|].
  split; [by apply (preprocess_rows_dated full)|].
  split; [by apply (preprocess_monotonic full)|].
  intros m. by apply (preprocess_column_uniform full).
Qed.

Lemma dataset_in_date_order (full : DataFrame) :
  preprocess_data full = Ok full → in_date_order (rows full).
Proof.
  intros Hfull. destruct (dataset_parts full Hfull) as (_ & _ & _ & Hd & Hm & _).
  apply monotonic_in_date_order; [|done].
  eapply Forall_impl; [exact Hd|]. intros r (t & Hi & _). by exists t.
Qed.

Lemma dataset_has_Country (full : DataFrame) :
  preprocess_data full = Ok full → has_column "Country" full = true.
Proof.
  intros Hfull. destruct (dataset_parts full Hfull) as (_ & _ & Hm & _).
  apply (missing_fields_nil full _ Hm). apply list_elem_of_In. simpl. tauto.
Qed.

(** On a dataset [filter_data] never fails, and what it returns is a
    dataset again: in date order, with the same columns, with no gap in a
    metric column that had none, and left as it is by [preprocess_data]. *)
Theorem filter_data_keeps_dataset (full : DataFrame) (countries : list string)
    (s e : Z) :
  preprocess_data full = Ok full →
  ∃ out,
    filter_data full countries (s, e) = Ok out
    ∧ preprocess_data out = Ok out
    ∧ in_date_order (rows out)
    ∧ columns out = columns full
    ∧ (∀ m, Forall is_Some (column m full) → Forall is_Some (column m out)).
Proof.
  intros Hfull.
  destruct (dataset_parts full Hfull) as (Hk & Hts & Hmiss & Hd & Hmono & Hcol).
  pose proof (dataset_has_Country full Hfull) as Hc.
  eexists. split; [by apply filter_data_run|].
  split; [|split; [|split; [done|]]].
  - apply dataset_fixed; cbn [index_kind columns rows]; try done.
    + rewrite List.Forall_forall in Hd |- *. intros r Hr.
      apply filter_In in Hr as [Hr _]. by apply Hd.
    + apply sorted_is_monotonic.
      * apply Forall_fmap. apply List.Forall_forall. intros r Hr.
        apply filter_In in Hr as [Hr _]. rewrite List.Forall_forall in Hd.
        destruct (Hd r Hr) as (t & Hi & _). simpl. rewrite Hi. by exists t.
      * rewrite map_map.
        apply (StronglySorted_filter_map _ (λ r, pd.ord_key (pd.label_ord (index r)))).
        rewrite <- (map_map (λ r, pd.label_ord (index r)) pd.ord_key).
        by apply is_monotonic_sorted.
    + intros m. unfold column. cbn [rows].
      destruct (Hcol m) as [Hf|He]; [left|right]; by apply Forall_filter_map.
  - cbn [rows]. apply in_date_order_filter. by apply dataset_in_date_order.
  - intros m Hm. unfold column. cbn [rows]. by apply Forall_filter_map.
Qed.

End filter_dataset.

Lemma filter_data_keeps_dataset_witness :
  ∃ out,
    filter_data gap_table_out ["Benin"]%string
      (days_from_civil 2021 1 2, days_from_civil 2021 1 4) = Ok out
    ∧ preprocess_data (H := numpy_insertion) out = Ok out
    ∧ in_date_order (rows out).
Proof.
  destruct (filter_data_keeps_dataset (H := numpy_insertion) gap_table_out
              ["Benin"]%string (days_from_civil 2021 1 2) (days_from_civil 2021 1 4))
    as (out & H1 & H2 & H3 & _).
  - vm_compute. reflexivity.
  - exists out. by repeat split.
Defined.

(** A selection returns nothing, without an error, when it names no country
    or its range ends before it starts; the order of the countries in the
    list and their repetitions do not matter; and a selection within another
    returns a part of what the other returns, the one that selecting again
    from the other's result gives. *)
Theorem filter_data_narrows (df : DataFrame) (countries : list string) (s e : Z) :
  has_column "Country" df = true →
  index_kind df = DatetimeIndex →
  ∃ out,
    filter_data df countries (s, e) = Ok out
    ∧ (countries = [] ∨ e < s → rows out = [])
    ∧ (length (rows out) ≤ length (rows df))%nat
    ∧ (∀ countries', (∀ c, c ∈ countries ↔ c ∈ countries') →
                     filter_data df countries' (s, e) = Ok out)
    ∧ (∀ countries' s' e',
         countries ⊆ countries' → s' <= s → e <= e' →
         ∃ out', filter_data df countries' (s', e') = Ok out'
               ∧ sublist (rows out) (rows out')
               ∧ filter_data out' countries (s, e) = Ok out).
Proof.
  intros Hc Hk. eexists. split; [by apply filter_data_run|]. cbn [rows].
  split; [|split; [|split]].
  - intros Hempty. apply filter_none. intros r. unfold selected.
    destruct Hempty as [->|Hes]; [done|].
    destruct (label_time (index r)) as [t|]; [|apply andb_false_r].
    replace ((s <=? t) && (t <=? e)) with false; [apply andb_false_r|].
    symmetry. apply andb_false_iff. rewrite !Z.leb_gt. lia.
  - apply sublist_length, filter_sublist.
  - intros countries' Hsame. rewrite filter_data_run by done. do 2 f_equal.
    apply filter_ext. intros r. unfold selected. f_equal.
    apply Bool.eq_iff_eq_true. rewrite !isin_elem_of. symmetry. apply Hsame.
  - intros countries' s' e' Hsub Hs He.
    eexists. split; [by apply filter_data_run|]. cbn [rows].
    assert (E : List.filter (selected countries s e)
                  (List.filter (selected countries' s' e') (rows df))
                = List.filter (selected countries s e) (rows df)).
    { rewrite filter_andb. apply filter_ext. intros r.
      destruct (selected countries s e r) eqn:Er; [|apply andb_false_r].
      rewrite andb_true_r. unfold selected in *.
      apply andb_true_iff in Er as [Hin Hr]. apply andb_true_iff. split.
      - apply isin_elem_of, Hsub. by apply isin_elem_of.
      - destruct (label_time (index r)) as [t|]; [|done].
        apply andb_true_iff in Hr as [H1 H2]. apply Z.leb_le in H1, H2.
        apply andb_true_iff. split; apply Z.leb_le; lia. }
    split.
    + rewrite <- E. apply filter_sublist.
    + rewrite filter_data_run by done. cbn [columns rows]. by rewrite E.
Qed.

Lemma filter_data_narrows_witness :
  ∃ out,
    filter_data gap_table_out [] (days_from_civil 2021 1 1, days_from_civil 2021 1 31)
    = Ok out
    ∧ rows out = [].
Proof.
  destruct (filter_data_narrows gap_table_out []
              (days_from_civil 2021 1 1) (days_from_civil 2021 1 31) eq_refl eq_refl)
    as (out & H1 & H2 & _).
  exists out. split; [exact H1|]. apply H2. by left.
Defined.

(** ** The default selection of the dashboard *)

Lemma fold_min_bound (ts : list Z) (t : Z) :
  fold_left Z.min ts t <= t ∧ Forall (λ x, fold_left Z.min ts t <= x) ts.
Proof.
  revert t. induction ts as [|x ts IH]; intros t; simpl; [split; [lia|constructor]|].
  destruct (IH (Z.min t x)) as [H1 H2]. split; [lia|]. constructor; [lia|done].
Qed.

Lemma fold_max_bound (ts : list Z) (t : Z) :
  t <= fold_left Z.max ts t ∧ Forall (λ x, x <= fold_left Z.max ts t) ts.
Proof.
  revert t. induction ts as [|x ts IH]; intros t; simpl; [split; [lia|constructor]|].
  destruct (IH (Z.max t x)) as [H1 H2]. split; [lia|]. constructor; [lia|done].
Qed.

Lemma fold_min_sorted (ts : list Z) (t : Z) :
  Forall (Z.le t) ts → fold_left Z.min ts t = t.
Proof.
  induction 1 as [|x ts Hx _ IH]; [done|]. simpl. by rewrite Z.min_l.
Qed.

Lemma fold_max_sorted (ts : list Z) (t : Z) :
  StronglySorted Z.le (t :: ts) → Some (fold_left Z.max ts t) = last (t :: ts).
Proof.
  revert t. induction ts as [|x ts IH]; intros t Hs; [done|].
  apply StronglySorted_inv in Hs as [Hs Ht]. apply Forall_cons in Ht as [Htx _].
  simpl fold_left. rewrite Z.max_r by done. rewrite (IH x Hs). done.
Qed.

Lemma dated_index_dates (rs : list Row) (dates : list Z) :
  map index rs = map (λ t, TimeLabel (Some t)) dates →
  omap (λ r, label_time (index r)) rs = dates.
Proof.
  revert dates. induction rs as [|r rs IH]; intros [|t dates] E; try done.
  simpl in E. injection E as Hr E. cbn [omap list_omap]. rewrite Hr. cbn.
  f_equal. by apply IH.
Qed.

Lemma dated_row_date (rs : list Row) (dates : list Z) (r : Row) :
  map index rs = map (λ t, TimeLabel (Some t)) dates →
  r ∈ rs → ∃ d, d ∈ dates ∧ index r = TimeLabel (Some d).
Proof.
  revert dates. induction rs as [|r0 rs IH]; intros dates E Hr.
  - by apply elem_of_nil in Hr.
  - destruct dates as [|d dates]; [done|]. simpl in E. injection E as Hr0 E.
    apply elem_of_cons in Hr as [->|Hr].
    + exists d. split; [left|done].
    + destruct (IH dates E Hr) as (d' & Hd' & Er). exists d'. split; [by right|done].
Qed.

Lemma available_countries_elem_of (df : DataFrame) (country : string) :
  country ∈ main.available_countries df ↔ ∃ r, r ∈ rows df ∧ Country r = country.
Proof. apply group_keys_elem_of. Qed.

Section default_selection.
Context `{Pandas}.

(** With the selection the sidebar starts from, every country of the
    dataset and the dates from its first to its last, [filter_data] returns
    the whole dataset; the two dates are those of its first and of its last
    row. *)
Theorem default_selection_keeps_all (full : DataFrame) :
  preprocess_data full = Ok full →
  rows full ≠ [] →
  ∃ s e,
    main.min_date full = Some s
    ∧ main.max_date full = Some e
    ∧ s <= e
    ∧ index <$> head (rows full) = Some (TimeLabel (Some s))
    ∧ index <$> last (rows full) = Some (TimeLabel (Some e))
    ∧ filter_data full (main.available_countries full) (s, e) = Ok full.
Proof.
  intros Hfull Hne.
  destruct (dataset_in_date_order full Hfull) as (dates & Hi & Hs).
  pose proof (dated_index_dates _ _ Hi) as Hd.
  destruct (dataset_parts full Hfull) as (Hk & _).
  pose proof (dataset_has_Country full Hfull) as Hc.
  destruct dates as [|t ts].
  { destruct (rows full); [done|discriminate Hi]. }
  unfold main.min_date, main.max_date, main.index_dates. rewrite Hd.
  destruct (fold_min_bound ts t) as [Hmin1 Hmin2].
  destruct (fold_max_bound ts t) as [Hmax1 Hmax2].
  eexists _, _. split; [done|]. split; [done|]. split; [lia|].
  split; [|split].
  - rewrite fold_min_sorted by (by apply StronglySorted_inv in Hs as [_ Hs]).
    destruct (rows full) as [|r rs]; [done|]. simpl in Hi. injection Hi as Hr _.
    simpl. by rewrite Hr.
  - rewrite <- fmap_last. change (index <$> rows full) with (map index (rows full)).
    rewrite Hi. change (map ?f (t :: ts)) with (f <$> (t :: ts)).
    rewrite fmap_last, <- (fold_max_sorted ts t Hs). done.
  - rewrite filter_data_run by done. rewrite filter_all.
    + rewrite <- Hk. by destruct full.
    + apply Forall_forall. intros r Hr. unfold selected. apply andb_true_iff. split.
      * apply isin_elem_of, available_countries_elem_of. by exists r.
      * destruct (dated_row_date _ _ r Hi Hr) as (d & Hdin & Er).
        rewrite Er. cbn [label_time]. apply andb_true_iff. rewrite !Z.leb_le.
        apply elem_of_cons in Hdin as [->|Hdin]; [lia|].
        rewrite Forall_forall in Hmin2, Hmax2.
        split; [by apply Hmin2|by apply Hmax2].
Qed.

End default_selection.

Lemma default_selection_keeps_all_witness :
  ∃ s e,
    main.min_date gap_table_out = Some s
    ∧ main.max_date gap_table_out = Some e
    ∧ filter_data gap_table_out (main.available_countries gap_table_out) (s, e)
      = Ok gap_table_out.
Proof.
  destruct (default_selection_keeps_all (H := numpy_insertion) gap_table_out)
    as (s & e & H1 & H2 & _ & _ & _ & H3).
  - vm_compute. reflexivity.
  - discriminate.
  - by exists s, e.
Defined.

(** ** [get_top_n_records]: the table it returns *)

Lemma sorted_head_extreme (ascending : bool) (metric : Metric) (r : Row)
    (rest rs : list Row) :
  Permutation (r :: rest) rs →
  StronglySorted (cell_le ascending) (map (getitem metric) (r :: rest)) →
  match getitem metric r with
  | Some x => if ascending then is_min (omap (getitem metric) rs) x
              else is_max (omap (getitem metric) rs) x
  | None => omap (getitem metric) rs = []
  end.
Proof.
  intros Hperm Hs. simpl in Hs. apply StronglySorted_inv in Hs as [_ Hr].
  assert (Hall : ∀ y, y ∈ omap (getitem metric) rs →
                      cell_le ascending (getitem metric r) (Some y)).
  { intros y Hy. apply list_elem_of_omap in Hy as (r' & Hr' & Ey).
    rewrite <- Hperm in Hr'. apply elem_of_cons in Hr' as [->|Hr'].
    - rewrite Ey. simpl. destruct ascending; apply Qle_refl.
    - rewrite Forall_forall in Hr. rewrite <- Ey. apply Hr.
      apply list_elem_of_In, in_map, list_elem_of_In, Hr'. }
  destruct (getitem metric r) as [x|] eqn:Ex.
  - assert (Hin : x ∈ omap (getitem metric) rs).
    { apply list_elem_of_omap. exists r. split; [|done]. rewrite <- Hperm. left. }
    destruct ascending; (split; [done|]); apply Forall_forall; intros y Hy;
      exact (Hall y Hy).
  - destruct (omap (getitem metric) rs) as [|y ys]; [done|].
    destruct (Hall y). left.
Qed.

Section top_table.
Context `{Pandas}.

(** For [n > 0] the first record [get_top_n_records] returns holds the
    largest value of the metric in the dataset, the smallest when
    [ascending], and a null only when the dataset has no value at all; no
    record is returned only for an empty dataset; and a larger [n] extends
    the table at its end, the records before staying as they are. *)
Theorem top_n_table (df : DataFrame) (metric : Metric) (n : Z) (ascending : bool) :
  has_column "Country" df = true →
  has_column (metric_label metric) df = true →
  0 < n →
  ∃ recs,
    get_top_n_records df metric n ascending = Ok recs
    ∧ (recs = [] ↔ rows df = [])
    ∧ (∀ rec, head recs = Some rec →
         match top_value rec with
         | Some x => if ascending then is_min (omap (getitem metric) (rows df)) x
                     else is_max (omap (getitem metric) (rows df)) x
         | None => omap (getitem metric) (rows df) = []
         end)
    ∧ (∀ n', n <= n' →
         ∃ recs', get_top_n_records df metric n' ascending = Ok recs'
                ∧ recs = take (length recs) recs').
Proof.
  intros Hc Hm Hn.
  set (sorted := reorder (pd.nargsort ascending (map (getitem metric) (rows df))) (rows df)).
  assert (Hperm : Permutation sorted (rows df)) by apply sort_rows_perm.
  assert (Hsorted : StronglySorted (cell_le ascending) (map (getitem metric) sorted))
    by apply sort_rows_sorted.
  assert (Hrun : ∀ k, 0 < k → get_top_n_records df metric k ascending
                 = Ok (map (λ r, mkTopRecord (index r) (Country r) (getitem metric r))
                         (take (Z.to_nat k) sorted))).
  { intros k Hk. unfold get_top_n_records, pd.sort_values. rewrite Hm.
    cbn [mbind result_bind]. unfold has_column at 1. cbn [columns].
    fold (has_column "Country" df). rewrite Hc. cbn [negb rows].
    by rewrite head_nonneg by lia. }
  eexists. split; [by apply Hrun|].
  destruct (Z.to_nat n) as [|k] eqn:En; [lia|].
  split; [|split].
  - destruct sorted as [|r rest] eqn:Es.
    + apply Permutation_nil_l in Hperm. by rewrite <- Hperm.
    + split; [done|]. intros E. rewrite E in Hperm.
      by apply Permutation_nil_r in Hperm.
  - intros rec Hrec. destruct sorted as [|r rest] eqn:Es; [done|].
    simpl in Hrec. injection Hrec as <-. cbn [top_value].
    by apply (sorted_head_extreme ascending metric r rest).
  - intros n' Hn'. eexists. split; [apply Hrun; lia|].
    rewrite <- En, length_map, <- !fmap_take.
    change (map ?f ?l) with (f <$> l). f_equal.
    rewrite take_take, Nat.min_l; [apply take_length_take|].
    rewrite length_take. lia.
Qed.

End top_table.

Lemma top_n_table_witness :
  ∃ recs,
    get_top_n_records (H := numpy_insertion) tie_table_out metric_T2M 2 false = Ok recs
    ∧ (∀ rec, head recs = Some rec →
         match top_value rec with
         | Some x => is_max (omap (getitem metric_T2M) (rows tie_table_out)) x
         | None => omap (getitem metric_T2M) (rows tie_table_out) = []
         end).
Proof.
  destruct (top_n_table (H := numpy_insertion) tie_table_out metric_T2M 2 false
              eq_refl eq_refl eq_refl) as (recs & H1 & _ & H2 & _).
  exists recs. by split.
Defined.

(** ** [calculate_summary_stats]: the order of the table *)

Lemma ascii_compare_trans (a b c : ascii) :
  Ascii.compare a b ≠ Gt → Ascii.compare b c ≠ Gt → Ascii.compare a c ≠ Gt.
Proof.
  unfold Ascii.compare. rewrite !N.compare_le_iff. lia.
Qed.

Lemma ascii_compare_Lt_trans (a b c : ascii) :
  Ascii.compare a b = Lt → Ascii.compare b c ≠ Gt → Ascii.compare a c = Lt.
Proof.
  unfold Ascii.compare. rewrite N.compare_le_iff, !N.compare_lt_iff. lia.
Qed.

Lemma ascii_compare_refl (a : ascii) : Ascii.compare a a = Eq.
Proof. unfold Ascii.compare. apply N.compare_refl. Qed.

Lemma string_leb_trans (s1 s2 s3 : string) :
  String.leb s1 s2 = true → String.leb s2 s3 = true → String.leb s1 s3 = true.
Proof.
  unfold String.leb. revert s2 s3.
  induction s1 as [|c1 s1 IH]; intros [|c2 s2] [|c3 s3]; simpl; try done.
  destruct (Ascii.compare c1 c2) eqn:E12; [| |done].
  - apply Ascii.compare_eq_iff in E12 as ->.
    destruct (Ascii.compare c2 c3) eqn:E23; [apply IH|done|done].
  - intros _. destruct (Ascii.compare c2 c3) eqn:E23; [| |done]; intros _.
    + apply Ascii.compare_eq_iff in E23 as <-. by rewrite E12.
    + rewrite (ascii_compare_Lt_trans c1 c2 c3); [done..|]. by rewrite E23.
Qed.

Lemma string_ltb_leb (s1 s2 : string) :
  String.leb s1 s2 = true → s1 ≠ s2 → String.ltb s1 s2 = true.
Proof.
  unfold String.leb, String.ltb.
  destruct (String.compare s1 s2) eqn:E; [|done|done].
  apply String.compare_eq_iff in E. done.
Qed.

Lemma group_keys_sorted (rs : list Row) :
  StronglySorted (λ a b, String.ltb a b = true) (group_keys rs).
Proof.
  pose proof (group_keys_NoDup rs) as Hnd.
  assert (Hs : StronglySorted (λ a b, String.leb a b = true) (group_keys rs)).
  { unfold group_keys. apply insertion_sort_sorted.
    - done.
    - intros x y E. destruct (String.leb_total x y) as [E'|E']; [congruence|done].
    - intros x y z. apply string_leb_trans. }
  induction Hs as [|k ks Hs IH Hk]; [constructor|].
  apply NoDup_cons in Hnd as [Hnin Hnd]. constructor; [by apply IH|].
  apply Forall_forall. intros k' Hk'. rewrite Forall_forall in Hk.
  apply string_ltb_leb; [by apply Hk|]. intros ->. done.
Qed.

Lemma rint_bounds (x : Q) : Qfloor x <= agg.rint x <= Qfloor x + 1.
Proof.
  unfold agg.rint. destruct (Qcompare _ _); [destruct (Z.even _)| |]; lia.
Qed.

(** [numpy.rint] keeps the order of what it rounds. *)
Lemma rint_mono (x y : Q) : (x <= y)%Q → agg.rint x <= agg.rint y.
Proof.
  intros Hxy. pose proof (Qfloor_resp_le x y Hxy) as Hf.
  pose proof (rint_bounds x) as Hx. pose proof (rint_bounds y) as Hy.
  destruct (decide (Qfloor x = Qfloor y)) as [E|Hne]; [|lia].
  clear Hx Hy Hf. unfold agg.rint. rewrite <- E.
  destruct (Qcompare_spec (x - inject_Z (Qfloor x)) (1 # 2)) as [Ex|Ex|Ex];
    destruct (Qcompare_spec (y - inject_Z (Qfloor x)) (1 # 2)) as [Ey|Ey|Ey];
    try (destruct (Z.even (Qfloor x))); try lia; lra.
Qed.

Lemma round2_mono (x y vx vy : Q) :
  (x <= y)%Q →
  agg.round 2 (Some (Rat x)) = Some vx → agg.round 2 (Some (Rat y)) = Some vy →
  (vx <= vy)%Q.
Proof.
  intros Hxy. unfold agg.round. intros [= <-] [= <-].
  change (10 ^ Z.of_nat 2)%Z with 100%Z. apply Qred_le.
  assert (Hk : agg.rint (x * inject_Z 100) <= agg.rint (y * inject_Z 100)).
  { apply rint_mono. change (inject_Z 100) with (100 # 1)%Q. lra. }
  rewrite Zle_Qle in Hk. change (inject_Z 100) with (100 # 1)%Q in *.
  unfold Qdiv. change (/ (100 # 1))%Q with (1 # 100)%Q. lra.
Qed.

Lemma median_between (xs : list Q) (lo hi med : Q) :
  is_min xs lo → is_max xs hi → is_median xs med → (lo <= med <= hi)%Q.
Proof.
  intros [_ Hlo] [_ Hhi] (ys & Hperm & _ & Hmed).
  assert (Hin : ∀ i y, ys !! i = Some y → (lo <= y <= hi)%Q).
  { intros i y Hy. apply list_elem_of_lookup_2 in Hy. rewrite Hperm in Hy.
    rewrite Forall_forall in Hlo, Hhi. split; [by apply Hlo|by apply Hhi]. }
  destruct (Nat.odd (length xs)).
  - by apply (Hin _ _ Hmed).
  - destruct Hmed as (a & b & Ha & Hb & ->).
    pose proof (Hin _ _ Ha). pose proof (Hin _ _ Hb).
    unfold Qdiv. change (/ 2)%Q with (1 # 2)%Q. lra.
Qed.

(** The summary table lists the countries in strictly ascending order of
    their names, and on every row the minimum is no more than the median and
    the median no more than the maximum, as shown, after rounding. *)
Theorem summary_stats_ordered (df : DataFrame) (metric : Metric)
    (table : list (string * SummaryRow)) :
  calculate_summary_stats df metric = Ok table →
  StronglySorted (λ a b, String.ltb a b = true) (map fst table)
  ∧ Forall (λ kr : string * SummaryRow,
              ∀ lo med hi,
                Min kr.2 = Some lo → Median kr.2 = Some med → Max kr.2 = Some hi →
                (lo <= med <= hi)%Q) table.
Proof.
  unfold calculate_summary_stats.
  destruct (has_column "Country" df); [|done].
  destruct (has_column (metric_label metric) df); [|done].
  cbn [negb]. intros [= <-]. split.
  - rewrite map_map. cbn [fst]. rewrite map_id. apply group_keys_sorted.
  - apply Forall_forall. intros [country row] Hrow.
    apply list_elem_of_In, in_map_iff in Hrow as (c & [= <- <-] & _).
    cbn [snd Min Median Max]. intros lo med hi.
    destruct (group_values metric c (rows df)) as [|x xs]; [done|].
    destruct (agg_min_spec x xs) as (m & -> & Hm).
    destruct (agg_max_spec x xs) as (M & -> & HM).
    destruct (agg_median_spec x xs) as (d & -> & Hd).
    intros Hlo Hmed Hhi. destruct (median_between _ _ _ _ Hm HM Hd) as [H1 H2].
    split; [by apply (round2_mono m d)|by apply (round2_mono d M)].
Qed.

Lemma summary_stats_ordered_witness :
  ∃ table,
    calculate_summary_stats tie_table_out metric_T2M = Ok table
    ∧ map fst table = ["Benin"; "Sierra Leone"; "Togo"]%string
    ∧ StronglySorted (λ a b, String.ltb a b = true) (map fst table).
Proof.
  eexists. split; [vm_compute; reflexivity|]. split; [reflexivity|].
  apply (summary_stats_ordered tie_table_out metric_T2M). vm_compute. reflexivity.
Defined.

(** ** The merged table of [load_all_countries] *)

(** The table [load_all_countries] returns is numbered afresh from 0, has
    the rows of all the frames that loaded and no column twice, a label
    being one of its columns exactly when it is a column of a frame that
    loaded, the Country label among them; and every id either loaded or has
    one message shown. *)
Theorem load_all_countries_frame (data_dir : DataDir) (countries : option (list string))
    (out : DataFrame) :
  (load_all_countries data_dir countries).1 = Ok out →
  let frames := loaded data_dir (normalized countries) in
  index_kind out = RangeIndex
  ∧ map index (rows out) = map RangeLabel (seq 0 (length (rows out)))
  ∧ length (rows out) = length (flat_map rows frames)
  ∧ NoDup (columns out)
  ∧ (∀ col, col ∈ columns out ↔ ∃ df, df ∈ frames ∧ col ∈ columns df)
  ∧ has_column "Country" out = true
  ∧ (length frames + length (load_all_countries data_dir countries).2)%nat
    = length (normalized countries).
Proof.
  intros Hout frames. rewrite load_all_countries_unfold in Hout |- *.
  cbn [fst snd] in Hout |- *. fold frames in Hout.
  assert (Hc : pd.concat frames = Ok out) by (by destruct frames).
  assert (Hne : frames ≠ []) by (by destruct frames).
  pose proof (concat_length frames out Hc) as Hlen.
  destruct frames as [|df0 frames0] eqn:Ef; [done|]. rewrite <- Ef in *.
  assert (Eout : out = mkDataFrame RangeIndex (pd.union_columns frames)
                         (pd.renumber (flat_map (λ df, map (pd.pad df) (rows df)) frames))).
  { rewrite Ef in Hc |- *. unfold pd.concat in Hc. by injection Hc as <-. }
  split; [by rewrite Eout|]. split; [|split; [done|split; [|split; [|split]]]].
  - rewrite Eout. cbn [rows]. by rewrite renumber_index, renumber_length.
  - rewrite Eout. apply union_columns_NoDup.
  - intros col. rewrite Eout. apply union_columns_elem_of.
  - apply has_column_elem_of. rewrite Eout. cbn [columns].
    apply union_columns_elem_of. exists df0. split; [rewrite Ef; left|].
    apply (loaded_has_Country data_dir (normalized countries)).
    fold frames. rewrite Ef. left.
  - apply loaded_skipped_length.
Qed.

Lemma load_all_countries_frame_witness :
  ∃ out, (load_all_countries two_of_three None).1 = Ok out
       ∧ map index (rows out) = map RangeLabel (seq 0 9)
       ∧ has_column "Country" out = true.
Proof.
  eexists. split; [vm_compute; reflexivity|].
  destruct (load_all_countries_frame two_of_three None _ eq_refl)
    as (_ & H1 & _ & _ & _ & H2 & _).
  split; [exact H1|exact H2].
Defined.

(** ** The pipeline of the dashboard *)

Lemma loaded_tagged (data_dir : DataDir) (ids : list string) (df : DataFrame) :
  df ∈ loaded data_dir ids →
  ∃ id csv, id ∈ ids ∧ df = tagged id csv.
Proof.
  unfold loaded. rewrite list_elem_of_omap. intros (id & Hid & E).
  destruct (load_country_data data_dir id) as [df'|e] eqn:El; [|done].
  injection E as ->. destruct (load_country_data_Ok _ _ _ El) as (csv & _ & ->).
  by exists id, csv.
Qed.

Lemma flat_map_elem_of {A B} (f : A → list B) (l : list A) (y : B) :
  y ∈ flat_map f l ↔ ∃ x, x ∈ l ∧ y ∈ f x.
Proof.
  rewrite list_elem_of_In, in_flat_map. split.
  - intros (x & Hx & Hy). exists x. by rewrite !list_elem_of_In.
  - intros (x & Hx & Hy). exists x. by rewrite <- !list_elem_of_In.
Qed.

Section pipeline.
Context `{Pandas}.

Lemma preprocess_countries (df out : DataFrame) :
  preprocess_data df = Ok out →
  Permutation (map Country (rows out)) (map Country (rows df)).
Proof.
  intros Hout. destruct (preprocess_data_inv df out Hout) as (s & Hs & _).
  rewrite (preprocess_data_keeps Country df out s ltac:(by intros [] v r) Hs Hout).
  destruct (date_sorted_rows df s Hs) as [-> _]. by rewrite map_map.
Qed.

(** How [load_and_preprocess_data] ends.  It returns a table indexed by
    date with every required column, holding the rows of the files that
    loaded under the names Benin, Sierra Leone and Togo; or none of the three
    files loaded; or the files lack a required column, and then the error
    lists the required columns that no loaded file has, never the Country
    column; or the dates could not be assembled.  Nothing else ends it. *)
Theorem pipeline_outcome (data_dir : DataDir) :
  let frames := loaded data_dir ["benin"; "sierra_leone"; "togo"]%string in
  match (main.load_and_preprocess_data data_dir).1 with
  | Ok full =>
      frames ≠ []
      ∧ index_kind full = DatetimeIndex
      ∧ missing_fields full = []
      ∧ Forall (λ r, Country r ∈ ["Benin"; "Sierra Leone"; "Togo"]%string) (rows full)
      ∧ length (rows full) = length (flat_map rows frames)
  | Raise ValueError_no_data => frames = []
  | Raise (ValueError_missing_columns cols) =>
      frames ≠ []
      ∧ cols ≠ []
      ∧ ("Country"%string ∉ cols)
      ∧ ∀ col, col ∈ cols ↔ col ∈ required_cols ∧ ∀ df, df ∈ frames → col ∉ columns df
  | Raise ValueError_assemble => frames ≠ []
  | Raise _ => False
  end.
Proof.
  intros frames. unfold main.load_and_preprocess_data.
  rewrite load_all_countries_unfold.
  change (normalized None) with ["benin"; "sierra_leone"; "togo"]%string.
  fold frames. cbn [fst].
  destruct frames as [|df0 frames0] eqn:Ef; [done|]. rewrite <- Ef.
  assert (Hne : frames ≠ []) by (by rewrite Ef).
  destruct (pd.concat frames) as [raw|e] eqn:Hc; [|by rewrite Ef in Hc].
  replace (match frames with [] => Raise ValueError_no_data | _ => Ok raw end)
    with (Ok raw : result DataFrame) by (by rewrite Ef).
  cbn [mbind result_bind].
  assert (Hcols : ∀ col, col ∈ columns raw ↔ ∃ df, df ∈ frames ∧ col ∈ columns df).
  { intros col. rewrite Ef in Hc. unfold pd.concat in Hc. injection Hc as <-.
    rewrite <- Ef. apply union_columns_elem_of. }
  destruct (preprocess_data raw) as [full|e] eqn:Hp.
  - split; [done|]. split; [by apply (preprocess_index_kind raw)|].
    split; [by apply (preprocess_required raw)|]. split.
    + apply Forall_forall. intros r Hr.
      assert (Hin : Country r ∈ map Country (rows full))
        by (apply list_elem_of_In, in_map, list_elem_of_In, Hr).
      rewrite (preprocess_countries raw full Hp), (concat_countries frames raw Hc) in Hin.
      apply flat_map_elem_of in Hin as (df & Hdf & Hin).
      destruct (loaded_tagged _ _ _ Hdf) as (id & csv & Hid & ->).
      rewrite tagged_countries in Hin. apply list_elem_of_In, repeat_spec in Hin as ->.
      repeat (apply elem_of_cons in Hid as [->|Hid]; [apply list_elem_of_In; simpl; tauto|]).
      by apply elem_of_nil in Hid.
    + rewrite (preprocess_rows_length raw full Hp). by apply concat_length.
  - apply preprocess_data_Raise, date_sorted_Raise in Hp as [[Hm ->]|(_ & -> & _)]; [|done].
    split; [done|]. split; [done|]. split.
    + rewrite missing_fields_spec. intros [_ Hnc]. apply Hnc, Hcols.
      exists df0. split; [rewrite Ef; left|].
      apply (loaded_has_Country data_dir ["benin"; "sierra_leone"; "togo"]%string).
      fold frames. rewrite Ef. left.
    + intros col. rewrite missing_fields_spec, Hcols. split.
      * intros [Hr Hnc]. split; [done|]. intros df Hdf Hc'. apply Hnc. by exists df.
      * intros [Hr Hnc]. split; [done|]. intros (df & Hdf & Hc'). by apply (Hnc df).
Qed.

End pipeline.

(** ** The "Data Completeness" figure *)

Lemma filter_isna_filled {A} (s : list (option A)) :
  Forall is_Some s → List.filter pd.isna s = [].
Proof. induction 1 as [|c s [v ->] _ IH]; [done|]. done. Qed.

Lemma filter_isna_empty {A} (s : list (option A)) :
  Forall (λ c, c = None) s → List.filter pd.isna s = s.
Proof. induction 1 as [|c s -> _ IH]; [done|]. simpl. by rewrite IH. Qed.

Section completeness.
Context `{Pandas}.

(** After preprocessing the completeness shown for a selection that has
    rows is all or nothing: 100 when the metric has a reading anywhere in
    the dataset, 0 when it has none. *)
Theorem completeness_all_or_nothing (full out : DataFrame) (countries : list string)
    (s e : Z) (m : Metric) :
  preprocess_data full = Ok full →
  filter_data full countries (s, e) = Ok out →
  rows out ≠ [] →
  ((∃ v, Some v ∈ column m full) → main.data_completeness out m == 100)%Q
  ∧ ((¬ ∃ v, Some v ∈ column m full) → main.data_completeness out m == 0)%Q.
Proof.
  intros Hfull Hout Hne.
  pose proof (dataset_has_Country full Hfull) as Hc.
  pose proof (preprocess_index_kind full full Hfull) as Hk.
  rewrite (filter_data_run full countries s e Hc Hk) in Hout. injection Hout as <-.
  cbn [rows] in Hne. unfold main.data_completeness, column. cbn [rows].
  set (rs := List.filter (selected countries s e) (rows full)) in *.
  assert (Hn : ¬ (inject_Z (Z.of_nat (length rs)) == 0)%Q).
  { intros E. unfold Qeq in E. simpl in E.
    apply Hne, length_zero_iff_nil. lia. }
  destruct (preprocess_column_uniform full full m Hfull) as [Hf|He].
  - split.
    + intros _. rewrite filter_isna_filled by (by apply Forall_filter_map).
      simpl length. change (inject_Z (Z.of_nat 0)) with 0%Q. field. exact Hn.
    + intros Hno. destruct Hno.
      assert (Hex : ∃ r, r ∈ rs) by (destruct rs as [|r ?]; [done|exists r; left]).
      destruct Hex as [r Hr]. apply list_elem_of_In, filter_In in Hr as [Hr _].
      assert (Hcell : getitem m r ∈ column m full)
        by (apply list_elem_of_In, in_map, Hr).
      rewrite Forall_forall in Hf. destruct (Hf _ Hcell) as [v Hv].
      exists v. by rewrite <- Hv.
  - split.
    + intros [v Hv]. rewrite Forall_forall in He. by specialize (He _ Hv).
    + intros _. rewrite filter_isna_empty by (by apply Forall_filter_map).
      rewrite length_map. field. exact Hn.
Qed.

End completeness.

Lemma completeness_all_or_nothing_witness :
  (main.data_completeness gap_table_out metric_T2M == 100)%Q.
Proof.
  destruct (completeness_all_or_nothing (H := numpy_insertion) gap_table_out gap_table_out
              ["Benin"; "Togo"]%string (days_from_civil 2021 1 1)
              (days_from_civil 2021 1 6) metric_T2M) as [H1 _].
  - vm_compute. reflexivity.
  - vm_compute. reflexivity.
  - discriminate.
  - apply H1. exists 5%Q. vm_compute. apply list_elem_of_In. simpl. tauto.
Defined.

(** ** [get_metric_info] *)

(** [get_metric_info] returns, for every key, a dict with a name, a unit and
    a description and nothing else, so that reading these never fails; for
    the two metrics of the dashboard it is their own entry, and for every
    other key the name is the key itself, the unit is empty and the
    description says that there is none. *)
Theorem get_metric_info_complete (metric_key : string) :
  dom (get_metric_info metric_key) = {[ "name"; "unit"; "description" ]}%string
  ∧ (metric_key ≠ "T2M"%string → metric_key ≠ "WS10M_MIN"%string →
     get_metric_info metric_key !! "name"%string = Some metric_key
     ∧ get_metric_info metric_key !! "unit"%string = Some ""%string
     ∧ get_metric_info metric_key !! "description"%string
       = Some "No description available"%string)
  ∧ (∀ m : Metric,
       metrics !! metric_label m = Some (get_metric_info (metric_label m))
       ∧ get_metric_info (metric_label m) !! "name"%string ≠ Some (metric_label m)
       ∧ get_metric_info (metric_label m) !! "unit"%string ≠ Some ""%string).
Proof.
  split; [|split].
  - unfold get_metric_info.
    destruct (metrics !! metric_key) as [info|] eqn:E.
    + unfold metrics in E.
      apply lookup_insert_Some in E as [[_ <-]|[_ E]]; [vm_compute; reflexivity|].
      apply lookup_singleton_Some in E as [_ <-]. vm_compute. reflexivity.
    + simpl. rewrite !dom_insert_L, dom_singleton_L. set_solver.
  - intros H1 H2. unfold get_metric_info, metrics.
    rewrite lookup_insert_ne, lookup_singleton_ne by done. cbn [default].
    split; [|split].
    + by rewrite lookup_insert_eq.
    + by rewrite lookup_insert_ne, lookup_insert_eq.
    + by rewrite lookup_insert_ne, lookup_insert_ne, lookup_singleton_eq.
  - intros []; vm_compute; repeat split; discriminate.
Qed.

(** ** Date order is calendar order *)

Lemma days_before_march_succ (y : Z) :
  days_before_march y
  = days_before_march (y - 1) + 365 + (if is_leap y then 1 else 0).
Proof.
  unfold days_before_march, is_leap.
  destruct (Z.eqb_spec (y mod 4) 0), (Z.eqb_spec (y mod 100) 0),
    (Z.eqb_spec (y mod 400) 0); simpl; Z.div_mod_to_equations; lia.
Qed.

Lemma days_before_march_mono (a b : Z) :
  a <= b → days_before_march a <= days_before_march b.
Proof. unfold days_before_march. intros Hab. Z.div_mod_to_equations. lia. Qed.

Lemma days_from_civil_march (y m d : Z) :
  days_from_civil y m d
  = days_before_march (if m <=? 2 then y - 1 else y)
    + (153 * (if 2 <? m then m - 3 else m + 9) + 2) / 5 + d - 1 - 719468.
Proof.
  unfold days_from_civil, days_before_march. cbv zeta.
  generalize (if m <=? 2 then y - 1 else y). intros z.
  generalize ((153 * (if 2 <? m then m - 3 else m + 9) + 2) / 5). intros k.
  Z.div_mod_to_equations. lia.
Qed.

Lemma month_cases (m : Z) :
  1 <= m <= 12 →
  m = 1 ∨ m = 2 ∨ m = 3 ∨ m = 4 ∨ m = 5 ∨ m = 6 ∨ m = 7 ∨ m = 8 ∨ m = 9
  ∨ m = 10 ∨ m = 11 ∨ m = 12.
Proof. lia. Qed.

Lemma valid_date_inv (y m d : Z) :
  valid_date y m d = true → 1 <= m <= 12 ∧ 1 <= d <= days_in_month y m.
Proof. unfold valid_date. rewrite !andb_true_iff, !Z.leb_le. lia. Qed.

(** Within a civil year: the day number counted from the first of January. *)
Lemma days_from_civil_in_year (y m d : Z) :
  valid_date y m d = true →
  ∃ k, days_from_civil y m d = days_before_march (y - 1) + 306 + k - 719468
     ∧ 0 <= k < 365 + (if is_leap y then 1 else 0)
     ∧ k = match m with
           | 1 => 0 | 2 => 31
           | 3 => 59 | 4 => 90 | 5 => 120 | 6 => 151 | 7 => 181 | 8 => 212
           | 9 => 243 | 10 => 273 | 11 => 304 | _ => 334
           end + (if 2 <? m then (if is_leap y then 1 else 0) else 0) + d - 1.
Proof.
  intros Hv. apply valid_date_inv in Hv as [Hm Hd].
  rewrite days_from_civil_march. pose proof (days_before_march_succ y) as Hy.
  eexists. split; [|split; [|reflexivity]].
  - destruct (month_cases m Hm) as [->|[->|[->|[->|[->|[->|[->|[->|[->|[->|[->| ->]]]]]]]]]]];
      cbn -[days_before_march is_leap Z.add Z.sub Z.div Z.mul];
      destruct (is_leap y); Z.div_mod_to_equations; lia.
  - destruct (month_cases m Hm) as [->|[->|[->|[->|[->|[->|[->|[->|[->|[->|[->| ->]]]]]]]]]]];
      unfold days_in_month in Hd; cbn -[is_leap Z.add Z.sub Z.le Z.lt] in Hd |- *;
      destruct (is_leap y); lia.
Qed.

(** [days_from_civil] is strictly increasing along the calendar. *)
Lemma days_from_civil_lt (y1 m1 d1 y2 m2 d2 : Z) :
  valid_date y1 m1 d1 = true → valid_date y2 m2 d2 = true →
  y1 < y2 ∨ (y1 = y2 ∧ (m1 < m2 ∨ (m1 = m2 ∧ d1 < d2))) →
  days_from_civil y1 m1 d1 < days_from_civil y2 m2 d2.
Proof.
  intros Hv1 Hv2 Hlt.
  destruct (days_from_civil_in_year y1 m1 d1 Hv1) as (k1 & -> & Hk1 & Ek1).
  destruct (days_from_civil_in_year y2 m2 d2 Hv2) as (k2 & -> & Hk2 & Ek2).
  apply valid_date_inv in Hv1 as [Hm1 Hd1]. apply valid_date_inv in Hv2 as [Hm2 Hd2].
  destruct Hlt as [Hy|[<- Hmd]].
  - pose proof (days_before_march_succ y1) as Hs.
    pose proof (days_before_march_mono y1 (y2 - 1) ltac:(lia)). lia.
  - cut (k1 < k2); [lia|]. subst k1 k2. destruct Hmd as [Hm|[<- Hd]]; [|lia].
    unfold days_in_month in Hd1.
    destruct (month_cases m1 Hm1) as [->|[->|[->|[->|[->|[->|[->|[->|[->|[->|[->| ->]]]]]]]]]]];
      destruct (month_cases m2 Hm2) as [->|[->|[->|[->|[->|[->|[->|[->|[->|[->|[->| ->]]]]]]]]]]];
      try lia;
      cbn -[is_leap Z.add Z.sub Z.le Z.lt] in Hd1 |- *; destruct (is_leap y1); lia.
Qed.

Lemma StronglySorted_map_inv_on {A B} (f : A → B) (R1 : relation A) (R2 : relation B)
    (P : A → Prop) (l : list A) :
  Forall P l →
  (∀ x y, P x → P y → R2 (f x) (f y) → R1 x y) →
  StronglySorted R2 (map f l) → StronglySorted R1 l.
Proof.
  intros HP Hf. induction HP as [|x l Hx HP IH]; simpl; [constructor|].
  intros Hs. apply StronglySorted_inv in Hs as [Hl Hxl].
  constructor; [by apply IH|].
  apply Forall_forall. intros y Hy. rewrite Forall_forall in HP.
  apply Hf; [done|by apply HP|].
  rewrite Forall_forall in Hxl. apply Hxl.
  apply list_elem_of_In, in_map, list_elem_of_In, Hy.
Qed.

Section chronological.
Context `{Pandas}.

(** For records with a year that datetime64 holds and a month and a day of
    at most two digits, the dataset [preprocess_data] returns is in calendar
    order: every record is a valid calendar date, and no record comes before
    one of an earlier year, or of an earlier month of its year, or of an
    earlier day of its month. *)
Theorem preprocess_chronological (df out : DataFrame) :
  preprocess_data df = Ok out →
  Forall two_digit_fields (rows df) →
  Forall (λ r, valid_calendar_date r = true
               ∧ index r = TimeLabel (Some (days_from_civil (YEAR r) (MO r) (DY r))))
         (rows out)
  ∧ StronglySorted date_fields_le (rows out).
Proof.
  intros Hout Htwo.
  destruct (preprocess_data_inv df out Hout) as (s & Hs & _).
  pose proof (preprocess_data_keeps (λ r, (YEAR r, MO r, DY r)) df out s
                ltac:(by intros [] v r) Hs Hout) as Hkeep.
  destruct (date_sorted_rows df s Hs) as [Hperm _].
  assert (Htwo' : Forall two_digit_fields (rows out)).
  { apply (Forall_map_eq (λ r, (YEAR r, MO r, DY r))
             (λ p, 1678 <= p.1.1 <= 2261 ∧ 0 <= p.1.2 < 100 ∧ 0 <= p.2 < 100)
             _ _ Hkeep).
    rewrite Hperm. apply Forall_forall. intros r' Hr'.
    apply list_elem_of_In, in_map_iff in Hr' as (r & <- & Hr).
    rewrite Forall_forall in Htwo. apply (Htwo r), list_elem_of_In, Hr. }
  assert (Hall : Forall (λ r, valid_calendar_date r = true
                   ∧ index r = TimeLabel (Some (days_from_civil (YEAR r) (MO r) (DY r))))
                   (rows out)).
  { pose proof (preprocess_rows_dated df out Hout) as Hd.
    apply Forall_forall. intros r Hr. rewrite Forall_forall in Hd, Htwo'.
    destruct (Hd r Hr) as (t & Hi & _ & Ht).
    rewrite (derived_date_two_digit r (Htwo' r Hr)) in Ht.
    destruct (valid_calendar_date r); [|done]. injection Ht as <-. done. }
  split; [done|].
  pose proof (preprocess_monotonic df out Hout) as Hmono.
  apply is_monotonic_sorted in Hmono. rewrite map_map in Hmono.
  eapply (StronglySorted_map_inv_on _ _ _ _ _ Hall); [|exact Hmono].
  intros x y [Hvx Hix] [Hvy Hiy]. rewrite Hix, Hiy. simpl. rewrite <- Zle_Qle.
  intros Hle. unfold date_fields_le. unfold valid_calendar_date in *.
  destruct (Z.lt_trichotomy (YEAR x) (YEAR y)) as [?|[Ey|Hy]]; [by left| |].
  - right. split; [done|].
    destruct (Z.lt_trichotomy (MO x) (MO y)) as [?|[Em|Hm]]; [by left| |].
    + right. split; [done|].
      destruct (Z_le_gt_dec (DY x) (DY y)) as [?|Hd]; [done|].
      pose proof (days_from_civil_lt _ _ _ _ _ _ Hvy Hvx) as Hlt. lia.
    + pose proof (days_from_civil_lt _ _ _ _ _ _ Hvy Hvx) as Hlt. lia.
  - pose proof (days_from_civil_lt _ _ _ _ _ _ Hvy Hvx) as Hlt. lia.
Qed.

End chronological.

Lemma preprocess_chronological_witness :
  StronglySorted date_fields_le (rows tie_table_out).
Proof.
  apply (preprocess_chronological (H := numpy_insertion) tie_table tie_table_out).
  - vm_compute. reflexivity.
  - repeat constructor; vm_compute; congruence.
Defined.

(** ** What is shown stays within the selection *)

Section selection.
Context `{Pandas}.

(** Whatever the dataset holds, the summary table and the tables of top
    records computed from a selection show nothing outside it: the summary
    has a row for a country exactly when the country is selected and has a
    record within the dates, and every top record is of a selected country
    and of a date within the range. *)
Theorem selection_respected (df : DataFrame) (countries : list string) (s e : Z)
    (metric : Metric) (n : Z) (ascending : bool) :
  has_column "Country" df = true →
  has_column (metric_label metric) df = true →
  index_kind df = DatetimeIndex →
  ∃ out table recs,
    filter_data df countries (s, e) = Ok out
    ∧ calculate_summary_stats out metric = Ok table
    ∧ get_top_n_records out metric n ascending = Ok recs
    ∧ (∀ country,
         country ∈ map fst table
         ↔ country ∈ countries
           ∧ ∃ r t, r ∈ rows df ∧ Country r = country
                  ∧ label_time (index r) = Some t ∧ s <= t <= e)
    ∧ Forall (λ rec, top_Country rec ∈ countries
                     ∧ ∃ t, Date rec = TimeLabel (Some t) ∧ s <= t <= e) recs.
Proof.
  intros Hc Hm Hk.
  assert (Hsel : ∀ r, r ∈ List.filter (selected countries s e) (rows df) ↔
                      r ∈ rows df ∧ Country r ∈ countries
                      ∧ ∃ t, label_time (index r) = Some t ∧ s <= t <= e).
  { intros r. rewrite list_elem_of_In, filter_In, <- list_elem_of_In.
    unfold selected. rewrite andb_true_iff, isin_elem_of.
    destruct (label_time (index r)) as [t|].
    - rewrite andb_true_iff, !Z.leb_le. split.
      + intros (? & ? & ?). repeat split; try done. by exists t.
      + intros (? & ? & t' & [= <-] & ?). done.
    - split; [by intros (? & ? & ?)|by intros (? & ? & t' & ? & ?)]. }
  eexists _, _, _. split; [by apply filter_data_run|].
  unfold calculate_summary_stats, get_top_n_records, pd.sort_values, has_column.
  cbn [columns rows]. fold (has_column "Country" df).
  fold (has_column (metric_label metric) df). rewrite Hc, Hm.
  cbn [negb mbind result_bind columns rows]. fold (has_column "Country" df). rewrite Hc.
  cbn [negb]. split; [reflexivity|]. split; [reflexivity|]. split.
  - intros country. rewrite map_map. cbn [fst]. rewrite map_id, group_keys_elem_of.
    split.
    + intros (r & Hr & <-). apply Hsel in Hr as (Hr & Hin & t & Ht & Hse).
      split; [done|]. by exists r, t.
    + intros (Hin & r & t & Hr & <- & Ht & Hse). exists r. split; [|done].
      apply Hsel. split; [done|]. split; [done|]. by exists t.
  - apply Forall_forall. intros rec Hrec.
    apply list_elem_of_In, in_map_iff in Hrec as (r & <- & Hr).
    cbn [top_Country Date].
    assert (Hin : r ∈ List.filter (selected countries s e) (rows df)).
    { apply list_elem_of_In in Hr. rewrite head_prefix in Hr.
      apply (subseteq_take _ _ _) in Hr.
      by rewrite (sort_rows_perm ascending (getitem metric)) in Hr. }
    apply Hsel in Hin as (_ & Hin & t & Ht & Hse). split; [done|].
    exists t. split; [|done]. destruct (index r) as [i|t']; [done|].
    simpl in Ht. by rewrite Ht.
Qed.

End selection.

Lemma selection_respected_witness :
  ∃ out table recs,
    filter_data tie_table_out ["Togo"; "Benin"]%string
      (days_from_civil 2021 1 1, days_from_civil 2021 1 1) = Ok out
    ∧ calculate_summary_stats out metric_T2M = Ok table
    ∧ get_top_n_records (H := numpy_insertion) out metric_T2M 5 false = Ok recs
    ∧ Forall (λ rec, top_Country rec ∈ ["Togo"; "Benin"]%string) recs.
Proof.
  destruct (selection_respected (H := numpy_insertion) tie_table_out
              ["Togo"; "Benin"]%string (days_from_civil 2021 1 1)
              (days_from_civil 2021 1 1) metric_T2M 5 false eq_refl eq_refl eq_refl)
    as (out & table & recs & H1 & H2 & H3 & _ & H4).
  exists out, table, recs. do 3 (split; [done|]).
  eapply Forall_impl; [exact H4|]. by intros rec [Hin _].
Defined.

(** ** A country's statistics and the other countries *)

Lemma group_values_selected (metric : Metric) (country : string)
    (countries : list string) (s e : Z) (rs : list Row) :
  country ∈ countries →
  group_values metric country (List.filter (selected countries s e) rs)
  = group_values metric country (List.filter (selected [country] s e) rs).
Proof.
  intros Hin. unfold group_values. rewrite !filter_andb. f_equal.
  apply filter_ext. intros r. unfold selected.
  destruct (String.eqb (Country r) country) eqn:E; [|by rewrite !andb_false_r].
  apply String.eqb_eq in E. rewrite !andb_true_r. f_equal.
  apply Bool.eq_iff_eq_true. rewrite !isin_elem_of, E.
  split; [intros _; left|done].
Qed.

(** The row of a country in the summary table does not depend on which
    other countries are selected with it: over the same dates, two
    selections that both name the country give it the same row. *)
Theorem summary_row_independent (df : DataFrame) (metric : Metric)
    (countries countries' : list string) (s e : Z) (country : string) :
  has_column "Country" df = true →
  has_column (metric_label metric) df = true →
  index_kind df = DatetimeIndex →
  country ∈ countries → country ∈ countries' →
  ∃ out out' table table',
    filter_data df countries (s, e) = Ok out
    ∧ filter_data df countries' (s, e) = Ok out'
    ∧ calculate_summary_stats out metric = Ok table
    ∧ calculate_summary_stats out' metric = Ok table'
    ∧ ∀ row, (country, row) ∈ table ↔ (country, row) ∈ table'.
Proof.
  intros Hc Hm Hk Hin Hin'.
  eexists _, _, _, _. split; [by apply filter_data_run|].
  split; [by apply filter_data_run|].
  unfold calculate_summary_stats, has_column. cbn [columns rows].
  fold (has_column "Country" df). fold (has_column (metric_label metric) df).
  rewrite Hc, Hm. cbn [negb]. split; [reflexivity|]. split; [reflexivity|].
  assert (Hrow : ∀ cs row, country ∈ cs →
            (country, row)
            ∈ map (λ c, let xs := group_values metric c
                                    (List.filter (selected cs s e) (rows df)) in
                        (c, mkSummaryRow (agg.round 2 (agg.mean xs))
                              (agg.round 2 (agg.median xs)) (agg.round 2 (agg.min xs))
                              (agg.round 2 (agg.max xs)) (agg.round 2 (agg.std xs))))
                (group_keys (List.filter (selected cs s e) (rows df)))
            ↔ (∃ r, r ∈ List.filter (selected [country] s e) (rows df))
              ∧ row = let xs := group_values metric country
                                  (List.filter (selected [country] s e) (rows df)) in
                      mkSummaryRow (agg.round 2 (agg.mean xs))
                        (agg.round 2 (agg.median xs)) (agg.round 2 (agg.min xs))
                        (agg.round 2 (agg.max xs)) (agg.round 2 (agg.std xs))).
  { intros cs row Hcs. rewrite list_elem_of_In, in_map_iff. cbv zeta.
    rewrite <- (group_values_selected metric country cs s e (rows df) Hcs). split.
    - intros (c & [= -> <-] & Hkey). split; [|done].
      apply list_elem_of_In, group_keys_elem_of in Hkey as (r & Hr & Ec).
      exists r. apply list_elem_of_In, filter_In in Hr as [Hr Hsel].
      apply list_elem_of_In, filter_In. split; [done|].
      unfold selected in *. apply andb_true_iff in Hsel as [_ Hdate].
      apply andb_true_iff. split; [|done]. apply isin_elem_of. rewrite Ec. left.
    - intros [[r Hr] ->]. exists country. split; [done|].
      apply list_elem_of_In, group_keys_elem_of.
      apply list_elem_of_In, filter_In in Hr as [Hr Hsel].
      unfold selected in Hsel. apply andb_true_iff in Hsel as [Hisin Hdate].
      apply isin_elem_of, list_elem_of_singleton in Hisin.
      exists r. split; [|done]. apply list_elem_of_In, filter_In. split; [done|].
      unfold selected. apply andb_true_iff. split; [|done].
      apply isin_elem_of. by rewrite Hisin. }
  intros row. by rewrite (Hrow countries row Hin), (Hrow countries' row Hin').
Qed.

Lemma summary_row_independent_witness :
  ∃ out out' table table',
    filter_data tie_table_out ["Togo"]%string
      (days_from_civil 2021 1 1, days_from_civil 2021 1 2) = Ok out
    ∧ filter_data tie_table_out ["Benin"; "Togo"]%string
        (days_from_civil 2021 1 1, days_from_civil 2021 1 2) = Ok out'
    ∧ calculate_summary_stats out metric_T2M = Ok table
    ∧ calculate_summary_stats out' metric_T2M = Ok table'
    ∧ ∀ row, ("Togo"%string, row) ∈ table ↔ ("Togo"%string, row) ∈ table'.
Proof.
  apply (summary_row_independent tie_table_out metric_T2M ["Togo"]%string
           ["Benin"; "Togo"]%string (days_from_civil 2021 1 1) (days_from_civil 2021 1 2)
           "Togo"%string eq_refl eq_refl eq_refl).
  - apply list_elem_of_In. simpl. tauto.
  - apply list_elem_of_In. simpl. tauto.
Defined.

(** ** No gap reaches the tables *)

Lemma omap_filled_length {A B} (f : A → option B) (l : list A) :
  Forall (λ x, is_Some (f x)) l → length (omap f l) = length l.
Proof.
  induction 1 as [|x l [y Hy] _ IH]; [done|].
  cbn [omap list_omap]. rewrite Hy. simpl. by rewrite IH.
Qed.

Lemma round2_is_Some (v : option number) : is_Some (agg.round 2 v) ↔ is_Some v.
Proof.
  destruct v as [[q|q]|]; simpl; split; intros [x Hx]; try done; by eexists.
Qed.

Section no_gaps.
Context `{Pandas}.

(** When the metric has a reading anywhere in the preprocessed dataset, no
    table computed from a selection of it shows a missing value: every row
    of the summary has a mean, a median, a minimum and a maximum, and a
    standard deviation exactly when the country has two records or more in
    the selection; and every top record has a value. *)
Theorem tables_have_no_gaps (full out : DataFrame) (countries : list string) (s e : Z)
    (metric : Metric) (n : Z) (ascending : bool) :
  preprocess_data full = Ok full →
  (∃ v, Some v ∈ column metric full) →
  filter_data full countries (s, e) = Ok out →
  ∃ table recs,
    calculate_summary_stats out metric = Ok table
    ∧ get_top_n_records out metric n ascending = Ok recs
    ∧ Forall (λ kr : string * SummaryRow,
                is_Some (Mean kr.2) ∧ is_Some (Median kr.2)
                ∧ is_Some (Min kr.2) ∧ is_Some (Max kr.2)
                ∧ (is_Some (Std_Dev kr.2)
                   ↔ (2 ≤ length (List.filter (λ r, String.eqb (Country r) kr.1)
                                    (rows out)))%nat)) table
    ∧ Forall (λ rec, is_Some (top_value rec)) recs.
Proof.
  intros Hfull [v Hv] Hout.
  pose proof (dataset_has_Country full Hfull) as Hc.
  pose proof (preprocess_index_kind full full Hfull) as Hk.
  pose proof (preprocess_required full full Hfull) as Hmiss.
  assert (Hm : has_column (metric_label metric) full = true).
  { apply (missing_fields_nil full _ Hmiss).
    destruct metric; apply list_elem_of_In; simpl; tauto. }
  assert (Hfilled : Forall is_Some (column metric full)).
  { destruct (preprocess_column_uniform full full metric Hfull) as [Hf|He]; [done|].
    rewrite Forall_forall in He. by specialize (He _ Hv). }
  rewrite (filter_data_run full countries s e Hc Hk) in Hout. injection Hout as <-.
  set (rs := List.filter (selected countries s e) (rows full)).
  assert (Hrs : Forall (λ r, is_Some (getitem metric r)) rs).
  { apply (List.Forall_map (getitem metric) is_Some rs).
    by apply Forall_filter_map. }
  unfold calculate_summary_stats, get_top_n_records, pd.sort_values, has_column.
  cbn [columns rows]. fold (has_column "Country" full).
  fold (has_column (metric_label metric) full). fold rs. rewrite Hc, Hm.
  cbn [negb mbind result_bind columns rows]. fold (has_column "Country" full).
  rewrite Hc. cbn [negb].
  eexists _, _. split; [reflexivity|]. split; [reflexivity|]. split.
  - apply Forall_forall. intros [country row] Hrow.
    apply list_elem_of_In, in_map_iff in Hrow as (c & [= <- <-] & Hkey).
    cbn [fst snd Mean Median Min Max Std_Dev].
    apply list_elem_of_In, group_keys_elem_of in Hkey as (r & Hr & Ec).
    assert (Hgroup : Forall (λ r, is_Some (getitem metric r))
                       (List.filter (λ r, String.eqb (Country r) c) rs)).
    { apply List.Forall_forall. intros r' Hr'. apply filter_In in Hr' as [Hr' _].
      rewrite List.Forall_forall in Hrs. by apply Hrs. }
    pose proof (omap_filled_length _ _ Hgroup) as Hlen. fold (group_values metric c rs) in Hlen.
    assert (Hin : r ∈ List.filter (λ r, String.eqb (Country r) c) rs).
    { apply list_elem_of_In, filter_In. split; [by apply list_elem_of_In|].
      by apply String.eqb_eq. }
    rewrite <- Hlen. rewrite !round2_is_Some.
    destruct (group_values metric c rs) as [|x xs] eqn:Eg.
    + destruct (List.filter _ rs); [by apply elem_of_nil in Hin|done].
    + destruct (agg_min_spec x xs) as (lo & -> & _).
      destruct (agg_max_spec x xs) as (hi & -> & _).
      destruct (agg_median_spec x xs) as (med & -> & _).
      split; [by eexists|]. split; [by eexists|]. split; [by eexists|].
      split; [by eexists|].
      destruct xs as [|y xs]; simpl.
      * split; [by intros [? ?]|lia].
      * split; [lia|by eexists].
  - apply Forall_forall. intros rec Hrec.
    apply list_elem_of_In, in_map_iff in Hrec as (r & <- & Hr).
    cbn [top_value]. rewrite Forall_forall in Hrs. apply Hrs.
    apply list_elem_of_In in Hr. rewrite head_prefix in Hr.
    apply (subseteq_take _ _ _) in Hr.
    by rewrite (sort_rows_perm ascending (getitem metric)) in Hr.
Qed.

End no_gaps.

Lemma tables_have_no_gaps_witness :
  ∃ table recs,
    calculate_summary_stats gap_table_out metric_T2M = Ok table
    ∧ get_top_n_records (H := numpy_insertion) gap_table_out metric_T2M 10 false = Ok recs
    ∧ Forall (λ rec, is_Some (top_value rec)) recs.
Proof.
  destruct (tables_have_no_gaps (H := numpy_insertion) gap_table_out gap_table_out
              ["Benin"; "Togo"]%string (days_from_civil 2021 1 1)
              (days_from_civil 2021 1 6) metric_T2M 10 false)
    as (table & recs & H1 & H2 & _ & H3).
  - vm_compute. reflexivity.
  - exists 5%Q. vm_compute. apply list_elem_of_In. simpl. tauto.
  - vm_compute. reflexivity.
  - by exists table, recs.
Defined.
